(** * NeMo post-training quantization: configuration and sequencing logic

    A shallow embedding of
    - [nemo/collections/llm/quantization/quantizer.py]
      (decoder-type resolver, [Quantizer], calibration data iterator), and
    - [nemo/collections/nlp/models/language_modeling/megatron/falcon/falcon_spec.py]
      (the Falcon layer spec),
    together with the properties of the specification proved about them.

    Conventions of the model:
    - Python values that the code builds or mutates (the quantization
      recipes) are trees of [PyVal]; a dictionary keeps its insertion order.
    - The global table [QUANT_CFG_CHOICES] is part of the state.  Its entries
      are the toolkit's template objects themselves, one tree per algorithm
      with nothing shared between two entries; a Python reference to an
      object inside an entry is the algorithm key followed by the chain of
      subscripts that reaches the object, and an item assignment through a
      reference changes the entry.
    - A Python exception is the [Raise] outcome of a computation; the state
      reached before the exception stays.
    - Calls into collaborators (the optimization toolkit, the export
      toolkit, the distributed runtime, the file system, the logger) are
      entries of a trace.  The [Env] of a process says which calls raise;
      the logger and [os.path.exists] always return.
    - What lies outside the two files is a parameter: the templates of the
      toolkit ([Mtq]), the classes a configuration object is an instance of
      ([config_classes]), [torch_dtype_from_precision], the loaded corpus. *)

From Stdlib Require Import ZArith String Ascii List Bool Lia.
From Stdlib Require Import Floats.PrimFloat Numbers.Cyclic.Int63.Uint63.
From stdpp Require Import base option list gmap strings.

Local Open Scope string_scope.
Local Open Scope Z_scope.
Local Set Warnings "-register-all,-inexact-float".

(** ** Python values *)

(** Keys of the dictionaries the recipes use: strings, and the integer [-1]
    of a [block_sizes] entry. *)
Inductive PyKey :=
| KInt (z : Z)
| KStr (s : string).

#[global] Instance PyKey_eq_dec : EqDecision PyKey.
Proof. solve_decision. Defined.

(** A dictionary is a list of items in insertion order, as Python keeps it. *)
Inductive PyVal :=
| VNone
| VBool (b : bool)
| VInt (z : Z)
| VFloat (f : float)
| VStr (s : string)
| VTuple (xs : list PyVal)
| VList (xs : list PyVal)
| VDict (items : list (PyKey * PyVal)).

Inductive Exn :=
| KeyError (k : PyKey)
| IndexError
| TypeError
| ZeroDivisionError
| AttributeError (attr : string)
| AssertionError (msg : list PyVal)
| RuntimeError (msg : string)
| EnvironmentError (msg : string)
| ImportError (msg : string)
| ValueError (msg : string).

Inductive Outcome (A : Type) :=
| Ok (a : A)
| Raise (e : Exn).
Arguments Ok {A} a.
Arguments Raise {A} e.

Definition is_ok {A} (o : Outcome A) : bool :=
  match o with Ok _ => true | Raise _ => false end.

(** *** Dictionaries *)

Fixpoint dict_get (k : PyKey) (d : list (PyKey * PyVal)) : option PyVal :=
  match d with
  | [] => None
  | (k', v) :: d' => if decide (k' = k) then Some v else dict_get k d'
  end.

(** [d[k] = v]: an existing key keeps its position, a new key goes last. *)
Fixpoint dict_set (k : PyKey) (v : PyVal) (d : list (PyKey * PyVal))
  : list (PyKey * PyVal) :=
  match d with
  | [] => [(k, v)]
  | (k', v') :: d' =>
      if decide (k' = k) then (k, v) :: d' else (k', v') :: dict_set k v d'
  end.

(** *** Sequences *)

(** The position a Python index denotes in a sequence of [n] items:
    negative indices count from the end. *)
Definition norm_index (n : nat) (i : Z) : option nat :=
  let j := if i <? 0 then i + Z.of_nat n else i in
  if (0 <=? j) && (j <? Z.of_nat n) then Some (Z.to_nat j) else None.

Definition seq_get (xs : list PyVal) (i : Z) : Outcome PyVal :=
  match norm_index (length xs) i with
  | Some j => match xs !! j with Some v => Ok v | None => Raise IndexError end
  | None => Raise IndexError
  end.

Definition seq_set (xs : list PyVal) (i : Z) (v : PyVal) : Outcome (list PyVal) :=
  match norm_index (length xs) i with
  | Some j => Ok (<[j := v]> xs)
  | None => Raise IndexError
  end.

(** *** Subscription [v[k]] and item assignment [v[k] = x] *)

Definition py_getitem (v : PyVal) (k : PyKey) : Outcome PyVal :=
  match v, k with
  | VDict d, _ =>
      match dict_get k d with Some x => Ok x | None => Raise (KeyError k) end
  | VList xs, KInt i => seq_get xs i
  | VTuple xs, KInt i => seq_get xs i
  | _, _ => Raise TypeError
  end.

Definition py_setitem (v : PyVal) (k : PyKey) (x : PyVal) : Outcome PyVal :=
  match v, k with
  | VDict d, _ => Ok (VDict (dict_set k x d))
  | VList xs, KInt i =>
      match seq_set xs i x with Ok xs' => Ok (VList xs') | Raise e => Raise e end
  | _, _ => Raise TypeError
  end.

(** A mutable object reached from a root by a chain of subscripts is named
    by that chain.  Reading through the chain: *)
Fixpoint py_get_path (v : PyVal) (p : list PyKey) : Outcome PyVal :=
  match p with
  | [] => Ok v
  | k :: p' =>
      match py_getitem v k with
      | Ok c => py_get_path c p'
      | Raise e => Raise e
      end
  end.

(** Item assignment on the object at the end of the chain, seen from the
    root: the object is mutated in place, so every holder of the root sees
    the new item. *)
Fixpoint py_set_path (v : PyVal) (p : list PyKey) (k : PyKey) (x : PyVal)
  : Outcome PyVal :=
  match p with
  | [] => py_setitem v k x
  | j :: p' =>
      match py_getitem v j with
      | Ok c =>
          match py_set_path c p' k x with
          | Ok c' => py_setitem v j c'
          | Raise e => Raise e
          end
      | Raise e => Raise e
      end
  end.

(** *** Strings *)

(** [sub in s] for strings. *)
Fixpoint str_contains (sub s : string) : bool :=
  String.prefix sub s ||
  match s with
  | EmptyString => false
  | String _ s' => str_contains sub s'
  end.

(** Truth value of an optional string: [None] and [""] are false. *)
Definition str_truthy (o : option string) : bool :=
  match o with
  | Some (String _ _) => true
  | _ => false
  end.

(** [s[:m]]: a negative [m] drops the last [-m] characters. *)
Fixpoint str_take (n : nat) (s : string) : string :=
  match n, s with
  | S n', String c s' => String c (str_take n' s')
  | _, _ => EmptyString
  end.

Definition str_slice_to (s : string) (m : Z) : string :=
  let n := Z.of_nat (String.length s) in
  let hi := if m <? 0 then Z.max 0 (m + n) else Z.min m n in
  str_take (Z.to_nat hi) s.

(** [l[lo:hi]] for a list, with Python's clamping of both bounds. *)
Definition slice_bound (n : nat) (i : Z) : nat :=
  let len := Z.of_nat n in
  Z.to_nat (if i <? 0 then Z.max 0 (i + len) else Z.min i len).

Definition py_slice {A} (l : list A) (lo hi : Z) : list A :=
  let a := slice_bound (length l) lo in
  let b := slice_bound (length l) hi in
  take (b - a) (drop a l).

(** [range(n)] *)
Definition py_range (n : Z) : list Z :=
  map Z.of_nat (seq 0 (Z.to_nat n)).

(** ** Data model of [quantizer.py] *)

Inductive TorchDtype := float16 | bfloat16 | float32.

(** [Union[str, int]] *)
Inductive Dtype :=
| DInt (z : Z)
| DStr (s : string).

#[global] Instance Dtype_eq_dec : EqDecision Dtype.
Proof. solve_decision. Defined.

(** [SUPPORTED_DTYPE = [16, "16", "bf16"]] *)
Definition SUPPORTED_DTYPE : list Dtype := [DInt 16; DStr "16"; DStr "bf16"].

(** [QuantizationConfig].  The field [enable_kv_cache] is annotated [bool]
    with default [True]; [quantize] also tests it against [None], which a
    caller can pass, so the field holds an optional boolean. *)
Record QuantizationConfig := {
  algorithm : option string;
  awq_block_size : Z;
  sq_alpha : float;
  enable_kv_cache : option bool;
}.

(** The dataclass defaults: [QuantizationConfig()]. *)
Definition default_QuantizationConfig : QuantizationConfig :=
  {| algorithm := Some "fp8";
     awq_block_size := 128;
     sq_alpha := 0.5%float;
     enable_kv_cache := Some true |}.

Record ExportConfig := {
  path : string;
  dtype : Dtype;
  decoder_type : option string;
  inference_tensor_parallel : Z;
  inference_pipeline_parallel : Z;
}.

(** [ExportConfig(path)] *)
Definition default_ExportConfig (p : string) : ExportConfig :=
  {| path := p;
     dtype := DStr "bf16";
     decoder_type := None;
     inference_tensor_parallel := 1;
     inference_pipeline_parallel := 1 |}.

(** The configuration classes of [nemo.collections.llm] that the resolver
    names; any other class is an [OtherConfig]. *)
Inductive ConfigClass :=
| Baichuan2Config
| ChatGLMConfig
| GemmaConfig
| LlamaConfig
| MistralConfig7B
| MixtralConfig
| NemotronConfig
| Qwen2Config
| Starcoder2Config
| OtherConfig (name : string).

#[global] Instance ConfigClass_eq_dec : EqDecision ConfigClass.
Proof. solve_decision. Defined.

(** A model configuration object: the classes it is an instance of (its
    class and every base class), and the fields the quantizer touches. *)
Record GPTConfig := {
  config_classes : list ConfigClass;
  vocab_size : option Z;
  pipeline_dtype : option TorchDtype;
  pipeline_model_parallel_size : Z;
}.

Definition isinstance (c : GPTConfig) (cls : ConfigClass) : bool :=
  bool_decide (cls ∈ config_classes c).

(** The bare module the toolkits work on, and the wrapped model. *)
Record McoreModel := {
  mcore_config : GPTConfig;
}.

Record GPTModel := {
  config : GPTConfig;
  tokenizer_vocab_size : Z;
  num_nodes : Z;
  module : McoreModel;
}.

(** The [Quantizer] object: the attributes [__init__] sets. *)
Record Quantizer := {
  quantization_config : QuantizationConfig;
  export_config : option ExportConfig;
  nemo_checkpoint_path : option string;
  torch_dtype : TorchDtype;
}.

(** ** Collaborators *)

(** Calls that leave the module, with the arguments the properties below
    look at.  A log message is the list of the pieces of its f-string. *)
Inductive Call :=
| LoggingInfo (msg : list PyVal)
| LoggingWarning (msg : list PyVal)
| ModelFreeze
| GetUnwrappedMcoreModel
| MtqQuantize (quant_cfg : PyVal)
| MtqPostprocessAmax (pattern : string) (clamp_min : float)
| MtqPrintQuantSummary
| DistGetRank
| DistBarrier
| ExportTensorrtLlmCheckpoint
    (decoder_type : string) (dtype : TorchDtype) (export_dir : string)
    (inference_tensor_parallel inference_pipeline_parallel : Z)
    (use_nfs_workspace : bool)
| OsPathExists (p : string)
| ShutilCopytree (src dst : string).

(** What a process observes of a call: it returned, or it raised. *)
Inductive Entry :=
| Returned (c : Call)
| Raised (c : Call) (e : Exn).

(** The environment of a process: what is installed, and how the
    collaborators answer.  [raises] tells which calls fail. *)
Record Env := {
  HAVE_MODELOPT : bool;
  cuda_is_available : bool;
  torch_dtype_from_precision : Dtype -> Outcome TorchDtype;
  get_rank : Z;
  os_path_exists : string -> bool;
  raises : Call -> option Exn;
}.

(** The external recipe templates of the optimization toolkit. *)
Record Mtq := {
  INT8_DEFAULT_CFG : PyVal;
  INT8_SMOOTHQUANT_CFG : PyVal;
  FP8_DEFAULT_CFG : PyVal;
  INT4_AWQ_CFG : PyVal;
  W4A8_AWQ_BETA_CFG : PyVal;
  INT4_BLOCKWISE_WEIGHT_ONLY_CFG : PyVal;
}.

(** Module state: the global table [QUANT_CFG_CHOICES] (one object per
    algorithm, shared by every call), and the trace of calls so far. *)
Record World := {
  QUANT_CFG_CHOICES : gmap string PyVal;
  trace : list Entry;
}.

(** The table as the module builds it at import. *)
Definition initial_QUANT_CFG_CHOICES (mtq : Mtq) : gmap string PyVal :=
  <["int8" := INT8_DEFAULT_CFG mtq]>
  (<["int8_sq" := INT8_SMOOTHQUANT_CFG mtq]>
  (<["fp8" := FP8_DEFAULT_CFG mtq]>
  (<["int4_awq" := INT4_AWQ_CFG mtq]>
  (<["w4a8_awq" := W4A8_AWQ_BETA_CFG mtq]>
  (<["int4" := INT4_BLOCKWISE_WEIGHT_ONLY_CFG mtq]> ∅))))).

Definition initial_World (mtq : Mtq) : World :=
  {| QUANT_CFG_CHOICES := initial_QUANT_CFG_CHOICES mtq; trace := [] |}.

Definition SUPPORTED_ALGORITHMS : list string :=
  ["int8"; "int8_sq"; "fp8"; "int4_awq"; "w4a8_awq"; "int4"].

(** ** Computations: state that survives an exception *)

Definition M (A : Type) : Type := World -> Outcome A * World.

#[global] Instance M_ret : MRet M := λ A a w, (Ok a, w).
#[global] Instance M_bind : MBind M := λ A B f m w,
  match m w with
  | (Ok a, w') => f a w'
  | (Raise e, w') => (Raise e, w')
  end.

Definition raise {A} (e : Exn) : M A := λ w, (Raise e, w).

Definition lift {A} (o : Outcome A) : M A := λ w, (o, w).

Definition log (x : Entry) (w : World) : World :=
  {| QUANT_CFG_CHOICES := QUANT_CFG_CHOICES w; trace := (trace w ++ [x])%list |}.

Definition set_choices (t : gmap string PyVal) (w : World) : World :=
  {| QUANT_CFG_CHOICES := t; trace := trace w |}.

(** A call that always returns: the logger. *)
Definition call_total {A} (c : Call) (a : A) : M A := λ w,
  (Ok a, log (Returned c) w).

Definition logging_info (msg : list PyVal) : M unit :=
  call_total (LoggingInfo msg) ().

Definition logging_warning (msg : list PyVal) : M unit :=
  call_total (LoggingWarning msg) ().

(** A reference into the table: the algorithm key, then subscripts. *)
Definition Ref : Type := string * list PyKey.

Section Quantizer.

Variable env : Env.

(** A call to a collaborator with result [a]; the environment tells
    whether it raises instead. *)
Definition call {A} (c : Call) (a : A) : M A := λ w,
  match raises env c with
  | None => (Ok a, log (Returned c) w)
  | Some e => (Raise e, log (Raised c e) w)
  end.

(** [os.path.exists] answers [False] where it cannot tell. *)
Definition os_path_exists_call (p : string) : M bool :=
  call_total (OsPathExists p) (os_path_exists env p).

(** [QUANT_CFG_CHOICES[algorithm]] *)
Definition choices_getitem (alg : string) : M Ref := λ w,
  match QUANT_CFG_CHOICES w !! alg with
  | Some _ => (Ok (alg, []), w)
  | None => (Raise (KeyError (KStr alg)), w)
  end.

(** The value a reference denotes now. *)
Definition load (r : Ref) : M PyVal := λ w,
  match QUANT_CFG_CHOICES w !! r.1 with
  | Some v => (py_get_path v r.2, w)
  | None => (Raise (KeyError (KStr r.1)), w)
  end.

(** [r[k]], a reference to the item. *)
Definition ref_getitem (r : Ref) (k : PyKey) : M Ref :=
  v ← load r;
  _ ← lift (py_getitem v k);
  mret (r.1, (r.2 ++ [k])%list).

(** [r[k] = x]: the table entry itself changes. *)
Definition ref_setitem (r : Ref) (k : PyKey) (x : PyVal) : M unit := λ w,
  match QUANT_CFG_CHOICES w !! r.1 with
  | Some v =>
      match py_set_path v r.2 k x with
      | Ok v' => (Ok (), set_choices (<[r.1 := v']> (QUANT_CFG_CHOICES w)) w)
      | Raise e => (Raise e, w)
      end
  | None => (Raise (KeyError (KStr r.1)), w)
  end.

(** [isinstance(r, list)] *)
Definition ref_is_list (r : Ref) : M bool :=
  v ← load r;
  mret (match v with VList _ => true | _ => false end).

(** *** [get_modelopt_decoder_type] *)

Definition mapping : list (ConfigClass * string) :=
  [ (Baichuan2Config, "baichuan");
    (ChatGLMConfig, "chatglm");
    (GemmaConfig, "gemma");
    (LlamaConfig, "llama");
    (MistralConfig7B, "llama");
    (MixtralConfig, "llama");
    (NemotronConfig, "gptnext");
    (Qwen2Config, "qwen");
    (Starcoder2Config, "gptnext") ].

(** The loop over [mapping], left at the first match. *)
Fixpoint first_match (config : GPTConfig) (m : list (ConfigClass * string))
  : option string :=
  match m with
  | [] => None
  | (config_class, decoder_type) :: m' =>
      if isinstance config config_class then Some decoder_type
      else first_match config m'
  end.

Definition get_modelopt_decoder_type (config : GPTConfig) : M string :=
  match first_match config mapping with
  | Some decoder_type => mret decoder_type
  | None =>
      logging_warning [VStr "Could not directly infer the decoder type"];;
      mret "llama"
  end.

(** *** [Quantizer.__init__] *)

Definition Quantizer_init (quantization_config : QuantizationConfig)
    (export_config : option ExportConfig) : M Quantizer :=
  if negb (HAVE_MODELOPT env) then
    raise (RuntimeError "nvidia-modelopt is needed to use Quantizer")
  else if negb (cuda_is_available env) then
    raise (EnvironmentError "GPU is required for the quantization.")
  else
    let algorithm := algorithm quantization_config in
    match export_config with
    | None => raise (AttributeError "dtype")
    | Some ec =>
        let dtype := dtype ec in
        choices ← (λ w, (Ok (QUANT_CFG_CHOICES w), w));
        let known :=
          match algorithm with
          | None => true
          | Some a => bool_decide (is_Some ((choices : gmap string PyVal) !! a))
          end in
        if negb known then
          raise (AssertionError
                   [VStr "Unsupported quantization algorithm: ";
                    from_option VStr VNone algorithm])
        else if negb (bool_decide (dtype ∈ SUPPORTED_DTYPE)) then
          raise (AssertionError
                   [VStr "Unsupported export dtype: ";
                    match dtype with DInt z => VInt z | DStr s => VStr s end])
        else
          torch_dtype ← lift (torch_dtype_from_precision env dtype);
          mret {| quantization_config := quantization_config;
                  export_config := export_config;
                  nemo_checkpoint_path := None;
                  torch_dtype := torch_dtype |}
    end.

(** *** [Quantizer._setup]: the vocabulary size and the pipeline dtype go
    onto the model's configuration, then the model is frozen. *)

Definition _setup (self : Quantizer) (model : GPTModel) : M GPTModel :=
  let config' :=
    {| config_classes := config_classes (config model);
       vocab_size := Some (tokenizer_vocab_size model);
       pipeline_dtype := Some (torch_dtype self);
       pipeline_model_parallel_size :=
         pipeline_model_parallel_size (config model) |} in
  let model' :=
    {| config := config';
       tokenizer_vocab_size := tokenizer_vocab_size model;
       num_nodes := num_nodes model;
       module := module model |} in
  call ModelFreeze ();;
  mret model'.

(** *** [Quantizer._get_decoder_type]:
    [self.export_config.decoder_type or get_modelopt_decoder_type(config)] *)

Definition _get_decoder_type (self : Quantizer) (config : GPTConfig) : M string :=
  match export_config self with
  | None => raise (AttributeError "decoder_type")
  | Some ec =>
      match decoder_type ec with
      | Some (String _ _ as d) => mret d
      | _ => get_modelopt_decoder_type config
      end
  end.

(** [get_unwrapped_mcore_model] of [.utils]: the bare module inside the
    wrapped model. *)
Definition get_unwrapped_mcore_model (model : GPTModel) : M McoreModel :=
  call GetUnwrappedMcoreModel (module model).

(** *** [Quantizer.quantize] *)

(** [match algorithm: case "fp8": 448, case "int8_sq": 127, case _: 0] *)
Definition maxbound (algorithm : string) : Z :=
  if decide (algorithm = "fp8") then 448
  else if decide (algorithm = "int8_sq") then 127
  else 0.

Definition float_of_int (z : Z) : float := PrimFloat.of_uint63 (Uint63.of_Z z).

(** The minimum the amax post-processing clamps to: [0.01 * maxbound]. *)
Definition amax_clamp_min (algorithm : string) : float :=
  (0.01 * float_of_int (maxbound algorithm))%float.

(** [torch.clamp(amax, min=lo)] on one entry of the tensor. *)
Definition torch_clamp_min (lo amax : float) : float :=
  if PrimFloat.ltb amax lo then lo else amax.

(** The dictionary literals of [quantize]:
    [{"num_bits": 8 if algorithm == "int8_sq" else (4, 3), "axis": None,
      "enable": enable_quant_kv_cache}] and
    [{"method": "smoothquant", "alpha": sq_alpha}]. *)
Definition output_quantizer_entry (algorithm : string)
    (enable_quant_kv_cache : bool) : PyVal :=
  VDict
    [ (KStr "num_bits",
       if decide (algorithm = "int8_sq") then VInt 8
       else VTuple [VInt 4; VInt 3]);
      (KStr "axis", VNone);
      (KStr "enable", VBool enable_quant_kv_cache) ].

Definition smoothquant_entry (sq_alpha : float) : PyVal :=
  VDict [ (KStr "method", VStr "smoothquant");
          (KStr "alpha", VFloat sq_alpha) ].

Definition quantize {L : Type} (self : Quantizer) (model : GPTModel)
    (forward_loop : L) : M GPTModel :=
  match algorithm (quantization_config self) with
  | None =>
      logging_info
        [VStr "Quantization algorithm set to None, returning the non-quantized model"];;
      mret model
  | Some algorithm =>
      logging_info [VStr "Quantizing model to "; VStr algorithm; VStr "..."];;
      model ← _setup self model;
      unwrapped_model ← get_unwrapped_mcore_model model;
      decoder_type ← _get_decoder_type self (mcore_config unwrapped_model);
      quant_cfg ← choices_getitem algorithm;
      (if str_contains "awq" algorithm then
         qc ← ref_getitem quant_cfg (KStr "quant_cfg");
         weight_quantizer ← ref_getitem qc (KStr "*weight_quantizer");
         is_list ← ref_is_list weight_quantizer;
         weight_quantizer ←
           (if is_list : bool then ref_getitem weight_quantizer (KInt 0)
            else mret weight_quantizer);
         block_sizes ← ref_getitem weight_quantizer (KStr "block_sizes");
         ref_setitem block_sizes (KInt (-1))
           (VInt (awq_block_size (quantization_config self)))
       else mret ());;
      let enable_quant_kv_cache :=
        match enable_kv_cache (quantization_config self) with
        | Some b => b
        | None =>
            negb (str_contains "int8" algorithm)
            && negb (bool_decide (decoder_type = "gptnext"))
        end in
      logging_info
        [VStr (if enable_quant_kv_cache then "Enabled" else "Disabled");
         VStr " KV cache quantization"];;
      qc ← ref_getitem quant_cfg (KStr "quant_cfg");
      ref_setitem qc (KStr "*output_quantizer")
        (output_quantizer_entry algorithm enable_quant_kv_cache);;
      (if decide (algorithm = "int8_sq") then
         let sq_alpha := sq_alpha (quantization_config self) in
         logging_info [VStr "Using int8_sq alpha = "; VFloat sq_alpha];;
         ref_setitem quant_cfg (KStr "algorithm") (smoothquant_entry sq_alpha)
       else mret ());;
      recipe ← load quant_cfg;
      unwrapped_model ← call (MtqQuantize recipe) unwrapped_model;
      unwrapped_model ←
        (if decide (decoder_type = "gptnext") then
           (* lambda amax: torch.clamp(amax, min=0.01 * maxbound) *)
           call (MtqPostprocessAmax "*input_quantizer" (amax_clamp_min algorithm))
                unwrapped_model
         else mret unwrapped_model);
      rank ← call DistGetRank (get_rank env);
      (if rank =? 0 then call MtqPrintQuantSummary () else mret ());;
      mret model
  end.

(** *** [Quantizer.export] *)

(** [os.path.join] on POSIX. *)
Definition ends_with_sep (s : string) : bool :=
  match String.get (Nat.pred (String.length s)) s with
  | Some c => bool_decide (c = "/"%char)
  | None => false
  end.

Definition os_path_join2 (a b : string) : string :=
  if String.prefix "/" b then b
  else if bool_decide (a = "") || ends_with_sep a then a ++ b
  else a ++ "/" ++ b.

Definition os_path_join (a : string) (ps : list string) : string :=
  foldl os_path_join2 a ps.

(** [nemo_checkpoint_path or self.nemo_checkpoint_path] *)
Definition effective_checkpoint_path (self : Quantizer)
    (nemo_checkpoint_path_arg : option string) : option string :=
  if str_truthy nemo_checkpoint_path_arg then nemo_checkpoint_path_arg
  else nemo_checkpoint_path self.

Definition tokenizer_src_of (ckpt : string) : string :=
  os_path_join ckpt ["context"; "nemo_tokenizer"].

Definition tokenizer_dst_of (export_dir : string) : string :=
  os_path_join export_dir ["tokenizer"].

Definition with_nemo_checkpoint_path (self : Quantizer) (p : option string)
  : Quantizer :=
  {| quantization_config := quantization_config self;
     export_config := export_config self;
     nemo_checkpoint_path := p;
     torch_dtype := torch_dtype self |}.

(** The method returns nothing; the result here is [self] as the call
    leaves it. *)
Definition export (self : Quantizer) (model : GPTModel)
    (nemo_checkpoint_path_arg : option string) : M Quantizer :=
  match export_config self with
  | None => raise (AssertionError [VStr "Export config is not set"])
  | Some ec =>
      let export_dir := path ec in
      let use_nfs_workspace :=
        (1 <? num_nodes model)
        || (1 <? pipeline_model_parallel_size (config model)) in
      unwrapped ← get_unwrapped_mcore_model model;
      decoder_type ← _get_decoder_type self (config model);
      call (ExportTensorrtLlmCheckpoint decoder_type (torch_dtype self)
              export_dir (inference_tensor_parallel ec)
              (inference_pipeline_parallel ec) use_nfs_workspace) ();;
      call DistBarrier ();;
      logging_info
        [VStr "Export succeeded, model has been exported to ";
         VStr export_dir; VStr ". Saving tokenizer if possible..."];;
      rank ← call DistGetRank (get_rank env);
      if rank =? 0 then
        let self :=
          with_nemo_checkpoint_path self
            (effective_checkpoint_path self nemo_checkpoint_path_arg) in
        match nemo_checkpoint_path self with
        | Some ckpt =>
            let tokenizer_src := tokenizer_src_of ckpt in
            let tokenizer_dst := tokenizer_dst_of export_dir in
            src_exists ← os_path_exists_call tokenizer_src;
            dst_exists ←
              (if src_exists : bool then os_path_exists_call tokenizer_dst
               else mret true);
            (if src_exists && negb dst_exists then
               call (ShutilCopytree tokenizer_src tokenizer_dst) ()
             else
               logging_info
                 [VStr "Could not copy tokenizer from the NeMo checkpoint"]);;
            mret self
        | None => mret self
        end
      else mret self
  end.

End Quantizer.

(** ** [get_calib_data_iter] *)

Section CalibData.

(** A row of a loaded corpus gives the text of each column. *)
Definition Row : Type := string -> string.
Definition Dataset : Type := list Row.

(** The corpus loader: [load_dataset(path, name=..., data_files=...,
    split="train")]. *)
Variable load_dataset : string -> option string -> option string -> Dataset.

(** The corpus a call reads, and its text column. *)
Definition load_corpus (data : string) : Dataset * string :=
  if decide (data = "wikitext") then
    (load_dataset "wikitext" (Some "wikitext-103-v1") None, "text")
  else if decide (data = "cnn_dailymail") then
    (load_dataset "cnn_dailymail" (Some "3.0.0") None, "article")
  else
    (* a local JSON dataset with a column named "text" *)
    (load_dataset "json" None (Some data), "text").

(** The generator, as the sequence of the batches it yields; the division
    by [batch_size] is reached before the first batch. *)
Definition get_calib_data_iter (data : string)
    (batch_size calib_size max_sequence_length : Z)
  : Outcome (list (list string)) :=
  let '(dataset, text_column) := load_corpus data in
  let calib_size :=
    Z.max (Z.min (Z.of_nat (length dataset)) calib_size) batch_size in
  if batch_size =? 0 then Raise ZeroDivisionError
  else
    Ok (map
          (λ i,
             let batch :=
               map (λ row : Row, row text_column)
                   (py_slice dataset (i * batch_size) ((i + 1) * batch_size)) in
             map (λ s, str_slice_to s max_sequence_length) batch)
          (py_range (calib_size / batch_size))).

End CalibData.

(** ** [falcon_spec.py] *)

Module Falcon.

(** The names the module imports from megatron-core, and its own layer. *)
Inductive Symbol :=
| TEColumnParallelLinear
| TEDotProductAttention
| TENorm
| TERowParallelLinear
| get_bias_dropout_add
| SelfAttention
| IdentityOp
| MLP
| FalconTransformerLayer.

Inductive AttnMaskType := padding | causal.

(** The classes whose instances carry the submodules. *)
Inductive SubmodulesClass :=
| SelfAttentionSubmodules
| MLPSubmodules
| TransformerLayerSubmodules.

(** A value of the spec: an imported name, an enum member, a [ModuleSpec]
    with the keyword arguments it was built from, or an instance of a
    submodules class with its attributes. *)
Inductive SpecVal :=
| Sym (s : Symbol)
| Mask (m : AttnMaskType)
| ModuleSpec (module : Symbol) (params : list (string * SpecVal))
    (submodules : option SpecVal)
| Obj (cls : SubmodulesClass) (attrs : list (string * SpecVal)).

Fixpoint assoc (k : string) (l : list (string * SpecVal)) : option SpecVal :=
  match l with
  | [] => None
  | (k', v) :: l' => if decide (k' = k) then Some v else assoc k l'
  end.

Fixpoint assoc_set (k : string) (v : SpecVal) (l : list (string * SpecVal))
  : list (string * SpecVal) :=
  match l with
  | [] => [(k, v)]
  | (k', v') :: l' =>
      if decide (k' = k) then (k, v) :: l' else (k', v') :: assoc_set k v l'
  end.

(** [obj.name] and [obj.name = v] *)
Definition getattr (o : SpecVal) (name : string) : option SpecVal :=
  match o with
  | Obj _ attrs => assoc name attrs
  | ModuleSpec m ps sub =>
      if decide (name = "module") then Some (Sym m)
      else if decide (name = "submodules") then sub
      else None
  | _ => None
  end.

Definition setattr (o : SpecVal) (name : string) (v : SpecVal) : SpecVal :=
  match o with
  | Obj c attrs => Obj c (assoc_set name v attrs)
  | _ => o
  end.

Definition spec_params (o : SpecVal) : list (string * SpecVal) :=
  match o with
  | ModuleSpec _ ps _ => ps
  | _ => []
  end.

(** The [TransformerLayerSubmodules(...)] call. *)
Definition new_falcon_submodules : SpecVal :=
  Obj TransformerLayerSubmodules
    [ ("input_layernorm", Sym TENorm);
      ("self_attention",
       ModuleSpec SelfAttention
         [("attn_mask_type", Mask causal)]
         (Some (Obj SelfAttentionSubmodules
                  [ ("linear_qkv", Sym TEColumnParallelLinear);
                    ("core_attention", Sym TEDotProductAttention);
                    ("linear_proj", Sym TERowParallelLinear);
                    ("q_layernorm", Sym IdentityOp);
                    ("k_layernorm", Sym IdentityOp) ])));
      ("self_attn_bda", Sym get_bias_dropout_add);
      ("pre_mlp_layernorm", Sym TENorm);
      ("mlp",
       ModuleSpec MLP []
         (Some (Obj MLPSubmodules
                  [ ("linear_fc1", Sym TEColumnParallelLinear);
                    ("linear_fc2", Sym TERowParallelLinear) ])));
      ("mlp_bda", Sym get_bias_dropout_add) ].

Definition get_falcon_layer_spec (HAVE_MEGATRON_CORE : bool) : Outcome SpecVal :=
  if negb HAVE_MEGATRON_CORE then
    Raise (ImportError
      "megatron-core was not found. Please see the NeMo README for installation instructions: https://github.com/NVIDIA/NeMo#megatron-gpt.")
  else
    let falcon_submodules := new_falcon_submodules in
    (* Old falcon (prior to 7b/40b/180b) uses post_self_attn_layernorm,
       which is not a field of TransformerLayerSubmodules. *)
    let falcon_submodules :=
      setattr falcon_submodules "post_self_attn_layernorm" (Sym TENorm) in
    Ok (ModuleSpec FalconTransformerLayer [] (Some falcon_submodules)).

End Falcon.

(** ** What the properties observe *)

(** [recipe["quant_cfg"]["*output_quantizer"]["enable"]] *)
Definition output_quantizer_enable (recipe : PyVal) : Outcome PyVal :=
  py_get_path recipe [KStr "quant_cfg"; KStr "*output_quantizer"; KStr "enable"].

(** [recipe["quant_cfg"]["*weight_quantizer"]] *)
Definition weight_quantizer_of (recipe : PyVal) : Outcome PyVal :=
  py_get_path recipe [KStr "quant_cfg"; KStr "*weight_quantizer"].

Definition is_list (v : PyVal) : bool :=
  match v with VList _ => true | _ => false end.

(** The last block-size entry of the weight quantizer, of its first element
    when the weight quantizer is a list. *)
Definition weight_block_size (recipe : PyVal) : Outcome PyVal :=
  match weight_quantizer_of recipe with
  | Ok wq =>
      match (if is_list wq then py_getitem wq (KInt 0) else Ok wq) with
      | Ok target => py_get_path target [KStr "block_sizes"; KInt (-1)]
      | Raise e => Raise e
      end
  | Raise e => Raise e
  end.

(** The decoder type [_get_decoder_type] returns for a configuration, when
    it returns. *)
Definition resolved_decoder_type (self : Quantizer) (config : GPTConfig)
  : option string :=
  match export_config self with
  | None => None
  | Some ec =>
      match decoder_type ec with
      | Some (String _ _ as d) => Some d
      | _ => Some (default "llama" (first_match config mapping))
      end
  end.

(** The chain of subscripts from a recipe to the [block_sizes] object that
    the "awq" branch of [quantize] assigns into, for a weight quantizer
    [wq]. *)
Definition block_sizes_path (wq : PyVal) : list PyKey :=
  ([KStr "quant_cfg"; KStr "*weight_quantizer"]
   ++ (if is_list wq then [KInt 0] else [])
   ++ [KStr "block_sizes"])%list.

(** The automatic choice of [quantize] for the KV cache. *)
Definition kv_cache_auto (algorithm decoder_type : string) : bool :=
  negb (str_contains "int8" algorithm)
  && negb (bool_decide (decoder_type = "gptnext")).

(** The enable flag [quantize] writes. *)
Definition kv_cache_flag (qc : QuantizationConfig) (algorithm decoder_type : string)
  : bool :=
  match enable_kv_cache qc with
  | Some b => b
  | None => kv_cache_auto algorithm decoder_type
  end.

(** Kinds of trace entries. *)
Definition is_mtq_quantize_returned (x : Entry) : bool :=
  match x with Returned (MtqQuantize _) => true | _ => false end.

Definition entry_call (x : Entry) : Call :=
  match x with Returned c => c | Raised c _ => c end.

Definition is_postprocess_amax (x : Entry) : bool :=
  match entry_call x with MtqPostprocessAmax _ _ => true | _ => false end.

Definition is_export_returned (x : Entry) : bool :=
  match x with
  | Returned (ExportTensorrtLlmCheckpoint _ _ _ _ _ _) => true
  | _ => false
  end.

Definition is_barrier (x : Entry) : bool :=
  match entry_call x with DistBarrier => true | _ => false end.

Definition is_barrier_returned (x : Entry) : bool :=
  match x with Returned DistBarrier => true | _ => false end.

Definition is_copytree (x : Entry) : bool :=
  match entry_call x with ShutilCopytree _ _ => true | _ => false end.

(** A step of the tokenizer copy: a look at the source or destination
    directory, or the copy itself. *)
Definition is_tokenizer_step (x : Entry) : bool :=
  match entry_call x with
  | OsPathExists _ | ShutilCopytree _ _ => true
  | _ => false
  end.

(** The log entry of a skipped tokenizer copy. *)
Definition copy_skipped_message : Entry :=
  Returned
    (LoggingInfo [VStr "Could not copy tokenizer from the NeMo checkpoint"]).

(** Entries other than the toolkit's quantize and amax post-processing
    calls. *)
Definition quiet (x : Entry) : Prop :=
  is_postprocess_amax x = false ∧ is_mtq_quantize_returned x = false.

(** Calls whose entries are quiet, returned or raised. *)
Definition quiet_call (c : Call) : Prop :=
  match c with
  | MtqQuantize _ | MtqPostprocessAmax _ _ => False
  | _ => True
  end.

(** A computation only adds entries to the trace, and what it adds
    satisfies [P], whether it returns or raises. *)
Definition emits {A} (P : list Entry → Prop) (m : M A) : Prop :=
  ∀ w o w', m w = (o, w') → ∃ t, trace w' = (trace w ++ t)%list ∧ P t.

Definition quietly {A} (m : M A) : Prop := emits (Forall quiet) m.

(** Every [q] entry of a trace has a [p] entry strictly before it. *)
Definition each_after (p q : Entry -> bool) (t : list Entry) : Prop :=
  ∀ pre x post, t = (pre ++ x :: post)%list → q x = true →
    ∃ y, y ∈ pre ∧ p y = true.

(** The same, computed along the trace. *)
Fixpoint each_afterb (p q : Entry -> bool) (seen : bool) (t : list Entry) : bool :=
  match t with
  | [] => true
  | x :: t' => (negb (q x) || seen) && each_afterb p q (seen || p x) t'
  end.

(** What [quantize] may add to the trace: the amax post-processing comes
    only after the toolkit's quantize call returned, only for the decoder
    type "gptnext", and with the clamp of the algorithm. *)
Definition amax_after_quantize (self : Quantizer) (model : GPTModel)
    (alg : string) (t : list Entry) : Prop :=
  each_afterb is_mtq_quantize_returned is_postprocess_amax false t = true
  ∧ ∀ x, x ∈ t → is_postprocess_amax x = true →
      resolved_decoder_type self (mcore_config (module model)) = Some "gptnext"
      ∧ entry_call x
        = MtqPostprocessAmax "*input_quantizer" (amax_clamp_min alg).

(** Every [p] entry of a trace is directly followed by a [q] entry. *)
Definition each_followed (p q : Entry -> bool) (t : list Entry) : Prop :=
  ∀ pre x post, t = (pre ++ x :: post)%list → p x = true →
    ∃ y post', post = y :: post' ∧ q y = true.

Fixpoint each_followedb (p q : Entry -> bool) (t : list Entry) : bool :=
  match t with
  | [] => true
  | x :: t' =>
      (negb (p x) || match t' with y :: _ => q y | [] => false end)
      && each_followedb p q t'
  end.

(** The shape of a template on which the assignments of [quantize] go
    through: a dictionary with a dictionary under "quant_cfg" and, for an
    "awq" algorithm, a weight quantizer (or a list starting with one) that
    has a dictionary or a non-empty list under "block_sizes". *)
Definition block_sizes_ok (wq : PyVal) : bool :=
  match wq with
  | VDict items =>
      match dict_get (KStr "block_sizes") items with
      | Some (VDict _) | Some (VList (_ :: _)) => true
      | _ => false
      end
  | _ => false
  end.

Definition template_ok (alg : string) (tmpl : PyVal) : bool :=
  match tmpl with
  | VDict items =>
      match dict_get (KStr "quant_cfg") items with
      | Some (VDict qc) =>
          if str_contains "awq" alg then
            match dict_get (KStr "*weight_quantizer") qc with
            | Some (VList (wq :: _)) => block_sizes_ok wq
            | Some wq => block_sizes_ok wq
            | None => false
            end
          else true
      | _ => false
      end
  | _ => false
  end.

(** ** Sample inputs *)

(** Templates of the shape the optimization toolkit ships. *)
Definition disabled_quantizers : list (PyKey * PyVal) :=
  [ (KStr "*lm_head*", VDict [(KStr "enable", VBool false)]);
    (KStr "*output_layer*", VDict [(KStr "enable", VBool false)]);
    (KStr "default", VDict [(KStr "enable", VBool false)]) ].

Definition block_sizes_128 : PyVal :=
  VDict [(KInt (-1), VInt 128); (KStr "type", VStr "static")].

Definition sample_mtq : Mtq :=
  {| INT8_DEFAULT_CFG :=
       VDict
         [ (KStr "quant_cfg",
            VDict
              ([ (KStr "*weight_quantizer",
                  VDict [(KStr "num_bits", VInt 8); (KStr "axis", VInt 0)]);
                 (KStr "*input_quantizer",
                  VDict [(KStr "num_bits", VInt 8); (KStr "axis", VNone)]) ]
               ++ disabled_quantizers)%list);
           (KStr "algorithm", VStr "max") ];
     INT8_SMOOTHQUANT_CFG :=
       VDict
         [ (KStr "quant_cfg",
            VDict
              ([ (KStr "*weight_quantizer",
                  VDict [(KStr "num_bits", VInt 8); (KStr "axis", VInt 0)]);
                 (KStr "*input_quantizer",
                  VDict [(KStr "num_bits", VInt 8); (KStr "axis", VInt (-1))]) ]
               ++ disabled_quantizers)%list);
           (KStr "algorithm", VStr "smoothquant") ];
     FP8_DEFAULT_CFG :=
       VDict
         [ (KStr "quant_cfg",
            VDict
              ([ (KStr "*weight_quantizer",
                  VDict [(KStr "num_bits", VTuple [VInt 4; VInt 3]);
                         (KStr "axis", VNone)]);
                 (KStr "*input_quantizer",
                  VDict [(KStr "num_bits", VTuple [VInt 4; VInt 3]);
                         (KStr "axis", VNone)]) ]
               ++ disabled_quantizers)%list);
           (KStr "algorithm", VStr "max") ];
     INT4_AWQ_CFG :=
       VDict
         [ (KStr "quant_cfg",
            VDict
              ([ (KStr "*weight_quantizer",
                  VDict [(KStr "num_bits", VInt 4);
                         (KStr "block_sizes", block_sizes_128);
                         (KStr "enable", VBool true)]);
                 (KStr "*input_quantizer", VDict [(KStr "enable", VBool false)]) ]
               ++ disabled_quantizers)%list);
           (KStr "algorithm",
            VDict [(KStr "method", VStr "awq_lite");
                   (KStr "alpha_step", VFloat 0.1%float)]) ];
     W4A8_AWQ_BETA_CFG :=
       VDict
         [ (KStr "quant_cfg",
            VDict
              ([ (KStr "*weight_quantizer",
                  VList
                    [ VDict [(KStr "num_bits", VInt 4);
                             (KStr "block_sizes", block_sizes_128);
                             (KStr "enable", VBool true)];
                      VDict [(KStr "num_bits", VTuple [VInt 4; VInt 3]);
                             (KStr "axis", VNone);
                             (KStr "enable", VBool true)] ]);
                 (KStr "*input_quantizer",
                  VDict [(KStr "num_bits", VTuple [VInt 4; VInt 3]);
                         (KStr "axis", VNone);
                         (KStr "enable", VBool true)]) ]
               ++ disabled_quantizers)%list);
           (KStr "algorithm", VStr "awq_lite") ];
     INT4_BLOCKWISE_WEIGHT_ONLY_CFG :=
       VDict
         [ (KStr "quant_cfg",
            VDict
              ([ (KStr "*weight_quantizer",
                  VDict [(KStr "num_bits", VInt 4);
                         (KStr "block_sizes", VDict [(KInt (-1), VInt 128)]);
                         (KStr "enable", VBool true)]);
                 (KStr "*input_quantizer", VDict [(KStr "enable", VBool false)]) ]
               ++ disabled_quantizers)%list);
           (KStr "algorithm", VStr "max") ] |}.

(** A process with the toolkit and a device, on rank 0, where no
    collaborator fails and only the source tokenizer directory of the
    checkpoint ["ckpt"] exists. *)
Definition sample_env : Env :=
  {| HAVE_MODELOPT := true;
     cuda_is_available := true;
     torch_dtype_from_precision := λ d,
       if decide (d = DStr "bf16") then Ok bfloat16
       else if decide (d = DInt 16) then Ok float16
       else if decide (d = DStr "16") then Ok float16
       else Raise (ValueError "Could not parse the precision");
     get_rank := 0;
     os_path_exists := λ p, bool_decide (p = "ckpt/context/nemo_tokenizer");
     raises := λ _, None |}.

Definition sample_config (classes : list ConfigClass) : GPTConfig :=
  {| config_classes := classes;
     vocab_size := None;
     pipeline_dtype := None;
     pipeline_model_parallel_size := 1 |}.

Definition sample_model (classes : list ConfigClass) : GPTModel :=
  {| config := sample_config classes;
     tokenizer_vocab_size := 32000;
     num_nodes := 1;
     module := {| mcore_config := sample_config classes |} |}.

Definition sample_quantizer (qc : QuantizationConfig) : Quantizer :=
  {| quantization_config := qc;
     export_config := Some (default_ExportConfig "out");
     nemo_checkpoint_path := None;
     torch_dtype := bfloat16 |}.

Definition with_algorithm (qc : QuantizationConfig) (a : option string)
  : QuantizationConfig :=
  {| algorithm := a;
     awq_block_size := awq_block_size qc;
     sq_alpha := sq_alpha qc;
     enable_kv_cache := enable_kv_cache qc |}.

Definition with_enable_kv_cache (qc : QuantizationConfig) (b : option bool)
  : QuantizationConfig :=
  {| algorithm := algorithm qc;
     awq_block_size := awq_block_size qc;
     sq_alpha := sq_alpha qc;
     enable_kv_cache := b |}.

(** A corpus of [n] rows whose text is ["abcdef"] in every column. *)
Definition sample_load_dataset (n : nat)
  : string -> option string -> option string -> Dataset :=
  λ _ _ _, replicate n (λ _ : string, "abcdef").

(** A [quantize] call on the sample process, from the table as built at
    import. *)
Definition sample_quantize (qc : QuantizationConfig) (classes : list ConfigClass)
  : Outcome GPTModel * World :=
  quantize sample_env (sample_quantizer qc) (sample_model classes) ()
    (initial_World sample_mtq).

(** The model a call returned, [d] if it raised. *)
Definition returned_or {A} (d : A) (o : Outcome A) : A :=
  match o with Ok a => a | Raise _ => d end.

(** The configurations of the sample calls. *)
Definition auto_kv_cache (a : string) : QuantizationConfig :=
  with_enable_kv_cache (with_algorithm default_QuantizationConfig (Some a)) None.

Definition awq_64 (a : string) : QuantizationConfig :=
  {| algorithm := Some a;
     awq_block_size := 64;
     sq_alpha := 0.5%float;
     enable_kv_cache := Some true |}.

(** ** More observations *)

(** The warning [_get_decoder_type] leaves in the trace, if any. *)
Definition resolver_warnings (self : Quantizer) (config : GPTConfig)
  : list Entry :=
  match export_config self with
  | None => []
  | Some ec =>
      match decoder_type ec with
      | Some (String _ _) => []
      | _ =>
          match first_match config mapping with
          | Some _ => []
          | None =>
              [Returned (LoggingWarning
                           [VStr "Could not directly infer the decoder type"])]
          end
      end
  end.

(** The calls of a [quantize] call that completes, in order, for the
    decoder type [dt] it resolved and the recipe it handed over. *)
Definition quantize_calls (env : Env) (self : Quantizer) (model : GPTModel)
    (alg dt : string) (recipe : PyVal) : list Entry :=
  ([Returned (LoggingInfo [VStr "Quantizing model to "; VStr alg; VStr "..."]);
    Returned ModelFreeze;
    Returned GetUnwrappedMcoreModel]
   ++ resolver_warnings self (mcore_config (module model))
   ++ [Returned (LoggingInfo
         [VStr (if kv_cache_flag (quantization_config self) alg dt
                then "Enabled" else "Disabled");
          VStr " KV cache quantization"])]
   ++ (if decide (alg = "int8_sq") then
         [Returned (LoggingInfo
            [VStr "Using int8_sq alpha = ";
             VFloat (sq_alpha (quantization_config self))])]
       else [])
   ++ [Returned (MtqQuantize recipe)]
   ++ (if decide (dt = "gptnext") then
         [Returned (MtqPostprocessAmax "*input_quantizer" (amax_clamp_min alg))]
       else [])
   ++ [Returned DistGetRank]
   ++ (if get_rank env =? 0 then [Returned MtqPrintQuantSummary] else []))%list.

(** The recipes of the other algorithms, and the keys of the table, are
    in [w'] as they are in [w]. *)
Definition keeps_other_recipes (alg : string) (w w' : World) : Prop :=
  dom (QUANT_CFG_CHOICES w') = dom (QUANT_CFG_CHOICES w)
  ∧ ∀ a, a ≠ alg → QUANT_CFG_CHOICES w' !! a = QUANT_CFG_CHOICES w !! a.

(** A computation keeps the other recipes, whether it returns or raises,
    and what it returns satisfies [Q]. *)
Definition frames {A} (alg : string) (Q : A → Prop) (m : M A) : Prop :=
  ∀ w o w', m w = (o, w') →
    keeps_other_recipes alg w w' ∧ ∀ a, o = Ok a → Q a.

(** * Properties *)

(** ** The Python operations on small inputs *)

Example str_contains_awq :
  str_contains "awq" "w4a8_awq" = true ∧ str_contains "awq" "int4" = false
  ∧ str_contains "int8" "int8_sq" = true ∧ str_contains "int8" "fp8" = false.
Proof. by vm_compute. Qed.

Example norm_index_last : norm_index 3 (-1) = Some 2%nat ∧ norm_index 3 3 = None.
Proof. by vm_compute. Qed.

Example py_slice_clamps :
  py_slice [1; 2; 3; 4; 5] 2 4 = [3; 4] ∧ py_slice [1; 2; 3] 2 7 = [3]
  ∧ py_slice [1; 2; 3] 4 6 = [].
Proof. by vm_compute. Qed.

Example str_slice_to_cases :
  str_slice_to "abcdef" 4 = "abcd" ∧ str_slice_to "abc" 4 = "abc"
  ∧ str_slice_to "abcdef" (-2) = "abcd".
Proof. by vm_compute. Qed.

Example dict_set_keeps_order :
  dict_set (KStr "b") (VInt 9) [(KStr "a", VInt 1); (KStr "b", VInt 2)]
  = [(KStr "a", VInt 1); (KStr "b", VInt 9)]
  ∧ dict_set (KStr "c") (VInt 9) [(KStr "a", VInt 1)]
    = [(KStr "a", VInt 1); (KStr "c", VInt 9)].
Proof. by vm_compute. Qed.

Example os_path_join_tokenizer :
  tokenizer_src_of "ckpt" = "ckpt/context/nemo_tokenizer"
  ∧ tokenizer_dst_of "out/" = "out/tokenizer"
  ∧ os_path_join "a" ["/b"; "c"] = "/b/c".
Proof. by vm_compute. Qed.

(** ** Dictionaries, sequences and chains of subscripts *)

Lemma dict_get_set_eq k v d : dict_get k (dict_set k v d) = Some v.
Proof.
  induction d as [|[k' v'] d IH]; simpl.
  - by rewrite decide_True.
  - destruct (decide (k' = k)) as [->|Hne]; simpl.
    + by rewrite decide_True.
    + by rewrite decide_False.
Qed.

Lemma dict_get_set_ne k j v d :
  k ≠ j → dict_get j (dict_set k v d) = dict_get j d.
Proof.
  intros Hkj. induction d as [|[k' v'] d IH]; simpl.
  - by rewrite decide_False.
  - destruct (decide (k' = k)) as [->|Hne]; simpl.
    + by rewrite !decide_False.
    + destruct (decide (k' = j)); [done | apply IH].
Qed.

Lemma norm_index_lt n i j : norm_index n i = Some j → (j < n)%nat.
Proof.
  unfold norm_index. intros H.
  destruct (_ && _) eqn:Hb; [|done].
  apply andb_true_iff in Hb as [H0 H1]. injection H as <-. lia.
Qed.

Lemma seq_get_set_eq xs i x xs' :
  seq_set xs i x = Ok xs' → seq_get xs' i = Ok x.
Proof.
  unfold seq_set, seq_get. intros H.
  destruct (norm_index (length xs) i) as [j|] eqn:Hj; [|done].
  injection H as <-. rewrite length_insert, Hj.
  rewrite list_lookup_insert_eq; [done | by eapply norm_index_lt].
Qed.

Lemma py_getitem_setitem_eq v k x v' :
  py_setitem v k x = Ok v' → py_getitem v' k = Ok x.
Proof.
  destruct v, k; simpl; try discriminate.
  - destruct (seq_set xs z x) eqn:Hs; [|done].
    intros [= <-]. simpl. by eapply seq_get_set_eq.
  - intros [= <-]. simpl. by rewrite dict_get_set_eq.
  - intros [= <-]. simpl. by rewrite dict_get_set_eq.
Qed.

(** Assigning under a string key leaves every other item alone. *)
Lemma py_getitem_setitem_str_ne v a x v' k :
  py_setitem v (KStr a) x = Ok v' → k ≠ KStr a →
  py_getitem v' k = py_getitem v k.
Proof.
  destruct v; simpl; try discriminate.
  intros [= <-] Hne. destruct k; simpl; by rewrite dict_get_set_ne.
Qed.

Lemma py_setitem_is_list v k x v' :
  py_setitem v k x = Ok v' → is_list v' = is_list v.
Proof.
  destruct v, k; simpl; try discriminate; try by intros [= <-].
  destruct (seq_set xs z x); [by intros [= <-] | done].
Qed.

Lemma py_get_path_app v p q :
  py_get_path v (p ++ q) =
  match py_get_path v p with
  | Ok c => py_get_path c q
  | Raise e => Raise e
  end.
Proof.
  revert v. induction p as [|k p IH]; intros v; simpl; [done|].
  destruct (py_getitem v k); [apply IH | done].
Qed.

Lemma py_set_path_cons_inv v j p k x v' :
  py_set_path v (j :: p) k x = Ok v' →
  ∃ c c', py_getitem v j = Ok c ∧ py_set_path c p k x = Ok c'
          ∧ py_setitem v j c' = Ok v'.
Proof.
  simpl. destruct (py_getitem v j) as [c|] eqn:Hc; [|done].
  destruct (py_set_path c p k x) as [c'|] eqn:Hc'; [|done].
  intros H. by exists c, c'.
Qed.

(** What was assigned is what is read back through the same chain. *)
Lemma py_get_set_path_eq v p k x v' :
  py_set_path v p k x = Ok v' → py_get_path v' (p ++ [k]) = Ok x.
Proof.
  revert v v'. induction p as [|j p IH]; intros v v' H.
  - simpl in *. by rewrite (py_getitem_setitem_eq _ _ _ _ H).
  - apply py_set_path_cons_inv in H as (c & c' & Hg & Hs & Hv).
    change ((j :: p) ++ [k])%list with (j :: (p ++ [k]))%list. simpl.
    rewrite (py_getitem_setitem_eq _ _ _ _ Hv). by apply IH with c.
Qed.

Lemma py_set_path_is_list v p k x v' :
  py_set_path v p k x = Ok v' → is_list v' = is_list v.
Proof.
  destruct p as [|j p]; intros H.
  - by eapply py_setitem_is_list.
  - apply py_set_path_cons_inv in H as (c & c' & Hg & Hs & Hv).
    by eapply py_setitem_is_list.
Qed.

(** An assignment below the item [a] of a dictionary does not reach the
    items under other keys. *)
Lemma py_set_path_other_key v a p k x v' j :
  py_set_path v (KStr a :: p) k x = Ok v' → j ≠ KStr a →
  py_getitem v' j = py_getitem v j.
Proof.
  intros H Hne.
  apply py_set_path_cons_inv in H as (c & c' & Hg & Hs & Hv).
  by eapply py_getitem_setitem_str_ne.
Qed.

(** The kind (list or not) of every object along the chain is kept. *)
Lemma py_set_path_prefix_is_list v q p k x v' c :
  py_set_path v (q ++ p) k x = Ok v' → py_get_path v q = Ok c →
  ∃ c', py_get_path v' q = Ok c' ∧ is_list c' = is_list c
        ∧ py_set_path c p k x = Ok c'.
Proof.
  revert v v' c. induction q as [|j q IH]; intros v v' c H Hq.
  - simpl in *. injection Hq as <-. exists v'. split; [done|].
    split; [by eapply py_set_path_is_list | done].
  - change ((j :: q) ++ p)%list with (j :: (q ++ p))%list in H.
    apply py_set_path_cons_inv in H as (d & d' & Hg & Hs & Hv).
    simpl in Hq. rewrite Hg in Hq.
    destruct (IH _ _ _ Hs Hq) as (c' & Hc' & Hl & Hset).
    exists c'. simpl. rewrite (py_getitem_setitem_eq _ _ _ _ Hv). done.
Qed.

(** ** Stepping through a computation that returned *)

Section Runs.

Variable env : Env.

Lemma bind_ok {A B} (m : M A) (f : A → M B) w b w2 :
  (m ≫= f) w = (Ok b, w2) →
  ∃ a w1, m w = (Ok a, w1) ∧ f a w1 = (Ok b, w2).
Proof.
  unfold mbind, M_bind. destruct (m w) as [[a|e] w1]; [|done].
  intros H. by exists a, w1.
Qed.

Lemma mret_ok {A} (a b : A) w w' :
  (mret a : M A) w = (Ok b, w') → b = a ∧ w' = w.
Proof. by intros [= <- <-]. Qed.

Lemma call_total_ok {A} c (a x : A) w w' :
  call_total c a w = (Ok x, w') → x = a ∧ w' = log (Returned c) w.
Proof. by intros [= <- <-]. Qed.

Lemma call_ok {A} c (a x : A) w w' :
  call env c a w = (Ok x, w') →
  x = a ∧ w' = log (Returned c) w ∧ raises env c = None.
Proof.
  unfold call. destruct (raises env c); [done|]. by intros [= <- <-].
Qed.

Lemma choices_getitem_ok alg r w w' :
  choices_getitem alg w = (Ok r, w') →
  r = (alg, []) ∧ w' = w ∧ is_Some (QUANT_CFG_CHOICES w !! alg).
Proof.
  unfold choices_getitem.
  destruct (QUANT_CFG_CHOICES w !! alg) eqn:E; [|done].
  intros [= <- <-]. eauto.
Qed.

Lemma load_ok r v w w' :
  load r w = (Ok v, w') →
  w' = w ∧ ∃ root, QUANT_CFG_CHOICES w !! r.1 = Some root
                   ∧ py_get_path root r.2 = Ok v.
Proof.
  unfold load. destruct (QUANT_CFG_CHOICES w !! r.1) as [root|]; [|done].
  intros [= E <-]. eauto.
Qed.

Lemma ref_getitem_ok r k r' w w' :
  ref_getitem r k w = (Ok r', w') →
  r' = (r.1, (r.2 ++ [k])%list) ∧ w' = w
  ∧ ∃ root x, QUANT_CFG_CHOICES w !! r.1 = Some root
              ∧ py_get_path root (r.2 ++ [k]) = Ok x.
Proof.
  unfold ref_getitem. intros H.
  apply bind_ok in H as (v & w1 & Hl & H).
  apply load_ok in Hl as (-> & root & Hroot & Hv).
  apply bind_ok in H as (x & w2 & Hx & H).
  unfold lift in Hx. injection Hx as Hx <-.
  apply mret_ok in H as (-> & ->).
  do 2 (split; [done|]). exists root, x. split; [done|].
  rewrite py_get_path_app, Hv. simpl. by rewrite Hx.
Qed.

Lemma ref_is_list_ok r b w w' :
  ref_is_list r w = (Ok b, w') →
  w' = w ∧ ∃ root v, QUANT_CFG_CHOICES w !! r.1 = Some root
                     ∧ py_get_path root r.2 = Ok v ∧ b = is_list v.
Proof.
  unfold ref_is_list. intros H.
  apply bind_ok in H as (v & w1 & Hl & H).
  apply load_ok in Hl as (-> & root & Hroot & Hv).
  apply mret_ok in H as (-> & ->). split; [done|].
  exists root, v. by destruct v.
Qed.

Lemma ref_setitem_ok r k x u w w' :
  ref_setitem r k x w = (Ok u, w') →
  ∃ root root', QUANT_CFG_CHOICES w !! r.1 = Some root
    ∧ py_set_path root r.2 k x = Ok root'
    ∧ w' = set_choices (<[r.1 := root']> (QUANT_CFG_CHOICES w)) w.
Proof.
  unfold ref_setitem.
  destruct (QUANT_CFG_CHOICES w !! r.1) as [root|]; [|done].
  destruct (py_set_path root r.2 k x) as [root'|] eqn:E; [|done].
  intros [= <-]. by exists root, root'.
Qed.

(** The resolver leaves the table alone and logs at most its warning. *)
Lemma get_modelopt_decoder_type_run config w :
  get_modelopt_decoder_type config w =
  match first_match config mapping with
  | Some d => (Ok d, w)
  | None =>
      (Ok "llama",
       log (Returned (LoggingWarning
                        [VStr "Could not directly infer the decoder type"])) w)
  end.
Proof.
  unfold get_modelopt_decoder_type. by destruct (first_match config mapping).
Qed.

Lemma _get_decoder_type_ok self config d w w' :
  _get_decoder_type self config w = (Ok d, w') →
  resolved_decoder_type self config = Some d
  ∧ QUANT_CFG_CHOICES w' = QUANT_CFG_CHOICES w
  ∧ ∃ t, trace w' = (trace w ++ t)%list
         ∧ Forall (λ x, ∃ msg, x = Returned (LoggingWarning msg)) t.
Proof.
  unfold _get_decoder_type, resolved_decoder_type.
  destruct (export_config self) as [ec|]; [|done].
  assert (Hres : ∀ w w', get_modelopt_decoder_type config w = (Ok d, w') →
    Some (default "llama" (first_match config mapping)) = Some d
    ∧ QUANT_CFG_CHOICES w' = QUANT_CFG_CHOICES w
    ∧ ∃ t, trace w' = (trace w ++ t)%list
           ∧ Forall (λ x, ∃ msg, x = Returned (LoggingWarning msg)) t).
  { clear. intros w w'. rewrite get_modelopt_decoder_type_run.
    destruct (first_match config mapping) as [d'|]; intros [= <- <-]; simpl.
    - do 2 (split; [done|]). exists []. by rewrite app_nil_r.
    - do 2 (split; [done|]). eexists. split; [done|].
      constructor; [by eexists | constructor]. }
  destruct (decoder_type ec) as [[|a s]|]; [by apply Hres| |by apply Hres].
  intros [= <- <-]. do 2 (split; [done|]). exists []. by rewrite app_nil_r.
Qed.

End Runs.

(** A [quantize] call that returned, step by step: the decoder type it
    resolved, the template [tmpl] it found in the table, the recipe after
    each of its assignments, the table and the trace it leaves. *)
Lemma quantize_ok {L} env self model (fl : L) alg w m' w' :
  algorithm (quantization_config self) = Some alg →
  quantize env self model fl w = (Ok m', w') →
  ∃ dt tmpl r1 r2 recipe t1 t2,
    resolved_decoder_type self (mcore_config (module model)) = Some dt
    ∧ QUANT_CFG_CHOICES w !! alg = Some tmpl
    ∧ (if str_contains "awq" alg then
         ∃ wq, weight_quantizer_of tmpl = Ok wq
               ∧ py_set_path tmpl (block_sizes_path wq) (KInt (-1))
                   (VInt (awq_block_size (quantization_config self))) = Ok r1
       else r1 = tmpl)
    ∧ py_set_path r1 [KStr "quant_cfg"] (KStr "*output_quantizer")
        (output_quantizer_entry alg
           (kv_cache_flag (quantization_config self) alg dt)) = Ok r2
    ∧ (if decide (alg = "int8_sq") then
         py_set_path r2 [] (KStr "algorithm")
           (smoothquant_entry (sq_alpha (quantization_config self))) = Ok recipe
       else recipe = r2)
    ∧ QUANT_CFG_CHOICES w' = <[alg := recipe]> (QUANT_CFG_CHOICES w)
    ∧ trace w' =
        (trace w ++ t1 ++ [Returned (MtqQuantize recipe)]
         ++ (if decide (dt = "gptnext") then
               [Returned (MtqPostprocessAmax "*input_quantizer"
                            (amax_clamp_min alg))]
             else [])
         ++ t2)%list
    ∧ Forall quiet t1 ∧ Forall quiet t2.
Proof.
  intros Halg H. destruct w as [T tr].
  unfold quantize in H. rewrite Halg in H.
  apply bind_ok in H as ([] & w1 & H1 & H).
  apply call_total_ok in H1 as [_ ->].
  apply bind_ok in H as (model1 & w2 & H2 & H).
  unfold _setup in H2.
  apply bind_ok in H2 as ([] & w2' & H2a & H2).
  apply (call_ok env) in H2a as (_ & -> & _).
  apply mret_ok in H2 as [-> ->].
  apply bind_ok in H as (um & w3 & H3 & H).
  apply (call_ok env) in H3 as (-> & -> & _). simpl in H.
  apply bind_ok in H as (dt & [T4 tr4] & H4 & H).
  apply _get_decoder_type_ok in H4 as (Hdt & Hc4 & tw & Ht4 & Htw).
  simpl in Hc4, Ht4. subst T4 tr4.
  apply bind_ok in H as (quant_cfg & w5 & H5 & H).
  apply choices_getitem_ok in H5 as (-> & -> & [tmpl Htmpl]).
  simpl in Htmpl.
  apply bind_ok in H as ([] & [T6 tr6] & H6 & H).
  match type of H6 with
  | context [{| QUANT_CFG_CHOICES := T; trace := ?t |}] =>
      remember t as tr4 eqn:Htr4
  end.
  assert (Hawq : ∃ r1,
    (if str_contains "awq" alg then
       ∃ wq, weight_quantizer_of tmpl = Ok wq
             ∧ py_set_path tmpl (block_sizes_path wq) (KInt (-1))
                 (VInt (awq_block_size (quantization_config self))) = Ok r1
     else r1 = tmpl)
    ∧ T6 = <[alg := r1]> T ∧ tr6 = tr4).
  { destruct (str_contains "awq" alg).
    - apply bind_ok in H6 as (qc & w61 & Ha1 & H6).
      apply ref_getitem_ok in Ha1 as (-> & -> & _). simpl in H6.
      apply bind_ok in H6 as (wqr & w62 & Ha2 & H6).
      apply ref_getitem_ok in Ha2 as (-> & -> & _). simpl in H6.
      apply bind_ok in H6 as (b & w63 & Ha3 & H6).
      apply ref_is_list_ok in Ha3 as (-> & root & wq & Hroot & Hwq & ->).
      simpl in Hroot, Hwq. rewrite Htmpl in Hroot. injection Hroot as <-.
      apply bind_ok in H6 as (wqr' & w64 & Ha4 & H6).
      assert (wqr' = (alg, ([KStr "quant_cfg"; KStr "*weight_quantizer"]
                            ++ (if is_list wq then [KInt 0] else []))%list)
              ∧ w64 = {| QUANT_CFG_CHOICES := T; trace := tr4 |}) as [-> ->].
      { destruct (is_list wq).
        - by apply ref_getitem_ok in Ha4 as (-> & -> & _).
        - by apply mret_ok in Ha4 as (-> & ->). }
      apply bind_ok in H6 as (bs & w65 & Ha5 & H6).
      apply ref_getitem_ok in Ha5 as (-> & -> & _). simpl in H6.
      apply ref_setitem_ok in H6 as (root & r1 & Hroot & Hset & Hw).
      simpl in Hroot, Hw. cbn [fst snd] in Hset.
      rewrite Htmpl in Hroot. injection Hroot as <-.
      injection Hw as -> ->. exists r1. split; [|done].
      exists wq. split; [done|]. unfold block_sizes_path.
      exact Hset.
    - apply mret_ok in H6 as [_ [= -> ->]]. exists tmpl.
      split; [done|]. by rewrite insert_id. }
  destruct Hawq as (r1 & Hr1 & -> & ->). clear H6.
  apply bind_ok in H as ([] & w7 & H7 & H).
  apply call_total_ok in H7 as [_ ->].
  apply bind_ok in H as (qc & w8 & H8 & H).
  apply ref_getitem_ok in H8 as (-> & -> & _). simpl in H.
  apply bind_ok in H as ([] & w9 & H9 & H).
  apply ref_setitem_ok in H9 as (root & r2 & Hroot & Hr2 & ->).
  simpl in Hroot. cbn [fst snd app] in Hr2.
  rewrite lookup_insert_eq in Hroot. injection Hroot as <-.
  simpl in H. rewrite insert_insert_eq in H.
  fold (kv_cache_auto alg dt) in Hr2, H.
  fold (kv_cache_flag (quantization_config self) alg dt) in Hr2, H.
  apply bind_ok in H as ([] & [T10 tr10] & H10 & H).
  unfold set_choices, log in H10. cbn [QUANT_CFG_CHOICES trace] in H10.
  match type of H10 with
  | _ {| QUANT_CFG_CHOICES := _; trace := ?t |} = _ =>
      remember t as tr9 eqn:Htr9
  end.
  assert (Hsq : ∃ recipe tsq,
    (if decide (alg = "int8_sq") then
       py_set_path r2 [] (KStr "algorithm")
         (smoothquant_entry (sq_alpha (quantization_config self))) = Ok recipe
     else recipe = r2)
    ∧ T10 = <[alg := recipe]> T ∧ tr10 = (tr9 ++ tsq)%list
    ∧ Forall quiet tsq).
  { destruct (decide (alg = "int8_sq")).
    - apply bind_ok in H10 as ([] & w101 & Hs1 & H10).
      apply call_total_ok in Hs1 as [_ ->].
      apply ref_setitem_ok in H10 as (root & recipe & Hroot & Hset & Hw).
      simpl in Hroot, Hw. cbn [fst snd] in Hset.
      rewrite lookup_insert_eq in Hroot. injection Hroot as <-.
      rewrite insert_insert_eq in Hw. injection Hw as -> ->.
      exists recipe. eexists. split; [done|]. split; [done|]. split; [done|].
      by repeat constructor.
    - apply mret_ok in H10 as [_ [= -> ->]]. exists r2, [].
      split; [done|]. split; [done|]. by rewrite app_nil_r. }
  destruct Hsq as (recipe & tsq & Hrecipe & -> & -> & Hquiet). clear H10.
  apply bind_ok in H as (recipe' & w11 & H11 & H).
  apply load_ok in H11 as (-> & root & Hroot & Hload).
  simpl in Hroot, Hload. rewrite lookup_insert_eq in Hroot.
  injection Hroot as <-. injection Hload as <-.
  apply bind_ok in H as (um & w12 & H12 & H).
  apply (call_ok env) in H12 as (-> & -> & _).
  apply bind_ok in H as (um & [T13 tr13] & H13 & H).
  unfold log in H13. cbn [QUANT_CFG_CHOICES trace] in H13.
  match type of H13 with
  | _ {| QUANT_CFG_CHOICES := _; trace := ?t |} = _ =>
      remember t as tr12 eqn:Htr12
  end.
  assert (Hpost : T13 = <[alg := recipe]> T ∧ tr13 =
    (tr12 ++ (if decide (dt = "gptnext") then
               [Returned (MtqPostprocessAmax "*input_quantizer"
                            (amax_clamp_min alg))]
             else []))%list).
  { destruct (decide (dt = "gptnext")).
    - by apply (call_ok env) in H13 as (_ & [= -> ->] & _).
    - apply mret_ok in H13 as [_ [= -> ->]]. by rewrite app_nil_r. }
  destruct Hpost as [-> ->]. clear H13.
  apply bind_ok in H as (rank & w14 & H14 & H).
  apply (call_ok env) in H14 as (-> & -> & _).
  apply bind_ok in H as ([] & [T15 tr15] & H15 & H).
  apply mret_ok in H as [-> ->].
  unfold log in H15. cbn [QUANT_CFG_CHOICES trace] in H15.
  assert (Hsum : T15 = <[alg := recipe]> T ∧ ∃ t2, Forall quiet t2 ∧ tr15 =
    ((tr12 ++ (if decide (dt = "gptnext") then
               [Returned (MtqPostprocessAmax "*input_quantizer"
                            (amax_clamp_min alg))]
             else [])) ++ t2)%list).
  { destruct (get_rank env =? 0).
    - apply (call_ok env) in H15 as (_ & [= -> ->] & _). split; [done|].
      exists [Returned DistGetRank; Returned MtqPrintQuantSummary].
      split; [by repeat constructor|]. by rewrite <- app_assoc.
    - apply mret_ok in H15 as [_ [= -> ->]]. split; [done|].
      exists [Returned DistGetRank]. split; [by repeat constructor | done]. }
  destruct Hsum as (-> & t2 & Hq2 & ->). clear H15.
  exists dt, tmpl, r1, r2, recipe.
  exists ([Returned (LoggingInfo
                       [VStr "Quantizing model to "; VStr alg; VStr "..."]);
           Returned ModelFreeze; Returned GetUnwrappedMcoreModel]
          ++ tw
          ++ [Returned (LoggingInfo
                [VStr (if kv_cache_flag (quantization_config self) alg dt
                       then "Enabled" else "Disabled");
                 VStr " KV cache quantization"])]
          ++ tsq)%list, t2.
  split; [exact Hdt|]. split; [exact Htmpl|]. split; [exact Hr1|].
  split; [exact Hr2|]. split; [exact Hrecipe|]. split; [reflexivity|].
  cbn [trace]. split; [|split; [|exact Hq2]].
  - subst tr12 tr9 tr4. unfold log. cbn [trace].
    rewrite <- !app_assoc. reflexivity.
  - repeat (apply Forall_app; split); try exact Hquiet;
      try by repeat constructor.
    eapply Forall_impl; [exact Htw|]. by intros x [msg ->].
Qed.

(** ** The recipe [quantize] leaves in the table *)

(** The assignment of the smoothing entry, when there is one, does not
    touch the quantizers. *)
Lemma smoothquant_keeps_quant_cfg alg y r2 recipe :
  (if decide (alg = "int8_sq") then
     py_set_path r2 [] (KStr "algorithm") y = Ok recipe
   else recipe = r2) →
  py_getitem recipe (KStr "quant_cfg") = py_getitem r2 (KStr "quant_cfg").
Proof.
  destruct (decide (alg = "int8_sq")); [|by intros ->].
  simpl. intros H. by eapply py_getitem_setitem_str_ne.
Qed.

Lemma output_quantizer_keeps_weight_quantizer r1 x r2 :
  py_set_path r1 [KStr "quant_cfg"] (KStr "*output_quantizer") x = Ok r2 →
  weight_quantizer_of r2 = weight_quantizer_of r1.
Proof.
  intros H. apply py_set_path_cons_inv in H as (c & c' & Hc & Hc' & Hr2).
  unfold weight_quantizer_of. simpl in *.
  rewrite (py_getitem_setitem_eq _ _ _ _ Hr2), Hc.
  by rewrite (py_getitem_setitem_str_ne _ _ _ _ (KStr "*weight_quantizer") Hc').
Qed.

(** What every completed [quantize] call with an algorithm leaves: the
    table entry of the algorithm is the recipe handed to the toolkit; its
    output quantizer is the entry just built; its weight quantizer is the
    one of the template, after the "awq" assignment if there was one. *)
Lemma quantize_recipe {L} env self model (fl : L) alg w m' w' :
  algorithm (quantization_config self) = Some alg →
  quantize env self model fl w = (Ok m', w') →
  ∃ dt tmpl r1 recipe,
    resolved_decoder_type self (mcore_config (module model)) = Some dt
    ∧ QUANT_CFG_CHOICES w !! alg = Some tmpl
    ∧ (if str_contains "awq" alg then
         ∃ wq, weight_quantizer_of tmpl = Ok wq
               ∧ py_set_path tmpl (block_sizes_path wq) (KInt (-1))
                   (VInt (awq_block_size (quantization_config self))) = Ok r1
       else r1 = tmpl)
    ∧ QUANT_CFG_CHOICES w' = <[alg := recipe]> (QUANT_CFG_CHOICES w)
    ∧ Returned (MtqQuantize recipe) ∈ trace w'
    ∧ py_get_path recipe [KStr "quant_cfg"; KStr "*output_quantizer"]
      = Ok (output_quantizer_entry alg
              (kv_cache_flag (quantization_config self) alg dt))
    ∧ weight_quantizer_of recipe = weight_quantizer_of r1.
Proof.
  intros Halg H.
  destruct (quantize_ok _ _ _ _ _ _ _ _ Halg H)
    as (dt & tmpl & r1 & r2 & recipe & t1 & t2
        & Hdt & Htmpl & Hr1 & Hr2 & Hrec & HT & Htr & _).
  exists dt, tmpl, r1, recipe.
  do 4 (split; [assumption|]).
  pose proof (smoothquant_keeps_quant_cfg _ _ _ _ Hrec) as Hqc.
  split; [|split].
  - rewrite Htr. set_solver.
  - pose proof (py_get_set_path_eq _ _ _ _ _ Hr2) as Hget.
    simpl in Hget |- *. by rewrite Hqc.
  - rewrite <- (output_quantizer_keeps_weight_quantizer _ _ _ Hr2).
    unfold weight_quantizer_of. simpl. by rewrite Hqc.
Qed.

Lemma output_quantizer_enable_of_entry recipe alg b :
  py_get_path recipe [KStr "quant_cfg"; KStr "*output_quantizer"]
  = Ok (output_quantizer_entry alg b) →
  output_quantizer_enable recipe = Ok (VBool b).
Proof.
  unfold output_quantizer_enable.
  change [KStr "quant_cfg"; KStr "*output_quantizer"; KStr "enable"]
    with ([KStr "quant_cfg"; KStr "*output_quantizer"] ++ [KStr "enable"])%list.
  rewrite py_get_path_app. by intros ->.
Qed.

(** After the "awq" assignment the block size is read back from the first
    element of a list, or from the weight quantizer itself. *)
Lemma awq_block_size_read_back tmpl wq n r1 :
  weight_quantizer_of tmpl = Ok wq →
  py_set_path tmpl (block_sizes_path wq) (KInt (-1)) (VInt n) = Ok r1 →
  ∃ wq', weight_quantizer_of r1 = Ok wq'
    ∧ match (if is_list wq' then py_getitem wq' (KInt 0) else Ok wq') with
      | Ok target => py_get_path target [KStr "block_sizes"; KInt (-1)]
      | Raise e => Raise e
      end = Ok (VInt n).
Proof.
  intros Hwq Hset.
  pose proof (py_get_set_path_eq _ _ _ _ _ Hset) as Hget.
  unfold block_sizes_path in Hset, Hget.
  destruct (py_set_path_prefix_is_list _ _ _ _ _ _ _ Hset Hwq)
    as (wq' & Hwq' & Hlist & _).
  exists wq'. split; [exact Hwq'|].
  rewrite <- !app_assoc in Hget. rewrite py_get_path_app in Hget.
  unfold weight_quantizer_of in Hwq'. rewrite Hwq' in Hget.
  rewrite Hlist. destruct (is_list wq); simpl in Hget |- *; exact Hget.
Qed.

(** ** Runs that return *)

Lemma bind_run {A B} (m : M A) (f : A → M B) w a w1 :
  m w = (Ok a, w1) → (m ≫= f) w = f a w1.
Proof. unfold mbind, M_bind. by intros ->. Qed.

(** An assignment through a chain of subscripts can only succeed where
    the chain can be read. *)
Lemma py_set_path_readable v p k x v' :
  py_set_path v p k x = Ok v' → ∃ c, py_get_path v p = Ok c.
Proof.
  revert v v'. induction p as [|j p IH]; intros v v' H; [by exists v|].
  apply py_set_path_cons_inv in H as (c & c' & Hg & Hs & _).
  simpl. rewrite Hg. by eapply IH.
Qed.

Lemma py_get_path_prefix v q p c :
  py_get_path v (q ++ p) = Ok c → ∃ c0, py_get_path v q = Ok c0.
Proof.
  rewrite py_get_path_app. destruct (py_get_path v q) as [c0|]; [|done].
  by exists c0.
Qed.

Lemma ref_getitem_run alg p k root x w :
  QUANT_CFG_CHOICES w !! alg = Some root →
  py_get_path root (p ++ [k]) = Ok x →
  ref_getitem (alg, p) k w = (Ok (alg, (p ++ [k])%list), w).
Proof.
  intros Hroot Hx. unfold ref_getitem, load, lift, mbind, M_bind, mret, M_ret.
  simpl. rewrite Hroot. rewrite py_get_path_app in Hx.
  destruct (py_get_path root p) as [c|]; [|done]. simpl in Hx.
  by destruct (py_getitem c k).
Qed.

Lemma ref_is_list_run alg p root v w :
  QUANT_CFG_CHOICES w !! alg = Some root →
  py_get_path root p = Ok v →
  ref_is_list (alg, p) w = (Ok (is_list v), w).
Proof.
  intros Hroot Hv. unfold ref_is_list, load, mbind, M_bind, mret, M_ret.
  simpl. rewrite Hroot, Hv. by destruct v.
Qed.

Lemma ref_setitem_run alg p k x root root' w :
  QUANT_CFG_CHOICES w !! alg = Some root →
  py_set_path root p k x = Ok root' →
  ref_setitem (alg, p) k x w
  = (Ok (), set_choices (<[alg := root']> (QUANT_CFG_CHOICES w)) w).
Proof. intros Hroot Hset. unfold ref_setitem. simpl. by rewrite Hroot, Hset. Qed.

Lemma _get_decoder_type_run self config ec dt w :
  export_config self = Some ec →
  resolved_decoder_type self config = Some dt →
  ∃ tw, _get_decoder_type self config w
        = (Ok dt, {| QUANT_CFG_CHOICES := QUANT_CFG_CHOICES w;
                     trace := (trace w ++ tw)%list |}).
Proof.
  unfold _get_decoder_type, resolved_decoder_type. intros -> Hdt.
  destruct w as [T tr]. simpl.
  destruct (decoder_type ec) as [[|a s]|]; simplify_eq;
    rewrite ?get_modelopt_decoder_type_run;
    try destruct (first_match config mapping); simpl;
    first [by exists []; rewrite app_nil_r | by eexists].
Qed.

(** The converse of [quantize_ok]: when no collaborator fails and the
    assignments of [quantize] go through on the template, the call
    returns. *)
Lemma quantize_returns {L} env self model (fl : L) ec alg w dt tmpl r1 r2 recipe :
  (∀ c, raises env c = None) →
  export_config self = Some ec →
  algorithm (quantization_config self) = Some alg →
  resolved_decoder_type self (mcore_config (module model)) = Some dt →
  QUANT_CFG_CHOICES w !! alg = Some tmpl →
  (if str_contains "awq" alg then
     ∃ wq, weight_quantizer_of tmpl = Ok wq
           ∧ py_set_path tmpl (block_sizes_path wq) (KInt (-1))
               (VInt (awq_block_size (quantization_config self))) = Ok r1
   else r1 = tmpl) →
  py_set_path r1 [KStr "quant_cfg"] (KStr "*output_quantizer")
    (output_quantizer_entry alg
       (kv_cache_flag (quantization_config self) alg dt)) = Ok r2 →
  (if decide (alg = "int8_sq") then
     py_set_path r2 [] (KStr "algorithm")
       (smoothquant_entry (sq_alpha (quantization_config self))) = Ok recipe
   else recipe = r2) →
  ∃ m' w', quantize env self model fl w = (Ok m', w').
Proof.
  intros Henv Hec Halg Hdt Htmpl Hr1 Hr2 Hrec.
  destruct w as [T tr]. simpl in Htmpl.
  unfold quantize. rewrite Halg.
  erewrite bind_run; [|reflexivity].
  erewrite bind_run;
    [|unfold _setup; erewrite bind_run;
      [reflexivity | unfold call; by rewrite Henv]].
  erewrite bind_run;
    [|unfold get_unwrapped_mcore_model, call; by rewrite Henv].
  simpl module.
  match goal with
  | |- context [_get_decoder_type self ?c ≫= _] =>
      destruct (_get_decoder_type_run self c ec dt
                  (log (Returned GetUnwrappedMcoreModel)
                     (log (Returned ModelFreeze)
                        (log (Returned (LoggingInfo
                           [VStr "Quantizing model to "; VStr alg; VStr "..."]))
                           {| QUANT_CFG_CHOICES := T; trace := tr |})))
                  Hec Hdt) as [tw Hrun]
  end.
  erewrite bind_run; [|exact Hrun]. clear Hrun.
  unfold log. cbn [QUANT_CFG_CHOICES trace].
  match goal with
  | |- context [{| QUANT_CFG_CHOICES := T; trace := ?t |}] =>
      generalize t; intros tr4
  end.
  erewrite bind_run; [|unfold choices_getitem; simpl; by rewrite Htmpl].
  erewrite (bind_run _ _ _ ()
              {| QUANT_CFG_CHOICES := <[alg := r1]> T; trace := tr4 |}).
  2: { destruct (str_contains "awq" alg).
       - destruct Hr1 as (wq & Hwq & Hset).
         destruct (py_set_path_readable _ _ _ _ _ Hset) as [bs Hbs].
         unfold block_sizes_path in Hbs, Hset. unfold weight_quantizer_of in Hwq.
         destruct (py_get_path_prefix tmpl [KStr "quant_cfg"]
                     [KStr "*weight_quantizer"] wq Hwq) as [c Hqc].
         erewrite bind_run; [|by eapply ref_getitem_run].
         erewrite bind_run; [|by eapply ref_getitem_run].
         erewrite bind_run; [|by eapply ref_is_list_run].
         destruct (is_list wq) eqn:Hl.
         + destruct (py_get_path_prefix tmpl
                       ([KStr "quant_cfg"; KStr "*weight_quantizer"] ++ [KInt 0])
                       [KStr "block_sizes"] bs Hbs) as [c0 Hc0].
           erewrite bind_run; [|by eapply ref_getitem_run].
           erewrite bind_run; [|eapply ref_getitem_run; [done | exact Hbs]].
           erewrite ref_setitem_run; [reflexivity | done | exact Hset].
         + erewrite bind_run; [|reflexivity].
           erewrite bind_run; [|eapply ref_getitem_run; [done | exact Hbs]].
           erewrite ref_setitem_run; [reflexivity | done | exact Hset].
       - subst r1. rewrite insert_id; done. }
  erewrite bind_run; [|reflexivity].
  unfold log. cbn [QUANT_CFG_CHOICES trace].
  match goal with
  | |- context [{| QUANT_CFG_CHOICES := _; trace := ?t |}] =>
      generalize t; intros tr7
  end.
  apply py_set_path_cons_inv in Hr2 as Hqc. destruct Hqc as (c & c' & Hc & _).
  erewrite bind_run;
    [|eapply ref_getitem_run; [apply lookup_insert_eq | simpl; by rewrite Hc]].
  erewrite bind_run;
    [|eapply ref_setitem_run; [apply lookup_insert_eq | exact Hr2]].
  unfold set_choices. cbn [QUANT_CFG_CHOICES trace]. rewrite insert_insert_eq.
  erewrite (bind_run _ _ _ ()
              {| QUANT_CFG_CHOICES := <[alg := recipe]> T;
                 trace :=
                   (tr7 ++
                    if decide (alg = "int8_sq") then
                      [Returned (LoggingInfo
                         [VStr "Using int8_sq alpha = ";
                          VFloat (sq_alpha (quantization_config self))])]
                    else [])%list |}).
  2: { destruct (decide (alg = "int8_sq")).
       - erewrite bind_run; [|reflexivity].
         erewrite ref_setitem_run; [|apply lookup_insert_eq | exact Hrec].
         unfold set_choices, log. cbn [QUANT_CFG_CHOICES trace].
         rewrite insert_insert_eq. reflexivity.
       - subst recipe. unfold mret, M_ret. by rewrite app_nil_r. }
  match goal with
  | |- context [{| QUANT_CFG_CHOICES := _; trace := ?t |}] =>
      generalize t; intros tr10
  end.
  erewrite bind_run;
    [|unfold load; simpl; rewrite lookup_insert_eq; reflexivity].
  erewrite bind_run; [|unfold call; by rewrite Henv].
  erewrite (bind_run _ _ _ (module model)
              {| QUANT_CFG_CHOICES := <[alg := recipe]> T;
                 trace :=
                   ((tr10 ++ [Returned (MtqQuantize recipe)]) ++
                    if decide (dt = "gptnext") then
                      [Returned (MtqPostprocessAmax "*input_quantizer"
                                   (amax_clamp_min alg))]
                    else [])%list |}).
  2: { destruct (decide (dt = "gptnext")).
       - unfold call. by rewrite Henv.
       - unfold mret, M_ret, log. simpl. by rewrite app_nil_r. }
  erewrite bind_run; [|unfold call; by rewrite Henv].
  destruct (get_rank env =? 0).
  - erewrite bind_run; [|unfold call; by rewrite Henv]. by eexists _, _.
  - erewrite bind_run; [|reflexivity]. by eexists _, _.
Qed.

Lemma seq_set_first x xs v : seq_set (x :: xs) 0 v = Ok (v :: xs).
Proof.
  unfold seq_set, norm_index. simpl length.
  replace (0 <? Z.of_nat (S (length xs))) with true by (symmetry; apply Z.ltb_lt; lia).
  done.
Qed.

Lemma seq_get_first x xs : seq_get (x :: xs) 0 = Ok x.
Proof.
  unfold seq_get, norm_index. simpl length.
  replace (0 <? Z.of_nat (S (length xs))) with true by (symmetry; apply Z.ltb_lt; lia).
  done.
Qed.

Lemma seq_set_last x xs v : ∃ ys, seq_set (x :: xs) (-1) v = Ok ys.
Proof.
  unfold seq_set, norm_index. simpl length.
  replace (-1 <? 0) with true by done.
  replace (0 <=? -1 + Z.of_nat (S (length xs))) with true
    by (symmetry; apply Z.leb_le; lia).
  replace (-1 + Z.of_nat (S (length xs)) <? Z.of_nat (S (length xs))) with true
    by (symmetry; apply Z.ltb_lt; lia).
  by eexists.
Qed.

Lemma block_sizes_assignable wq n :
  block_sizes_ok wq = true →
  ∃ wq', py_set_path wq [KStr "block_sizes"] (KInt (-1)) (VInt n) = Ok wq'.
Proof.
  destruct wq as [| | | | | | |items]; try done. simpl.
  destruct (dict_get (KStr "block_sizes") items) as [[| | | | | |[|b bs]|d]|];
    try done; intros _; simpl.
  - destruct (seq_set_last b bs (VInt n)) as [ys ->]. by eexists.
  - by eexists.
Qed.

Lemma py_set_path_dict_step items k c p j x c' :
  dict_get k items = Some c → py_set_path c p j x = Ok c' →
  py_set_path (VDict items) (k :: p) j x = Ok (VDict (dict_set k c' items)).
Proof. simpl. by intros -> ->. Qed.

Lemma py_set_path_list_step x0 xs p j x c' :
  py_set_path x0 p j x = Ok c' →
  py_set_path (VList (x0 :: xs)) (KInt 0 :: p) j x = Ok (VList (c' :: xs)).
Proof.
  intros H. cbn [py_set_path py_getitem py_setitem].
  rewrite seq_get_first, H. by rewrite seq_set_first.
Qed.

Lemma template_ok_assignable alg tmpl n x y :
  template_ok alg tmpl = true →
  ∃ r1 r2 recipe,
    (if str_contains "awq" alg then
       ∃ wq, weight_quantizer_of tmpl = Ok wq
             ∧ py_set_path tmpl (block_sizes_path wq) (KInt (-1)) (VInt n) = Ok r1
     else r1 = tmpl)
    ∧ py_set_path r1 [KStr "quant_cfg"] (KStr "*output_quantizer") x = Ok r2
    ∧ (if decide (alg = "int8_sq") then
         py_set_path r2 [] (KStr "algorithm") y = Ok recipe
       else recipe = r2).
Proof.
  unfold template_ok.
  destruct tmpl as [| | | | | | |items]; try done.
  destruct (dict_get (KStr "quant_cfg") items) as [[| | | | | | |qc]|] eqn:Hqc;
    try done.
  assert (Hrest : ∀ d qc', dict_get (KStr "quant_cfg") d = Some (VDict qc') →
    ∃ r2 recipe,
      py_set_path (VDict d) [KStr "quant_cfg"] (KStr "*output_quantizer") x = Ok r2
      ∧ (if decide (alg = "int8_sq") then
           py_set_path r2 [] (KStr "algorithm") y = Ok recipe
         else recipe = r2)).
  { intros d qc' Hqc'. simpl. rewrite Hqc'.
    eexists. destruct (decide (alg = "int8_sq")); by eexists. }
  destruct (str_contains "awq" alg).
  2: { intros _. exists (VDict items).
       destruct (Hrest _ _ Hqc) as (r2 & recipe & H2 & H3).
       by exists r2, recipe. }
  assert (Hdone : ∀ wqv wq', dict_get (KStr "*weight_quantizer") qc = Some wqv →
    py_set_path wqv ((if is_list wqv then [KInt 0] else []) ++ [KStr "block_sizes"])
      (KInt (-1)) (VInt n) = Ok wq' →
    ∃ r1 r2 recipe,
      (∃ wq, weight_quantizer_of (VDict items) = Ok wq
             ∧ py_set_path (VDict items) (block_sizes_path wq) (KInt (-1)) (VInt n)
               = Ok r1)
      ∧ py_set_path r1 [KStr "quant_cfg"] (KStr "*output_quantizer") x = Ok r2
      ∧ (if decide (alg = "int8_sq") then
           py_set_path r2 [] (KStr "algorithm") y = Ok recipe
         else recipe = r2)).
  { intros wqv wq' Hwqv Hset.
    pose proof (py_set_path_dict_step _ _ _ _ _ _ _ Hwqv Hset) as Hqcset.
    pose proof (py_set_path_dict_step _ _ _ _ _ _ _ Hqc Hqcset) as Hr1.
    destruct (Hrest _ _ (dict_get_set_eq (KStr "quant_cfg")
                           (VDict (dict_set (KStr "*weight_quantizer") wq' qc))
                           items)) as (r2 & recipe & H2 & H3).
    eexists _, r2, recipe. split; [|by split].
    exists wqv. split; [|exact Hr1].
    unfold weight_quantizer_of. cbn [py_get_path py_getitem].
    rewrite Hqc. cbn [py_getitem]. by rewrite Hwqv. }
  destruct (dict_get (KStr "*weight_quantizer") qc)
    as [[| | | | | |[|wq0 rest]|wq]|] eqn:Hwq; try done; intros Hok.
  - destruct (block_sizes_assignable wq0 n Hok) as [wq0' Hset].
    eapply Hdone; [done|]. simpl is_list. cbv iota.
    by apply py_set_path_list_step.
  - destruct (block_sizes_assignable _ n Hok) as [wq' Hset].
    eapply Hdone; [done|]. exact Hset.
Qed.

(** With no failing collaborator, an export configuration and a template
    of the expected shape, [quantize] returns. *)
Lemma quantize_completes {L} env self model (fl : L) ec alg w tmpl :
  (∀ c, raises env c = None) →
  export_config self = Some ec →
  algorithm (quantization_config self) = Some alg →
  QUANT_CFG_CHOICES w !! alg = Some tmpl →
  template_ok alg tmpl = true →
  ∃ m' w', quantize env self model fl w = (Ok m', w').
Proof.
  intros Henv Hec Halg Htmpl Hok.
  assert (∃ dt, resolved_decoder_type self (mcore_config (module model)) = Some dt)
    as [dt Hdt].
  { unfold resolved_decoder_type. rewrite Hec.
    destruct (decoder_type ec) as [[|? ?]|]; by eexists. }
  destruct (template_ok_assignable alg tmpl
              (awq_block_size (quantization_config self))
              (output_quantizer_entry alg
                 (kv_cache_flag (quantization_config self) alg dt))
              (smoothquant_entry (sq_alpha (quantization_config self))) Hok)
    as (r1 & r2 & recipe & H1 & H2 & H3).
  by eapply quantize_returns.
Qed.

(** The sample templates have that shape, for each supported algorithm. *)
Lemma sample_templates_ok :
  Forall (λ alg, ∃ tmpl, initial_QUANT_CFG_CHOICES sample_mtq !! alg = Some tmpl
                         ∧ template_ok alg tmpl = true)
         SUPPORTED_ALGORITHMS.
Proof. repeat constructor; by eexists. Qed.

(** ** The KV-cache enable flag *)

(** C1.  A [quantize] call with a supported algorithm that completes leaves
    (in the table, and in the recipe it handed to the toolkit) an output
    quantizer whose enable flag is the caller's [enable_kv_cache] when that
    is [True] or [False]; when it is [None], the flag is true exactly when
    the algorithm name does not contain "int8" and the resolved decoder
    type is not "gptnext". *)
Theorem kv_cache_enable_flag {L} env self model (fl : L) alg w m' w' :
  algorithm (quantization_config self) = Some alg →
  alg ∈ SUPPORTED_ALGORITHMS →
  quantize env self model fl w = (Ok m', w') →
  ∃ dt recipe,
    resolved_decoder_type self (mcore_config (module model)) = Some dt
    ∧ QUANT_CFG_CHOICES w' !! alg = Some recipe
    ∧ Returned (MtqQuantize recipe) ∈ trace w'
    ∧ ∃ flag : bool,
        output_quantizer_enable recipe = Ok (VBool flag)
        ∧ (∀ b, enable_kv_cache (quantization_config self) = Some b → flag = b)
        ∧ (enable_kv_cache (quantization_config self) = None →
           (flag = true ↔ str_contains "int8" alg = false ∧ dt ≠ "gptnext")).
Proof.
  intros Halg _ H.
  destruct (quantize_recipe _ _ _ _ _ _ _ _ Halg H)
    as (dt & tmpl & r1 & recipe & Hdt & _ & _ & HT & Hin & Hout & _).
  exists dt, recipe. split; [exact Hdt|]. split; [by rewrite HT, lookup_insert_eq|].
  split; [exact Hin|].
  exists (kv_cache_flag (quantization_config self) alg dt).
  split; [by eapply output_quantizer_enable_of_entry|].
  unfold kv_cache_flag, kv_cache_auto. split.
  - by intros b ->.
  - intros ->. rewrite andb_true_iff, !negb_true_iff, bool_decide_eq_false.
    done.
Qed.

Lemma kv_cache_enable_flag_witness :
  let r := sample_quantize (auto_kv_cache "fp8") [NemotronConfig] in
  ∃ dt recipe,
    resolved_decoder_type (sample_quantizer (auto_kv_cache "fp8"))
      (mcore_config (module (sample_model [NemotronConfig]))) = Some dt
    ∧ QUANT_CFG_CHOICES r.2 !! "fp8" = Some recipe
    ∧ Returned (MtqQuantize recipe) ∈ trace r.2
    ∧ ∃ flag : bool,
        output_quantizer_enable recipe = Ok (VBool flag)
        ∧ (∀ b, enable_kv_cache
                  (quantization_config (sample_quantizer (auto_kv_cache "fp8")))
                = Some b → flag = b)
        ∧ (enable_kv_cache
             (quantization_config (sample_quantizer (auto_kv_cache "fp8")))
           = None →
           (flag = true ↔ str_contains "int8" "fp8" = false ∧ dt ≠ "gptnext")).
Proof.
  intros r.
  apply (kv_cache_enable_flag sample_env (sample_quantizer (auto_kv_cache "fp8"))
           (sample_model [NemotronConfig]) () "fp8" (initial_World sample_mtq)
           (returned_or (sample_model []) r.1) r.2).
  - reflexivity.
  - apply (bool_decide_unpack _). vm_compute. exact I.
  - vm_compute. reflexivity.
Defined.

(** ** The table of templates *)

(** C2, as stated, fails: [quantize] does not copy the template.  On the
    sample process, a call for "int4_awq" with [awq_block_size = 64] leaves
    the table entry of "int4_awq" with block size 64 where the template had
    128: the entry is no longer the original, and the next call on this
    algorithm starts from the changed entry. *)
Lemma quantize_changes_template :
  let r := sample_quantize (awq_64 "int4_awq") [LlamaConfig] in
  is_ok r.1 = true
  ∧ QUANT_CFG_CHOICES (initial_World sample_mtq) !! "int4_awq"
    = Some (INT4_AWQ_CFG sample_mtq)
  ∧ weight_block_size (INT4_AWQ_CFG sample_mtq) = Ok (VInt 128)
  ∧ ∃ entry, QUANT_CFG_CHOICES r.2 !! "int4_awq" = Some entry
             ∧ weight_block_size entry = Ok (VInt 64)
             ∧ entry ≠ INT4_AWQ_CFG sample_mtq.
Proof.
  intros r. split; [by vm_compute|]. split; [by vm_compute|].
  split; [by vm_compute|].
  eexists. split; [vm_compute; reflexivity|]. split; [by vm_compute|].
  intros H. apply (f_equal weight_block_size) in H. vm_compute in H.
  discriminate H.
Qed.

(** C2, amended.  [quantize] takes the table entry of the algorithm itself
    as its recipe and assigns into it: after a completed call the entry is
    the recipe that was handed to the toolkit, with the output quantizer
    this call built, for an "awq" algorithm the block size this call
    assigned, and for "int8_sq" the smoothing entry this call assigned;
    every other entry of the table, and the set of its keys, is
    unchanged. *)
Theorem quantize_recipe_is_table_entry {L} env self model (fl : L) alg w m' w' :
  algorithm (quantization_config self) = Some alg →
  alg ∈ SUPPORTED_ALGORITHMS →
  quantize env self model fl w = (Ok m', w') →
  ∃ dt tmpl recipe,
    resolved_decoder_type self (mcore_config (module model)) = Some dt
    ∧ QUANT_CFG_CHOICES w !! alg = Some tmpl
    ∧ QUANT_CFG_CHOICES w' !! alg = Some recipe
    ∧ Returned (MtqQuantize recipe) ∈ trace w'
    ∧ py_get_path recipe [KStr "quant_cfg"; KStr "*output_quantizer"]
      = Ok (output_quantizer_entry alg
              (kv_cache_flag (quantization_config self) alg dt))
    ∧ (∀ other, other ≠ alg →
         QUANT_CFG_CHOICES w' !! other = QUANT_CFG_CHOICES w !! other)
    ∧ dom (QUANT_CFG_CHOICES w') = dom (QUANT_CFG_CHOICES w)
    ∧ (str_contains "awq" alg = true →
       weight_block_size recipe
       = Ok (VInt (awq_block_size (quantization_config self))))
    ∧ (alg = "int8_sq" →
       py_getitem recipe (KStr "algorithm")
       = Ok (smoothquant_entry (sq_alpha (quantization_config self)))).
Proof.
  intros Halg _ H.
  destruct (quantize_recipe _ _ _ _ _ _ _ _ Halg H)
    as (dt & tmpl & r1 & recipe & Hdt & Htmpl & Hr1 & HT & Hin & Hout & Hwq).
  exists dt, tmpl, recipe. rewrite HT.
  split; [exact Hdt|]. split; [exact Htmpl|].
  split; [apply lookup_insert_eq|]. split; [exact Hin|]. split; [exact Hout|].
  split; [|split; [|split]].
  - intros other Hne. by rewrite lookup_insert_ne.
  - apply dom_insert_lookup_L. by exists tmpl.
  - intros Hawq. rewrite Hawq in Hr1. destruct Hr1 as (wq & Hwq0 & Hset).
    destruct (awq_block_size_read_back _ _ _ _ Hwq0 Hset) as (wq' & Hwq' & Hget).
    unfold weight_block_size. by rewrite Hwq, Hwq'.
  - intros Hsq.
    destruct (quantize_ok _ _ _ _ _ _ _ _ Halg H)
      as (dt2 & tmpl2 & r1' & r2 & recipe2 & t1 & t2
          & _ & _ & _ & _ & Hrec & HT2 & _).
    assert (recipe2 = recipe) as ->.
    { apply (f_equal (λ T, T !! alg)) in HT2. rewrite HT in HT2.
      rewrite !lookup_insert_eq in HT2. by injection HT2. }
    rewrite decide_True in Hrec by exact Hsq.
    cbn [py_set_path] in Hrec. by apply py_getitem_setitem_eq in Hrec.
Qed.

Lemma quantize_recipe_is_table_entry_witness :
  let model := sample_model [LlamaConfig] in
  let w := initial_World sample_mtq in
  let self := sample_quantizer (awq_64 "int4_awq") in
  let r := sample_quantize (awq_64 "int4_awq") [LlamaConfig] in
  let sq := with_algorithm default_QuantizationConfig (Some "int8_sq") in
  let r' := sample_quantize sq [LlamaConfig] in
  (∃ dt tmpl recipe,
     resolved_decoder_type self (mcore_config (module model)) = Some dt
     ∧ QUANT_CFG_CHOICES w !! "int4_awq" = Some tmpl
     ∧ QUANT_CFG_CHOICES r.2 !! "int4_awq" = Some recipe
     ∧ Returned (MtqQuantize recipe) ∈ trace r.2
     ∧ py_get_path recipe [KStr "quant_cfg"; KStr "*output_quantizer"]
       = Ok (output_quantizer_entry "int4_awq"
               (kv_cache_flag (quantization_config self) "int4_awq" dt))
     ∧ (∀ other, other ≠ "int4_awq" →
          QUANT_CFG_CHOICES r.2 !! other = QUANT_CFG_CHOICES w !! other)
     ∧ dom (QUANT_CFG_CHOICES r.2) = dom (QUANT_CFG_CHOICES w)
     ∧ weight_block_size recipe = Ok (VInt 64))
  ∧ (∃ recipe,
       QUANT_CFG_CHOICES r'.2 !! "int8_sq" = Some recipe
       ∧ Returned (MtqQuantize recipe) ∈ trace r'.2
       ∧ py_getitem recipe (KStr "algorithm")
         = Ok (smoothquant_entry (sq_alpha sq))).
Proof.
  intros model w self r sq r'.
  assert (Hawq : "int4_awq" ∈ SUPPORTED_ALGORITHMS)
    by (apply (bool_decide_unpack _); vm_compute; exact I).
  assert (Hsq : "int8_sq" ∈ SUPPORTED_ALGORITHMS)
    by (apply (bool_decide_unpack _); vm_compute; exact I).
  assert (Hrun : quantize sample_env self model () w
                 = (Ok (returned_or model r.1), r.2))
    by (vm_compute; reflexivity).
  assert (Hrun' : quantize sample_env (sample_quantizer sq) model () w
                  = (Ok (returned_or model r'.1), r'.2))
    by (vm_compute; reflexivity).
  split.
  - destruct (quantize_recipe_is_table_entry sample_env self model () "int4_awq"
                w _ _ eq_refl Hawq Hrun)
      as (dt & tmpl & recipe & H1 & H2 & H3 & H4 & H5 & H6 & H7 & H8 & _).
    exists dt, tmpl, recipe. do 7 (split; [assumption|]).
    apply H8. reflexivity.
  - destruct (quantize_recipe_is_table_entry sample_env (sample_quantizer sq)
                model () "int8_sq" w _ _ eq_refl Hsq Hrun')
      as (dt & tmpl & recipe & _ & _ & H3 & H4 & _ & _ & _ & _ & H9).
    exists recipe. do 2 (split; [assumption|]).
    apply H9. reflexivity.
Defined.

(** ** The "awq" block size *)

(** C8.  After a completed [quantize] call with a supported algorithm whose
    name contains "awq", the last block-size entry of the recipe's weight
    quantizer (of its first element when it is a list) is the configured
    [awq_block_size]; for a supported algorithm whose name does not contain
    "awq", the recipe's weight quantizer is the one of the template. *)
Theorem awq_block_size_in_recipe {L} env self model (fl : L) alg w m' w' :
  algorithm (quantization_config self) = Some alg →
  alg ∈ SUPPORTED_ALGORITHMS →
  quantize env self model fl w = (Ok m', w') →
  ∃ tmpl recipe,
    QUANT_CFG_CHOICES w !! alg = Some tmpl
    ∧ QUANT_CFG_CHOICES w' !! alg = Some recipe
    ∧ Returned (MtqQuantize recipe) ∈ trace w'
    ∧ (str_contains "awq" alg = true →
       weight_block_size recipe
       = Ok (VInt (awq_block_size (quantization_config self))))
    ∧ (str_contains "awq" alg = false →
       weight_quantizer_of recipe = weight_quantizer_of tmpl).
Proof.
  intros Halg _ H.
  destruct (quantize_recipe _ _ _ _ _ _ _ _ Halg H)
    as (dt & tmpl & r1 & recipe & _ & Htmpl & Hr1 & HT & Hin & _ & Hwq).
  exists tmpl, recipe. split; [exact Htmpl|].
  split; [by rewrite HT, lookup_insert_eq|]. split; [exact Hin|].
  split; intros Hawq; rewrite Hawq in Hr1.
  - destruct Hr1 as (wq & Hwq0 & Hset).
    destruct (awq_block_size_read_back _ _ _ _ Hwq0 Hset) as (wq' & Hwq' & Hget).
    unfold weight_block_size. by rewrite Hwq, Hwq'.
  - by rewrite Hwq, Hr1.
Qed.

Lemma awq_block_size_in_recipe_witness :
  let self := sample_quantizer (awq_64 "w4a8_awq") in
  let w := initial_World sample_mtq in
  let r := sample_quantize (awq_64 "w4a8_awq") [LlamaConfig] in
  ∃ tmpl recipe,
    QUANT_CFG_CHOICES w !! "w4a8_awq" = Some tmpl
    ∧ QUANT_CFG_CHOICES r.2 !! "w4a8_awq" = Some recipe
    ∧ Returned (MtqQuantize recipe) ∈ trace r.2
    ∧ (str_contains "awq" "w4a8_awq" = true →
       weight_block_size recipe
       = Ok (VInt (awq_block_size (quantization_config self))))
    ∧ (str_contains "awq" "w4a8_awq" = false →
       weight_quantizer_of recipe = weight_quantizer_of tmpl).
Proof.
  intros self w r.
  apply (awq_block_size_in_recipe sample_env self (sample_model [LlamaConfig]) ()
           "w4a8_awq" w (returned_or (sample_model []) r.1) r.2).
  - reflexivity.
  - apply (bool_decide_unpack _). vm_compute. exact I.
  - vm_compute. reflexivity.
Defined.

(** ** The default configuration *)

(** C9.  [QuantizationConfig()] has [enable_kv_cache = True], not [None];
    with that value a completed [quantize] call leaves the output
    quantizer's enable flag true for every algorithm and whatever the
    decoder type: the automatic choice is not consulted. *)
Theorem default_config_enables_kv_cache {L} env self model (fl : L) alg w m' w' :
  enable_kv_cache (quantization_config self)
  = enable_kv_cache default_QuantizationConfig →
  algorithm (quantization_config self) = Some alg →
  quantize env self model fl w = (Ok m', w') →
  enable_kv_cache default_QuantizationConfig = Some true
  ∧ ∃ recipe,
      QUANT_CFG_CHOICES w' !! alg = Some recipe
      ∧ Returned (MtqQuantize recipe) ∈ trace w'
      ∧ output_quantizer_enable recipe = Ok (VBool true).
Proof.
  intros Hdefault Halg H. split; [reflexivity|].
  destruct (quantize_recipe _ _ _ _ _ _ _ _ Halg H)
    as (dt & tmpl & r1 & recipe & _ & _ & _ & HT & Hin & Hout & _).
  exists recipe. split; [by rewrite HT, lookup_insert_eq|].
  split; [exact Hin|].
  unfold kv_cache_flag in Hout. rewrite Hdefault in Hout. simpl in Hout.
  by eapply output_quantizer_enable_of_entry.
Qed.

Lemma default_config_enables_kv_cache_witness :
  let qc := with_algorithm default_QuantizationConfig (Some "int8_sq") in
  let r := sample_quantize qc [NemotronConfig] in
  enable_kv_cache default_QuantizationConfig = Some true
  ∧ ∃ recipe,
      QUANT_CFG_CHOICES r.2 !! "int8_sq" = Some recipe
      ∧ Returned (MtqQuantize recipe) ∈ trace r.2
      ∧ output_quantizer_enable recipe = Ok (VBool true).
Proof.
  intros qc r.
  apply (default_config_enables_kv_cache sample_env (sample_quantizer qc)
           (sample_model [NemotronConfig]) () "int8_sq"
           (initial_World sample_mtq)
           (returned_or (sample_model []) r.1) r.2).
  - reflexivity.
  - reflexivity.
  - vm_compute. reflexivity.
Defined.

(** ** The decoder-type resolver *)

(** C4.  For a configuration that matches a family of the mapping, the
    resolver returns the label of the first family it matches and leaves
    the world as it is (no warning); in particular a configuration of
    exactly one of the nine families gets the label listed for it.  For a
    configuration that matches no family it returns "llama", and the only
    effect is one warning. *)
Theorem decoder_type_resolver config w :
  (∀ pre cls label post,
     mapping = (pre ++ (cls, label) :: post)%list →
     isinstance config cls = true →
     Forall (λ e, isinstance config e.1 = false) pre →
     get_modelopt_decoder_type config w = (Ok label, w))
  ∧ (∀ cls label,
       (cls, label) ∈
         [ (Baichuan2Config, "baichuan"); (ChatGLMConfig, "chatglm");
           (GemmaConfig, "gemma"); (LlamaConfig, "llama");
           (MistralConfig7B, "llama"); (MixtralConfig, "llama");
           (NemotronConfig, "gptnext"); (Starcoder2Config, "gptnext");
           (Qwen2Config, "qwen") ] →
       config_classes config = [cls] →
       get_modelopt_decoder_type config w = (Ok label, w))
  ∧ (Forall (λ e, isinstance config e.1 = false) mapping →
     ∃ w', get_modelopt_decoder_type config w = (Ok "llama", w')
           ∧ QUANT_CFG_CHOICES w' = QUANT_CFG_CHOICES w
           ∧ trace w' =
             (trace w ++
              [Returned (LoggingWarning
                           [VStr "Could not directly infer the decoder type"])])%list).
Proof.
  assert (Hfirst : ∀ m pre cls label post,
    m = (pre ++ (cls, label) :: post)%list →
    isinstance config cls = true →
    Forall (λ e, isinstance config e.1 = false) pre →
    first_match config m = Some label).
  { intros m pre. revert m.
    induction pre as [|[c l] pre IH]; intros m cls label post -> Hcls Hpre.
    - simpl. by rewrite Hcls.
    - apply Forall_cons in Hpre as [Hc Hpre]. simpl in Hc |- *.
      rewrite Hc. by eapply IH. }
  assert (Hnone : ∀ m, Forall (λ e, isinstance config e.1 = false) m →
    first_match config m = None).
  { induction m as [|[c l] m IH]; intros Hm; [done|].
    apply Forall_cons in Hm as [Hc Hm]. simpl in Hc |- *.
    rewrite Hc. by apply IH. }
  split; [|split].
  - intros pre cls label post Hm Hcls Hpre.
    rewrite get_modelopt_decoder_type_run.
    by rewrite (Hfirst _ _ _ _ _ Hm Hcls Hpre).
  - intros cls label Hin Hcfg. rewrite get_modelopt_decoder_type_run.
    unfold mapping. simpl. unfold isinstance. rewrite Hcfg.
    repeat (apply elem_of_cons in Hin as [[= -> ->]|Hin]; [by vm_compute|]).
    by apply elem_of_nil in Hin.
  - intros Hm. rewrite get_modelopt_decoder_type_run, (Hnone _ Hm).
    eexists. split; [done|]. by split.
Qed.

Lemma decoder_type_resolver_witness :
  let w := initial_World sample_mtq in
  get_modelopt_decoder_type (sample_config [Starcoder2Config; OtherConfig "GPTConfig"]) w
  = (Ok "gptnext", w)
  ∧ get_modelopt_decoder_type (sample_config [MixtralConfig]) w = (Ok "llama", w)
  ∧ ∃ w', get_modelopt_decoder_type (sample_config [OtherConfig "GPTConfig"]) w
          = (Ok "llama", w')
          ∧ QUANT_CFG_CHOICES w' = QUANT_CFG_CHOICES w
          ∧ trace w' =
            (trace w ++
             [Returned (LoggingWarning
                          [VStr "Could not directly infer the decoder type"])])%list.
Proof.
  intros w. split; [|split].
  - apply (proj1 (decoder_type_resolver
                    (sample_config [Starcoder2Config; OtherConfig "GPTConfig"]) w)
             (take 8 mapping) Starcoder2Config "gptnext" []).
    + reflexivity.
    + reflexivity.
    + vm_compute. repeat constructor.
  - apply (proj1 (proj2 (decoder_type_resolver
                           (sample_config [MixtralConfig]) w))
             MixtralConfig "llama").
    + apply (bool_decide_unpack _). vm_compute. exact I.
    + reflexivity.
  - apply (proj2 (proj2 (decoder_type_resolver
                           (sample_config [OtherConfig "GPTConfig"]) w))).
    vm_compute. repeat constructor.
Defined.

(** ** Construction *)

(** The table holds the six supported algorithms, at import and after any
    completed [quantize] call. *)
Lemma initial_choices_dom mtq :
  dom (initial_QUANT_CFG_CHOICES mtq) = list_to_set SUPPORTED_ALGORITHMS.
Proof.
  unfold initial_QUANT_CFG_CHOICES, SUPPORTED_ALGORITHMS.
  rewrite !dom_insert_L, dom_empty_L. simpl. set_solver.
Qed.

Lemma known_algorithm (T : gmap string PyVal) a :
  dom T = list_to_set SUPPORTED_ALGORITHMS →
  is_Some (T !! a) ↔ a ∈ SUPPORTED_ALGORITHMS.
Proof.
  intros Hdom. rewrite <- elem_of_dom, Hdom. apply elem_of_list_to_set.
Qed.

(** C6.  In a process whose table holds the supported algorithms,
    construction raises a [RuntimeError] when the toolkit is missing, an
    [EnvironmentError] when the toolkit is there and the device is missing,
    and never returns when the algorithm is a string outside the supported
    set or the dtype is outside [SUPPORTED_DTYPE] (an [AssertionError] when
    toolkit and device are there); with algorithm [None] the algorithm
    check passes.  Construction changes nothing in the world. *)
Theorem construction_errors env qc ec w :
  dom (QUANT_CFG_CHOICES w) = list_to_set SUPPORTED_ALGORITHMS →
  let r := Quantizer_init env qc (Some ec) w in
  r.2 = w
  ∧ (HAVE_MODELOPT env = false →
     r.1 = Raise (RuntimeError "nvidia-modelopt is needed to use Quantizer"))
  ∧ (HAVE_MODELOPT env = true → cuda_is_available env = false →
     r.1 = Raise (EnvironmentError "GPU is required for the quantization."))
  ∧ (∀ a, algorithm qc = Some a → a ∉ SUPPORTED_ALGORITHMS →
     is_ok r.1 = false
     ∧ (HAVE_MODELOPT env = true → cuda_is_available env = true →
        r.1 = Raise (AssertionError
                       [VStr "Unsupported quantization algorithm: "; VStr a])))
  ∧ (dtype ec ∉ SUPPORTED_DTYPE →
     is_ok r.1 = false
     ∧ (HAVE_MODELOPT env = true → cuda_is_available env = true →
        ∃ msg, r.1 = Raise (AssertionError msg)))
  ∧ (HAVE_MODELOPT env = true → cuda_is_available env = true →
     (algorithm qc = None ∨ ∃ a, algorithm qc = Some a ∧ a ∈ SUPPORTED_ALGORITHMS) →
     dtype ec ∈ SUPPORTED_DTYPE →
     r.1 = match torch_dtype_from_precision env (dtype ec) with
           | Ok d => Ok {| quantization_config := qc;
                           export_config := Some ec;
                           nemo_checkpoint_path := None;
                           torch_dtype := d |}
           | Raise e => Raise e
           end).
Proof.
  intros Hdom r. subst r. unfold Quantizer_init.
  destruct (HAVE_MODELOPT env); simpl;
    [|repeat split; intros; simplify_eq; done].
  destruct (cuda_is_available env); simpl;
    [|repeat split; intros; simplify_eq; done].
  unfold mbind, M_bind, raise, lift, mret, M_ret.
  destruct (algorithm qc) as [a|] eqn:Halg.
  - destruct (bool_decide (is_Some (QUANT_CFG_CHOICES w !! a))) eqn:Hknown; simpl.
    + apply bool_decide_eq_true in Hknown.
      apply (known_algorithm _ _ Hdom) in Hknown.
      destruct (bool_decide (dtype ec ∈ SUPPORTED_DTYPE)) eqn:Hd; simpl.
      * destruct (torch_dtype_from_precision env (dtype ec)); simpl;
          repeat split; intros; simplify_eq; try done.
        all: by apply bool_decide_eq_true in Hd.
      * apply bool_decide_eq_false in Hd.
        repeat split; intros; simplify_eq; try done. by eexists.
    + apply bool_decide_eq_false in Hknown.
      rewrite (known_algorithm _ _ Hdom) in Hknown.
      repeat split; intros; simplify_eq; try done; try by eexists.
      match goal with
      | H : _ ∨ _ |- _ => destruct H as [?|(? & ? & ?)]; by simplify_eq
      end.
  - simpl.
    destruct (bool_decide (dtype ec ∈ SUPPORTED_DTYPE)) eqn:Hd; simpl.
    + destruct (torch_dtype_from_precision env (dtype ec)); simpl;
        repeat split; intros; simplify_eq; try done.
      all: by apply bool_decide_eq_true in Hd.
    + apply bool_decide_eq_false in Hd.
      repeat split; intros; simplify_eq; try done. by eexists.
Qed.

Lemma construction_errors_witness :
  let qc := with_algorithm default_QuantizationConfig (Some "int2") in
  let ec := default_ExportConfig "out" in
  let w := initial_World sample_mtq in
  (Quantizer_init sample_env qc (Some ec) w).1
  = Raise (AssertionError
             [VStr "Unsupported quantization algorithm: "; VStr "int2"]).
Proof.
  intros qc ec w.
  assert (Hdom : dom (QUANT_CFG_CHOICES w) = list_to_set SUPPORTED_ALGORITHMS)
    by (vm_compute; reflexivity).
  apply (proj1 (proj2 (proj2 (proj2 (construction_errors sample_env qc ec w Hdom))))
           "int2").
  - reflexivity.
  - apply (bool_decide_unpack _). vm_compute. exact I.
  - reflexivity.
  - reflexivity.
Defined.

(** ** The calibration data iterator *)

Lemma str_take_length n s : (String.length (str_take n s) ≤ n)%nat.
Proof.
  revert s. induction n as [|n IH]; intros [|c s]; simpl; try lia.
  specialize (IH s). lia.
Qed.

Lemma str_slice_to_length s m :
  0 ≤ m → Z.of_nat (String.length (str_slice_to s m)) ≤ m.
Proof.
  intros Hm. unfold str_slice_to.
  destruct (m <? 0) eqn:Hneg; [lia|].
  pose proof (str_take_length
                (Z.to_nat (Z.min m (Z.of_nat (String.length s)))) s).
  lia.
Qed.

Lemma py_range_length n : 0 ≤ n → Z.of_nat (length (py_range n)) = n.
Proof.
  intros Hn. unfold py_range. rewrite length_map, length_seq. lia.
Qed.

(** C3, as stated, fails.  With a one-row corpus, batch size 2 and a
    requested count of 1 the iterator yields one batch, though no count
    that is at most the corpus size gives one batch of two: the lower
    clamp wins over the corpus size.  And with a negative maximum length
    the slice drops characters from the end, so the strings are longer
    than the maximum. *)
Lemma calib_count_exceeds_corpus :
  get_calib_data_iter (sample_load_dataset 1) "wikitext" 2 1 512
  = Ok [["abcdef"]]
  ∧ (∀ e, e ≤ 1 → e / 2 ≠ 1)
  ∧ get_calib_data_iter (sample_load_dataset 1) "wikitext" 1 1 (-2)
    = Ok [["abcd"]]
  ∧ ¬ (Z.of_nat (String.length "abcd") ≤ -2).
Proof.
  split; [by vm_compute|]. split.
  - intros e He Hd.
    assert (e / 2 < 1) by (apply Z.div_lt_upper_bound; lia). lia.
  - split; [by vm_compute|]. simpl. lia.
Qed.

(** C3, amended.  For a batch size [b > 0] the iterator yields exactly
    [floor(e / b)] batches, where the effective count is
    [e = max(min(n, c), b)] for a corpus of [n] rows and a requested count
    [c]: at least one batch, and at most the corpus size when the corpus
    holds a batch ([b <= n]); for a maximum length [m >= 0] every string of
    every batch has at most [m] characters. *)
Theorem calib_iter_batches load_dataset data b c m :
  0 < b →
  let n := Z.of_nat (length (load_corpus load_dataset data).1) in
  let e := Z.max (Z.min n c) b in
  ∃ batches,
    get_calib_data_iter load_dataset data b c m = Ok batches
    ∧ Z.of_nat (length batches) = e / b
    ∧ b ≤ e
    ∧ (b ≤ n → e ≤ n)
    ∧ (0 ≤ m → ∀ batch s, batch ∈ batches → s ∈ batch →
               Z.of_nat (String.length s) ≤ m).
Proof.
  intros Hb n e. unfold get_calib_data_iter. subst n e.
  destruct (load_corpus load_dataset data) as [dataset text_column]; simpl.
  destruct (b =? 0) eqn:Hb0; [lia|].
  eexists. split; [reflexivity|].
  split; [|split; [lia|split; [lia|]]].
  - rewrite length_map. apply py_range_length.
    apply Z.div_pos; lia.
  - intros Hm batch s Hbatch Hs.
    apply list_elem_of_fmap in Hbatch as (i & -> & _).
    apply list_elem_of_fmap in Hs as (s0 & -> & _).
    by apply str_slice_to_length.
Qed.

Lemma calib_iter_batches_witness :
  ∃ batches,
    get_calib_data_iter (sample_load_dataset 5) "cnn_dailymail" 2 3 4
    = Ok batches
    ∧ Z.of_nat (length batches) = Z.max (Z.min 5 3) 2 / 2
    ∧ 2 ≤ Z.max (Z.min 5 3) 2
    ∧ (2 ≤ 5 → Z.max (Z.min 5 3) 2 ≤ 5)
    ∧ (0 ≤ 4 → ∀ batch s, batch ∈ batches → s ∈ batch →
               Z.of_nat (String.length s) ≤ 4).
Proof.
  apply (calib_iter_batches (sample_load_dataset 5) "cnn_dailymail" 2 3 4).
  lia.
Defined.

(** ** The Falcon layer spec *)

(** C10.  Without megatron-core [get_falcon_layer_spec] raises an
    [ImportError].  With it, the call returns a [ModuleSpec] for
    [FalconTransformerLayer]; its self-attention is a [ModuleSpec] for
    [SelfAttention] with the causal mask type and the Transformer Engine
    linear and attention modules, with identity q/k layer norms; and its
    submodules carry [post_self_attn_layernorm = TENorm], an attribute the
    constructor call did not set and the assignment after it adds. *)
Theorem falcon_spec_shape :
  (∃ msg, Falcon.get_falcon_layer_spec false = Raise (ImportError msg))
  ∧ ∃ spec sub attn attn_sub,
      Falcon.get_falcon_layer_spec true = Ok spec
      ∧ Falcon.getattr spec "module" = Some (Falcon.Sym Falcon.FalconTransformerLayer)
      ∧ Falcon.getattr spec "submodules" = Some sub
      ∧ Falcon.getattr sub "self_attention" = Some attn
      ∧ Falcon.getattr attn "module" = Some (Falcon.Sym Falcon.SelfAttention)
      ∧ Falcon.assoc "attn_mask_type" (Falcon.spec_params attn)
        = Some (Falcon.Mask Falcon.causal)
      ∧ Falcon.getattr attn "submodules" = Some attn_sub
      ∧ Falcon.getattr attn_sub "linear_qkv"
        = Some (Falcon.Sym Falcon.TEColumnParallelLinear)
      ∧ Falcon.getattr attn_sub "core_attention"
        = Some (Falcon.Sym Falcon.TEDotProductAttention)
      ∧ Falcon.getattr attn_sub "linear_proj"
        = Some (Falcon.Sym Falcon.TERowParallelLinear)
      ∧ Falcon.getattr attn_sub "q_layernorm" = Some (Falcon.Sym Falcon.IdentityOp)
      ∧ Falcon.getattr attn_sub "k_layernorm" = Some (Falcon.Sym Falcon.IdentityOp)
      ∧ Falcon.getattr sub "post_self_attn_layernorm"
        = Some (Falcon.Sym Falcon.TENorm)
      ∧ sub = Falcon.setattr Falcon.new_falcon_submodules
                "post_self_attn_layernorm" (Falcon.Sym Falcon.TENorm)
      ∧ Falcon.getattr Falcon.new_falcon_submodules "post_self_attn_layernorm"
        = None.
Proof.
  split; [by eexists|].
  do 4 eexists. split; [reflexivity|]. simpl.
  split; [reflexivity|]. split; [reflexivity|]. split; [reflexivity|].
  simpl. repeat split; reflexivity.
Qed.

(** ** Traces of every run *)

Lemma each_afterb_spec p q seen t :
  each_afterb p q seen t = true →
  ∀ pre x post, t = (pre ++ x :: post)%list → q x = true →
    seen = true ∨ ∃ y, y ∈ pre ∧ p y = true.
Proof.
  revert seen. induction t as [|a t IH]; intros seen H pre x post Ht Hq.
  - by destruct pre.
  - simpl in H. apply andb_true_iff in H as [Ha Ht'].
    destruct pre as [|b pre]; simpl in Ht; injection Ht as -> ->.
    + rewrite Hq in Ha. simpl in Ha. by left.
    + destruct (IH _ Ht' _ _ _ eq_refl Hq) as [Hs|(y & Hy & Hp)].
      * apply orb_true_iff in Hs as [Hs|Hs]; [by left|].
        right. exists b. split; [apply list_elem_of_here | done].
      * right. exists y. split; [by apply list_elem_of_further | done].
Qed.

Lemma each_afterb_each_after p q t :
  each_afterb p q false t = true → each_after p q t.
Proof.
  intros H pre x post Ht Hq.
  by destruct (each_afterb_spec _ _ _ _ H _ _ _ Ht Hq).
Qed.

Lemma each_afterb_seen p q t : each_afterb p q true t = true.
Proof. induction t as [|a t IH]; simpl; [done|]. by rewrite orb_true_r. Qed.

Lemma each_afterb_quiet_prefix t1 t2 :
  Forall quiet t1 →
  each_afterb is_mtq_quantize_returned is_postprocess_amax false (t1 ++ t2)
  = each_afterb is_mtq_quantize_returned is_postprocess_amax false t2.
Proof.
  induction 1 as [|x t1 [Hp Hq] _ IH]; simpl; [done|].
  by rewrite Hp, Hq.
Qed.

Section Emits.

Variable env : Env.

Lemma bind_inv {A B} (m : M A) (f : A → M B) w o w2 :
  (m ≫= f) w = (o, w2) →
  (∃ a w1, m w = (Ok a, w1) ∧ f a w1 = (o, w2))
  ∨ (∃ e, m w = (Raise e, w2) ∧ o = Raise e).
Proof.
  unfold mbind, M_bind. destruct (m w) as [[a|e] w1].
  - intros H. left. by exists a, w1.
  - intros [= <- <-]. right. by exists e.
Qed.

(** A prefix that adds [P1] and a continuation that adds [P2]. *)
Lemma emits_bind {A B} (P1 P2 P : list Entry → Prop) (V : A → Prop)
    (m : M A) (f : A → M B) :
  emits P1 m →
  (∀ w a w', m w = (Ok a, w') → V a) →
  (∀ a, V a → emits P2 (f a)) →
  (∀ t1, P1 t1 → P t1) →
  (∀ t1 t2, P1 t1 → P2 t2 → P (t1 ++ t2)%list) →
  emits P (m ≫= f).
Proof.
  intros Hm HV Hf Hraise Happ w o w2 H.
  apply bind_inv in H as [(a & w1 & H1 & H2)|(e & H1 & ->)].
  - destruct (Hm _ _ _ H1) as (t1 & Ht1 & HP1).
    destruct (Hf a (HV _ _ _ H1) _ _ _ H2) as (t2 & Ht2 & HP2).
    exists (t1 ++ t2)%list. split; [|by apply Happ].
    by rewrite Ht2, Ht1, app_assoc.
  - destruct (Hm _ _ _ H1) as (t1 & Ht1 & HP1). exists t1. split; [exact Ht1 | by apply Hraise].
Qed.

Lemma quietly_bind {A B} (m : M A) (f : A → M B) :
  quietly m → (∀ a, quietly (f a)) → quietly (m ≫= f).
Proof.
  intros Hm Hf.
  apply (emits_bind (Forall quiet) (Forall quiet) _ (λ _, True) m f);
    [exact Hm | done | intros a _; apply Hf | done |].
  intros t1 t2 H1 H2. by apply Forall_app.
Qed.

Lemma quietly_mret {A} (a : A) : quietly (mret a : M A).
Proof. intros w o w' [= <- <-]. exists []. by rewrite app_nil_r. Qed.

Lemma quietly_raise {A} e : quietly (raise e : M A).
Proof. intros w o w' [= <- <-]. exists []. by rewrite app_nil_r. Qed.

Lemma quietly_lift {A} (x : Outcome A) : quietly (lift x).
Proof. intros w o w' [= <- <-]. exists []. by rewrite app_nil_r. Qed.

Lemma quietly_call_total {A} c (a : A) : quiet_call c → quietly (call_total c a).
Proof.
  intros Hc w o w' [= <- <-]. exists [Returned c]. split; [done|].
  constructor; [|done]. by destruct c.
Qed.

Lemma quietly_logging_info msg : quietly (logging_info msg).
Proof. by apply quietly_call_total. Qed.

Lemma quietly_call {A} c (a : A) : quiet_call c → quietly (call env c a).
Proof.
  intros Hc w o w'. unfold call.
  destruct (raises env c) as [e|]; intros [= <- <-]; eexists; (split; [done|]);
    (constructor; [|done]); by destruct c.
Qed.

Lemma quietly_choices_getitem alg : quietly (choices_getitem alg).
Proof.
  intros w o w'. unfold choices_getitem.
  destruct (QUANT_CFG_CHOICES w !! alg); intros [= <- <-];
    exists []; by rewrite app_nil_r.
Qed.

Lemma quietly_load r : quietly (load r).
Proof.
  intros w o w'. unfold load.
  destruct (QUANT_CFG_CHOICES w !! r.1); intros [= <- <-];
    exists []; by rewrite app_nil_r.
Qed.

Lemma quietly_ref_setitem r k x : quietly (ref_setitem r k x).
Proof.
  intros w o w'. unfold ref_setitem.
  destruct (QUANT_CFG_CHOICES w !! r.1) as [v|]; [|intros [= <- <-]].
  - destruct (py_set_path v r.2 k x); intros [= <- <-];
      exists []; by rewrite app_nil_r.
  - exists []. by rewrite app_nil_r.
Qed.

Lemma quietly_ref_getitem r k : quietly (ref_getitem r k).
Proof.
  unfold ref_getitem.
  apply quietly_bind; [apply quietly_load|]. intros v.
  apply quietly_bind; [apply quietly_lift|]. intros _. apply quietly_mret.
Qed.

Lemma quietly_ref_is_list r : quietly (ref_is_list r).
Proof.
  unfold ref_is_list.
  apply quietly_bind; [apply quietly_load|]. intros v. apply quietly_mret.
Qed.

Lemma quietly_get_modelopt_decoder_type config :
  quietly (get_modelopt_decoder_type config).
Proof.
  unfold get_modelopt_decoder_type.
  destruct (first_match config mapping); [apply quietly_mret|].
  apply quietly_bind; [by apply quietly_call_total|].
  intros _. apply quietly_mret.
Qed.

Lemma quietly__get_decoder_type self config :
  quietly (_get_decoder_type self config).
Proof.
  unfold _get_decoder_type.
  destruct (export_config self) as [ec|]; [|apply quietly_raise].
  destruct (decoder_type ec) as [[|? ?]|];
    first [apply quietly_mret | apply quietly_get_modelopt_decoder_type].
Qed.

Lemma quietly__setup self model : quietly (_setup env self model).
Proof.
  unfold _setup. apply quietly_bind; [by apply quietly_call|].
  intros _. apply quietly_mret.
Qed.

Lemma quietly_get_unwrapped_mcore_model model :
  quietly (get_unwrapped_mcore_model env model).
Proof. by apply quietly_call. Qed.

End Emits.

Ltac solve_quietly :=
  repeat first
    [ apply quietly_mret
    | apply quietly_raise
    | apply quietly_load
    | apply quietly_ref_getitem
    | apply quietly_ref_setitem
    | apply quietly_ref_is_list
    | apply quietly_choices_getitem
    | apply quietly__get_decoder_type
    | apply quietly__setup
    | apply quietly_get_unwrapped_mcore_model
    | apply quietly_call_total; exact I
    | apply quietly_logging_info
    | apply quietly_call; exact I
    | apply quietly_bind; [|intros ?]
    | match goal with
      | |- quietly (if ?b then _ else _) => destruct b
      end ].

Lemma amax_after_quantize_quiet self model alg t :
  Forall quiet t → amax_after_quantize self model alg t.
Proof.
  intros Ht. split.
  - rewrite <- (app_nil_r t). by rewrite each_afterb_quiet_prefix.
  - intros x Hx Hp. rewrite Forall_forall in Ht.
    destruct (Ht x Hx) as [Hq _]. congruence.
Qed.

Lemma amax_after_quantize_prefix self model alg t1 t2 :
  Forall quiet t1 → amax_after_quantize self model alg t2 →
  amax_after_quantize self model alg (t1 ++ t2).
Proof.
  intros Ht1 [Hord Hp]. split.
  - by rewrite each_afterb_quiet_prefix.
  - intros x Hx Hpx. apply elem_of_app in Hx as [Hx|Hx]; [|by apply Hp].
    rewrite Forall_forall in Ht1. destruct (Ht1 x Hx) as [Hq _]. congruence.
Qed.

Lemma amax_prefix_bind {A B} self model alg (V : A → Prop)
    (m : M A) (f : A → M B) :
  quietly m →
  (∀ w a w', m w = (Ok a, w') → V a) →
  (∀ a, V a → emits (amax_after_quantize self model alg) (f a)) →
  emits (amax_after_quantize self model alg) (m ≫= f).
Proof.
  intros Hm HV Hf.
  apply (emits_bind (Forall quiet) (amax_after_quantize self model alg) _ V m f);
    [exact Hm | exact HV | exact Hf | |].
  - apply amax_after_quantize_quiet.
  - apply amax_after_quantize_prefix.
Qed.

Lemma quantize_amax_all_runs {L} env self model (fl : L) alg :
  algorithm (quantization_config self) = Some alg →
  emits (amax_after_quantize self model alg) (quantize env self model fl).
Proof.
  intros Halg. unfold quantize. rewrite Halg.
  apply (amax_prefix_bind _ _ _ (λ _, True));
    [solve_quietly | intros; exact I | intros ? _].
  apply (amax_prefix_bind _ _ _ (λ m, module m = module model));
    [solve_quietly | | intros model1 Hmodel1].
  { intros w m w' H. unfold _setup in H.
    apply bind_ok in H as ([] & w1 & _ & H). by apply mret_ok in H as [-> _]. }
  apply (amax_prefix_bind _ _ _ (λ um, um = module model));
    [solve_quietly | | intros um ->].
  { intros w um w' H. apply call_ok in H as (-> & _). exact Hmodel1. }
  apply (amax_prefix_bind _ _ _
           (λ dt, resolved_decoder_type self (mcore_config (module model)) = Some dt));
    [solve_quietly | | intros dt Hdt].
  { intros w d w' H. by apply _get_decoder_type_ok in H as [? _]. }
  do 7 (apply (amax_prefix_bind _ _ _ (λ _, True));
          [solve_quietly | intros; exact I | intros ? _]).
  intros w o w' H. unfold mbind, M_bind, call, mret, M_ret in H.
  destruct (raises env (MtqQuantize _));
    [|destruct (decide (dt = "gptnext")) as [->|Hne];
      [destruct (raises env (MtqPostprocessAmax _ _))|];
      try (destruct (raises env DistGetRank);
           [|destruct (get_rank env =? 0);
             [destruct (raises env MtqPrintQuantSummary)|]])];
    injection H as <- <-; unfold log; cbn [trace];
    rewrite <- ?app_assoc; (eexists; split; [reflexivity|]);
    (split; [reflexivity|]); intros x Hx Hp;
    repeat (apply elem_of_cons in Hx as [->|Hx]; [try discriminate Hp|]);
    try (by apply elem_of_nil in Hx); by split.
Qed.

(** ** The amax post-processing *)

(** C7.  In every [quantize] call with an algorithm, the amax
    post-processing is invoked only after the toolkit's quantize call has
    returned, only when the resolved decoder type is "gptnext", and with
    the clamp minimum of the algorithm; a call that completes has invoked
    it, right after the quantize call, exactly when the resolved decoder
    type is "gptnext".  The clamp minimum is 0.01 * 448 for "fp8",
    0.01 * 127 for "int8_sq" and 0 otherwise, where the clamp changes no
    entry that is not below zero.  Where no collaborator raises, the
    quantizer has an export configuration and the table entry of the
    algorithm has the expected shape, the call completes. *)
Theorem amax_postprocess {L} env self model (fl : L) alg w o w' :
  algorithm (quantization_config self) = Some alg →
  quantize env self model fl w = (o, w') →
  ∃ t, trace w' = (trace w ++ t)%list
    ∧ each_after is_mtq_quantize_returned is_postprocess_amax t
    ∧ (∀ x, x ∈ t → is_postprocess_amax x = true →
         resolved_decoder_type self (mcore_config (module model)) = Some "gptnext"
         ∧ entry_call x = MtqPostprocessAmax "*input_quantizer" (amax_clamp_min alg))
    ∧ (is_ok o = true →
       ∃ dt recipe t1 t2,
         resolved_decoder_type self (mcore_config (module model)) = Some dt
         ∧ t = (t1 ++ [Returned (MtqQuantize recipe)]
                ++ (if decide (dt = "gptnext") then
                      [Returned (MtqPostprocessAmax "*input_quantizer"
                                   (amax_clamp_min alg))]
                    else [])
                ++ t2)%list
         ∧ Forall quiet t1 ∧ Forall quiet t2)
    ∧ (alg = "fp8" → amax_clamp_min alg = (0.01 * 448)%float)
    ∧ (alg = "int8_sq" → amax_clamp_min alg = (0.01 * 127)%float)
    ∧ (alg ≠ "fp8" → alg ≠ "int8_sq" →
       amax_clamp_min alg = 0%float
       ∧ ∀ amax, PrimFloat.ltb amax 0 = false →
                 torch_clamp_min (amax_clamp_min alg) amax = amax)
    ∧ ((∀ c, raises env c = None) →
       is_Some (export_config self) →
       (∃ tmpl, QUANT_CFG_CHOICES w !! alg = Some tmpl
                ∧ template_ok alg tmpl = true) →
       is_ok o = true).
Proof.
  intros Halg H.
  destruct (quantize_amax_all_runs env self model fl alg Halg _ _ _ H)
    as (t & Ht & Hord & Hp).
  exists t. split; [exact Ht|].
  split; [by apply each_afterb_each_after|]. split; [exact Hp|].
  split; [|split; [|split; [|split]]].
  - destruct o as [m'|]; [intros _|done].
    destruct (quantize_ok _ _ _ _ _ _ _ _ Halg H)
      as (dt & tmpl & r1 & r2 & recipe & t1 & t2
          & Hdt & _ & _ & _ & _ & _ & Htr & Hq1 & Hq2).
    exists dt, recipe, t1, t2. split; [exact Hdt|]. split; [|by split].
    rewrite Ht in Htr. by apply app_inv_head in Htr.
  - by intros ->.
  - by intros ->.
  - intros Hfp8 Hsq.
    assert (Hmin : amax_clamp_min alg = 0%float).
    { unfold amax_clamp_min, maxbound. by rewrite !decide_False. }
    split; [exact Hmin|]. intros amax Hlt.
    unfold torch_clamp_min. by rewrite Hmin, Hlt.
  - intros Henv [ec Hec] (tmpl & Htmpl & Hok).
    destruct (quantize_completes env self model fl ec alg w tmpl
                Henv Hec Halg Htmpl Hok) as (m' & w'' & Hq).
    rewrite Hq in H. by injection H as <- _.
Qed.

Lemma amax_postprocess_witness :
  let self := sample_quantizer default_QuantizationConfig in
  let model := sample_model [NemotronConfig] in
  let w := initial_World sample_mtq in
  let r := sample_quantize default_QuantizationConfig [NemotronConfig] in
  is_ok r.1 = true
  ∧ resolved_decoder_type self (mcore_config (module model)) = Some "gptnext"
  ∧ amax_clamp_min "fp8" = (0.01 * 448)%float
  ∧ ∃ t recipe t1 t2,
      trace r.2 = (trace w ++ t)%list
      ∧ t = (t1 ++ [Returned (MtqQuantize recipe);
                    Returned (MtqPostprocessAmax "*input_quantizer"
                                (amax_clamp_min "fp8"))]
             ++ t2)%list
      ∧ Forall quiet t1 ∧ Forall quiet t2
      ∧ each_after is_mtq_quantize_returned is_postprocess_amax t.
Proof.
  intros self model w r.
  assert (Hrun : quantize sample_env self model () w = (r.1, r.2))
    by (vm_compute; reflexivity).
  destruct (amax_postprocess sample_env self model () "fp8" w r.1 r.2
              eq_refl Hrun)
    as (t & Ht & Hord & _ & Hdone & Hfp8 & _ & _ & Hcompletes).
  assert (Hok : is_ok r.1 = true).
  { apply Hcompletes.
    - intros c. reflexivity.
    - by eexists.
    - exists (FP8_DEFAULT_CFG sample_mtq).
      split; vm_compute; reflexivity. }
  destruct (Hdone Hok) as (dt & recipe & t1 & t2 & Hdt & Hdecomp & Hq1 & Hq2).
  assert (dt = "gptnext") as ->
    by (vm_compute in Hdt; by injection Hdt as <-).
  split; [exact Hok|]. split; [exact Hdt|]. split; [by apply Hfp8|].
  exists t, recipe, t1, t2. split; [exact Ht|].
  split; [exact Hdecomp|]. by split.
Defined.

(** ** Export *)

Lemma each_followedb_each_followed p q t :
  each_followedb p q t = true → each_followed p q t.
Proof.
  induction t as [|a t IH]; intros H pre x post Ht Hp.
  - by destruct pre.
  - simpl in H. apply andb_true_iff in H as [Ha Ht'].
    destruct pre as [|b pre]; simpl in Ht; injection Ht as -> ->.
    + rewrite Hp in Ha. simpl in Ha. destruct post as [|y post']; [done|].
      by exists y, post'.
    + by apply (IH Ht' pre x post).
Qed.

(** One step of a run of [export]: the next answer of the environment. *)
Ltac export_step H env :=
  cbv beta iota zeta in H; cbn [andb negb] in H; cbv beta iota zeta in H;
  lazymatch type of H with
  | context [raises env GetUnwrappedMcoreModel] =>
      destruct (raises env GetUnwrappedMcoreModel) eqn:?
  | context [decoder_type ?ec] =>
      destruct (decoder_type ec) as [[|? ?]|] eqn:?
  | context [first_match ?c ?m] => destruct (first_match c m) eqn:?
  | context [raises env (ExportTensorrtLlmCheckpoint ?a ?b ?c ?d ?e ?f)] =>
      destruct (raises env (ExportTensorrtLlmCheckpoint a b c d e f)) eqn:?
  | context [raises env DistBarrier] => destruct (raises env DistBarrier) eqn:?
  | context [raises env DistGetRank] => destruct (raises env DistGetRank) eqn:?
  | context [get_rank env =? 0] => destruct (get_rank env =? 0) eqn:Hrank
  | context [effective_checkpoint_path ?s ?p] =>
      destruct (effective_checkpoint_path s p) as [ckpt|] eqn:Hpath
  | context [os_path_exists env (tokenizer_src_of ?c)] =>
      destruct (os_path_exists env (tokenizer_src_of c)) eqn:Hsrc
  | context [os_path_exists env (tokenizer_dst_of ?c)] =>
      destruct (os_path_exists env (tokenizer_dst_of c)) eqn:Hdst
  | context [raises env (ShutilCopytree ?a ?b)] =>
      destruct (raises env (ShutilCopytree a b)) eqn:?
  end.

(** The order of the calls in every [export] call, whatever fails. *)
Lemma export_safety env self model p w o w' :
  export env self model p w = (o, w') →
  ∃ t, trace w' = (trace w ++ t)%list
    ∧ each_after is_export_returned is_barrier t
    ∧ each_followed is_export_returned is_barrier t
    ∧ each_after is_barrier_returned is_tokenizer_step t
    ∧ (∀ x, x ∈ t → is_tokenizer_step x = true →
         get_rank env = 0 ∧ is_Some (effective_checkpoint_path self p))
    ∧ (∀ x, x ∈ t → is_copytree x = true →
         ∃ ec ckpt,
           export_config self = Some ec
           ∧ effective_checkpoint_path self p = Some ckpt
           ∧ os_path_exists env (tokenizer_src_of ckpt) = true
           ∧ os_path_exists env (tokenizer_dst_of (path ec)) = false
           ∧ entry_call x
             = ShutilCopytree (tokenizer_src_of ckpt) (tokenizer_dst_of (path ec)))
    ∧ (Returned DistGetRank ∈ t → get_rank env = 0 →
       ∀ ec ckpt,
         export_config self = Some ec →
         effective_checkpoint_path self p = Some ckpt →
         os_path_exists env (tokenizer_src_of ckpt) = false
         ∨ os_path_exists env (tokenizer_dst_of (path ec)) = true →
         is_ok o = true
         ∧ Forall (λ x, is_copytree x = false) t
         ∧ last t = Some copy_skipped_message).
Proof.
  intros H. unfold export in H.
  destruct (export_config self) as [ec|] eqn:Hec.
  2: { injection H as <- <-. exists []. rewrite app_nil_r.
       split; [done|]. split; [by apply each_afterb_each_after|].
       split; [by apply each_followedb_each_followed|].
       split; [by apply each_afterb_each_after|].
       split; [by intros x Hx%elem_of_nil|]. split; [by intros x Hx%elem_of_nil|].
       by intros Hx%elem_of_nil. }
  unfold get_unwrapped_mcore_model, _get_decoder_type, get_modelopt_decoder_type,
    logging_warning, logging_info, os_path_exists_call, call_total, call,
    mbind, M_bind, mret, M_ret in H.
  rewrite Hec in H. cbn [nemo_checkpoint_path with_nemo_checkpoint_path] in H.
  repeat export_step H env.
  all: injection H as <- <-; unfold log; cbn [trace]; rewrite <- ?app_assoc;
    (eexists; split; [reflexivity|]); cbn [app].
  all: split; [by apply each_afterb_each_after|].
  all: split; [by apply each_followedb_each_followed|].
  all: split; [by apply each_afterb_each_after|].
  all: split;
    [intros x Hx Hp;
     repeat (apply elem_of_cons in Hx as [->|Hx]; [try discriminate Hp|]);
     try (by apply elem_of_nil in Hx);
     (split; [by apply Z.eqb_eq | by eexists])|].
  all: split;
    [intros x Hx Hp;
     repeat (apply elem_of_cons in Hx as [->|Hx]; [try discriminate Hp|]);
     try (by apply elem_of_nil in Hx);
     by eexists _, _|].
  all: intros Hin Hr ec' ckpt' [= <-] Hck Hor.
  all: repeat (apply elem_of_cons in Hin as [Hin|Hin]; [discriminate Hin|]);
    try (by apply elem_of_nil in Hin).
  all: try discriminate Hck.
  all: try (apply Z.eqb_neq in Hrank; contradiction).
  all: injection Hck as <-.
  all: try (destruct Hor as [Hor|Hor]; congruence).
  all: split; [done | split; [by repeat constructor | done]].
Qed.

Lemma existsb_elem_of {A} (f : A → bool) (l : list A) :
  existsb f l = true → ∃ x, x ∈ l ∧ f x = true.
Proof.
  induction l as [|a l IH]; simpl; [done|].
  destruct (f a) eqn:Ha; simpl.
  - intros _. exists a. split; [apply list_elem_of_here | done].
  - intros H. destruct (IH H) as (x & Hx & Hf).
    exists x. split; [by apply list_elem_of_further | done].
Qed.

(** Where no collaborator raises, an [export] call with an export
    configuration goes all the way. *)
Lemma export_no_raise env self model p ec w o w' t :
  (∀ c, raises env c = None) →
  export_config self = Some ec →
  export env self model p w = (o, w') →
  trace w' = (trace w ++ t)%list →
  is_ok o = true
  ∧ (∃ x, x ∈ t ∧ is_export_returned x = true)
  ∧ Returned DistBarrier ∈ t
  ∧ Returned DistGetRank ∈ t
  ∧ (get_rank env = 0 →
     ∀ ckpt,
       effective_checkpoint_path self p = Some ckpt →
       (os_path_exists env (tokenizer_src_of ckpt) = false
        ∨ os_path_exists env (tokenizer_dst_of (path ec)) = true →
        last t = Some copy_skipped_message)
       ∧ (os_path_exists env (tokenizer_src_of ckpt) = true →
          os_path_exists env (tokenizer_dst_of (path ec)) = false →
          last t
          = Some (Returned (ShutilCopytree (tokenizer_src_of ckpt)
                              (tokenizer_dst_of (path ec)))))).
Proof.
  intros Hno Hec H Ht. unfold export in H.
  unfold get_unwrapped_mcore_model, _get_decoder_type, get_modelopt_decoder_type,
    logging_warning, logging_info, os_path_exists_call, call_total, call,
    mbind, M_bind, mret, M_ret in H.
  rewrite Hec in H. cbn [nemo_checkpoint_path with_nemo_checkpoint_path] in H.
  repeat export_step H env.
  all: repeat match goal with
         | E : raises _ _ = Some _ |- _ => rewrite Hno in E; discriminate E
         end.
  all: injection H as <- <-; unfold log in Ht; cbn [trace] in Ht;
    rewrite <- ?app_assoc in Ht; apply app_inv_head in Ht; subst t;
    cbn [app].
  all: split; [reflexivity|].
  all: split; [by apply existsb_elem_of|].
  all: split; [rewrite ?elem_of_cons; tauto|].
  all: split; [rewrite ?elem_of_cons; tauto|].
  all: intros Hr ckpt' Hck.
  all: try (apply Z.eqb_neq in Hrank; contradiction).
  all: try discriminate Hck.
  all: injection Hck as <-.
  all: split; [intros [Hor|Hor] | intros Hs Hd]; try congruence; reflexivity.
Qed.

(** C5.  In every [export] call, whatever fails: the barrier is invoked
    only after the export toolkit call has returned, and is the very next
    call after that return; every step of the tokenizer copy (the looks at
    the source and destination directories, the copy) comes after the
    barrier has returned, and only on rank 0 with a known checkpoint path;
    the copy itself is invoked only when the source directory exists and
    the destination does not.  When the rank query has returned 0, a
    checkpoint path is known and the source is absent or the destination
    exists, the call returns normally, has invoked no copy, and its last
    entry is the log message of the skipped copy.  Where no collaborator
    raises, a call with an export configuration returns normally, the
    export toolkit call has returned, the barrier and the rank query have
    been invoked, and on rank 0 with a known checkpoint path the last
    entry is the log message when the source is absent or the destination
    exists, and the copy when the source exists and the destination does
    not. *)
Theorem export_order env self model p w o w' :
  export env self model p w = (o, w') →
  ∃ t, trace w' = (trace w ++ t)%list
    ∧ each_after is_export_returned is_barrier t
    ∧ each_followed is_export_returned is_barrier t
    ∧ each_after is_barrier_returned is_tokenizer_step t
    ∧ (∀ x, x ∈ t → is_tokenizer_step x = true →
         get_rank env = 0 ∧ is_Some (effective_checkpoint_path self p))
    ∧ (∀ x, x ∈ t → is_copytree x = true →
         ∃ ec ckpt,
           export_config self = Some ec
           ∧ effective_checkpoint_path self p = Some ckpt
           ∧ os_path_exists env (tokenizer_src_of ckpt) = true
           ∧ os_path_exists env (tokenizer_dst_of (path ec)) = false
           ∧ entry_call x
             = ShutilCopytree (tokenizer_src_of ckpt) (tokenizer_dst_of (path ec)))
    ∧ (Returned DistGetRank ∈ t → get_rank env = 0 →
       ∀ ec ckpt,
         export_config self = Some ec →
         effective_checkpoint_path self p = Some ckpt →
         os_path_exists env (tokenizer_src_of ckpt) = false
         ∨ os_path_exists env (tokenizer_dst_of (path ec)) = true →
         is_ok o = true
         ∧ Forall (λ x, is_copytree x = false) t
         ∧ last t = Some copy_skipped_message)
    ∧ ((∀ c, raises env c = None) →
       ∀ ec, export_config self = Some ec →
         is_ok o = true
         ∧ (∃ x, x ∈ t ∧ is_export_returned x = true)
         ∧ Returned DistBarrier ∈ t
         ∧ Returned DistGetRank ∈ t
         ∧ (get_rank env = 0 →
            ∀ ckpt,
              effective_checkpoint_path self p = Some ckpt →
              (os_path_exists env (tokenizer_src_of ckpt) = false
               ∨ os_path_exists env (tokenizer_dst_of (path ec)) = true →
               last t = Some copy_skipped_message)
              ∧ (os_path_exists env (tokenizer_src_of ckpt) = true →
                 os_path_exists env (tokenizer_dst_of (path ec)) = false →
                 last t
                 = Some (Returned (ShutilCopytree (tokenizer_src_of ckpt)
                                     (tokenizer_dst_of (path ec))))))).
Proof.
  intros H.
  destruct (export_safety _ _ _ _ _ _ _ H)
    as (t & Ht & Hbar & Hnext & Htok & Hrank & Hcopy & Hskip).
  exists t. split; [exact Ht|]. split; [exact Hbar|]. split; [exact Hnext|].
  split; [exact Htok|]. split; [exact Hrank|]. split; [exact Hcopy|].
  split; [exact Hskip|].
  intros Hno ec Hec. by eapply export_no_raise.
Qed.

Lemma export_order_witness :
  let env := sample_env in
  let self := sample_quantizer default_QuantizationConfig in
  let p := Some "elsewhere" in
  let w := initial_World sample_mtq in
  let r := export env self (sample_model [LlamaConfig]) p w in
  is_ok r.1 = true
  ∧ ∃ t, trace r.2 = (trace w ++ t)%list
      ∧ (∃ x, x ∈ t ∧ is_export_returned x = true)
      ∧ Returned DistBarrier ∈ t
      ∧ Returned DistGetRank ∈ t
      ∧ last t = Some copy_skipped_message
      ∧ Forall (λ x, is_copytree x = false) t
      ∧ each_after is_export_returned is_barrier t
      ∧ each_followed is_export_returned is_barrier t
      ∧ each_after is_barrier_returned is_tokenizer_step t.
Proof.
  intros env self p w r.
  assert (Hrun : export env self (sample_model [LlamaConfig]) p w = (r.1, r.2))
    by (vm_compute; reflexivity).
  destruct (export_order env self (sample_model [LlamaConfig]) p w r.1 r.2 Hrun)
    as (t & Ht & Hbar & Hnext & Htok & _ & _ & Hskip & Hpos).
  destruct (Hpos (λ c, eq_refl) (default_ExportConfig "out") eq_refl)
    as (Hok & Hexp & Hb & Hrk & Hlast).
  destruct (Hlast eq_refl "elsewhere" eq_refl) as [Hmsg _].
  destruct (Hskip Hrk eq_refl (default_ExportConfig "out") "elsewhere"
              eq_refl eq_refl (or_introl eq_refl)) as (_ & Hnocopy & _).
  split; [exact Hok|]. exists t.
  split; [exact Ht|]. split; [exact Hexp|]. split; [exact Hb|].
  split; [exact Hrk|]. split; [by apply Hmsg; left|].
  split; [exact Hnocopy|]. split; [exact Hbar|]. by split.
Defined.

(** * Further properties of the quantizer *)

(** ** The calls of a completed [quantize] call *)

Lemma _get_decoder_type_ok_calls self config d w w' :
  _get_decoder_type self config w = (Ok d, w') →
  QUANT_CFG_CHOICES w' = QUANT_CFG_CHOICES w
  ∧ trace w' = (trace w ++ resolver_warnings self config)%list.
Proof.
  unfold _get_decoder_type, resolver_warnings.
  destruct (export_config self) as [ec|]; [|done].
  destruct (decoder_type ec) as [[|a s]|];
    rewrite ?get_modelopt_decoder_type_run;
    try destruct (first_match config mapping);
    intros [= <- <-]; simpl; by rewrite ?app_nil_r.
Qed.

(** A [quantize] call that returned: the model it returns and the calls it
    made. *)
Lemma quantize_ok_calls {L} env self model (fl : L) alg w m' w' :
  algorithm (quantization_config self) = Some alg →
  quantize env self model fl w = (Ok m', w') →
  ∃ dt recipe,
    resolved_decoder_type self (mcore_config (module model)) = Some dt
    ∧ QUANT_CFG_CHOICES w' !! alg = Some recipe
    ∧ m' = {| config :=
                {| config_classes := config_classes (config model);
                   vocab_size := Some (tokenizer_vocab_size model);
                   pipeline_dtype := Some (torch_dtype self);
                   pipeline_model_parallel_size :=
                     pipeline_model_parallel_size (config model) |};
              tokenizer_vocab_size := tokenizer_vocab_size model;
              num_nodes := num_nodes model;
              module := module model |}
    ∧ trace w' = (trace w ++ quantize_calls env self model alg dt recipe)%list.
Proof.
  intros Halg H. destruct w as [T tr].
  unfold quantize in H. rewrite Halg in H.
  apply bind_ok in H as ([] & w1 & H1 & H).
  apply call_total_ok in H1 as [_ ->].
  apply bind_ok in H as (model1 & w2 & H2 & H).
  unfold _setup in H2.
  apply bind_ok in H2 as ([] & w2' & H2a & H2).
  apply (call_ok env) in H2a as (_ & -> & _).
  apply mret_ok in H2 as [-> ->].
  apply bind_ok in H as (um & w3 & H3 & H).
  apply (call_ok env) in H3 as (-> & -> & _). simpl in H.
  apply bind_ok in H as (dt & [T4 tr4] & H4 & H).
  pose proof (_get_decoder_type_ok _ _ _ _ _ H4) as (Hdt & _).
  apply _get_decoder_type_ok_calls in H4 as (Hc4 & Ht4).
  simpl in Hc4, Ht4. subst T4 tr4.
  apply bind_ok in H as (quant_cfg & w5 & H5 & H).
  apply choices_getitem_ok in H5 as (-> & -> & [tmpl Htmpl]).
  simpl in Htmpl.
  apply bind_ok in H as ([] & [T6 tr6] & H6 & H).
  match type of H6 with
  | context [{| QUANT_CFG_CHOICES := T; trace := ?t |}] =>
      remember t as tr4 eqn:Htr4
  end.
  assert (Hawq : ∃ r1,
    (if str_contains "awq" alg then
       ∃ wq, weight_quantizer_of tmpl = Ok wq
             ∧ py_set_path tmpl (block_sizes_path wq) (KInt (-1))
                 (VInt (awq_block_size (quantization_config self))) = Ok r1
     else r1 = tmpl)
    ∧ T6 = <[alg := r1]> T ∧ tr6 = tr4).
  { destruct (str_contains "awq" alg).
    - apply bind_ok in H6 as (qc & w61 & Ha1 & H6).
      apply ref_getitem_ok in Ha1 as (-> & -> & _). simpl in H6.
      apply bind_ok in H6 as (wqr & w62 & Ha2 & H6).
      apply ref_getitem_ok in Ha2 as (-> & -> & _). simpl in H6.
      apply bind_ok in H6 as (b & w63 & Ha3 & H6).
      apply ref_is_list_ok in Ha3 as (-> & root & wq & Hroot & Hwq & ->).
      simpl in Hroot, Hwq. rewrite Htmpl in Hroot. injection Hroot as <-.
      apply bind_ok in H6 as (wqr' & w64 & Ha4 & H6).
      assert (wqr' = (alg, ([KStr "quant_cfg"; KStr "*weight_quantizer"]
                            ++ (if is_list wq then [KInt 0] else []))%list)
              ∧ w64 = {| QUANT_CFG_CHOICES := T; trace := tr4 |}) as [-> ->].
      { destruct (is_list wq).
        - by apply ref_getitem_ok in Ha4 as (-> & -> & _).
        - by apply mret_ok in Ha4 as (-> & ->). }
      apply bind_ok in H6 as (bs & w65 & Ha5 & H6).
      apply ref_getitem_ok in Ha5 as (-> & -> & _). simpl in H6.
      apply ref_setitem_ok in H6 as (root & r1 & Hroot & Hset & Hw).
      simpl in Hroot, Hw. cbn [fst snd] in Hset.
      rewrite Htmpl in Hroot. injection Hroot as <-.
      injection Hw as -> ->. exists r1. split; [|done].
      exists wq. split; [done|]. unfold block_sizes_path.
      exact Hset.
    - apply mret_ok in H6 as [_ [= -> ->]]. exists tmpl.
      split; [done|]. by rewrite insert_id. }
  destruct Hawq as (r1 & Hr1 & -> & ->). clear H6.
  apply bind_ok in H as ([] & w7 & H7 & H).
  apply call_total_ok in H7 as [_ ->].
  apply bind_ok in H as (qc & w8 & H8 & H).
  apply ref_getitem_ok in H8 as (-> & -> & _). simpl in H.
  apply bind_ok in H as ([] & w9 & H9 & H).
  apply ref_setitem_ok in H9 as (root & r2 & Hroot & Hr2 & ->).
  simpl in Hroot. cbn [fst snd app] in Hr2.
  rewrite lookup_insert_eq in Hroot. injection Hroot as <-.
  simpl in H. rewrite insert_insert_eq in H.
  fold (kv_cache_auto alg dt) in Hr2, H.
  fold (kv_cache_flag (quantization_config self) alg dt) in Hr2, H.
  apply bind_ok in H as ([] & [T10 tr10] & H10 & H).
  unfold set_choices, log in H10. cbn [QUANT_CFG_CHOICES trace] in H10.
  match type of H10 with
  | _ {| QUANT_CFG_CHOICES := _; trace := ?t |} = _ =>
      remember t as tr9 eqn:Htr9
  end.
  assert (Hsq : ∃ recipe tsq,
    (if decide (alg = "int8_sq") then
       py_set_path r2 [] (KStr "algorithm")
         (smoothquant_entry (sq_alpha (quantization_config self))) = Ok recipe
     else recipe = r2)
    ∧ T10 = <[alg := recipe]> T ∧ tr10 = (tr9 ++ tsq)%list
    ∧ tsq = if decide (alg = "int8_sq") then
              [Returned (LoggingInfo
                 [VStr "Using int8_sq alpha = ";
                  VFloat (sq_alpha (quantization_config self))])]
            else []).
  { destruct (decide (alg = "int8_sq")).
    - apply bind_ok in H10 as ([] & w101 & Hs1 & H10).
      apply call_total_ok in Hs1 as [_ ->].
      apply ref_setitem_ok in H10 as (root & recipe & Hroot & Hset & Hw).
      simpl in Hroot, Hw. cbn [fst snd] in Hset.
      rewrite lookup_insert_eq in Hroot. injection Hroot as <-.
      rewrite insert_insert_eq in Hw. injection Hw as -> ->.
      exists recipe. eexists. split; [done|]. split; [done|]. by split.
    - apply mret_ok in H10 as [_ [= -> ->]]. exists r2, [].
      split; [done|]. split; [done|]. by rewrite app_nil_r. }
  destruct Hsq as (recipe & tsq & Hrecipe & -> & -> & Htsq). clear H10.
  apply bind_ok in H as (recipe' & w11 & H11 & H).
  apply load_ok in H11 as (-> & root & Hroot & Hload).
  simpl in Hroot, Hload. rewrite lookup_insert_eq in Hroot.
  injection Hroot as <-. injection Hload as <-.
  apply bind_ok in H as (um & w12 & H12 & H).
  apply (call_ok env) in H12 as (-> & -> & _).
  apply bind_ok in H as (um & [T13 tr13] & H13 & H).
  unfold log in H13. cbn [QUANT_CFG_CHOICES trace] in H13.
  match type of H13 with
  | _ {| QUANT_CFG_CHOICES := _; trace := ?t |} = _ =>
      remember t as tr12 eqn:Htr12
  end.
  assert (Hpost : T13 = <[alg := recipe]> T ∧ tr13 =
    (tr12 ++ (if decide (dt = "gptnext") then
               [Returned (MtqPostprocessAmax "*input_quantizer"
                            (amax_clamp_min alg))]
             else []))%list).
  { destruct (decide (dt = "gptnext")).
    - by apply (call_ok env) in H13 as (_ & [= -> ->] & _).
    - apply mret_ok in H13 as [_ [= -> ->]]. by rewrite app_nil_r. }
  destruct Hpost as [-> ->]. clear H13.
  apply bind_ok in H as (rank & w14 & H14 & H).
  apply (call_ok env) in H14 as (-> & -> & _).
  apply bind_ok in H as ([] & [T15 tr15] & H15 & H).
  apply mret_ok in H as [-> ->].
  unfold log in H15. cbn [QUANT_CFG_CHOICES trace] in H15.
  assert (Hsum : T15 = <[alg := recipe]> T ∧ ∃ t2,
    t2 = ([Returned DistGetRank]
          ++ if get_rank env =? 0 then [Returned MtqPrintQuantSummary] else [])%list
    ∧ tr15 =
    ((tr12 ++ (if decide (dt = "gptnext") then
               [Returned (MtqPostprocessAmax "*input_quantizer"
                            (amax_clamp_min alg))]
             else [])) ++ t2)%list).
  { destruct (get_rank env =? 0).
    - apply (call_ok env) in H15 as (_ & [= -> ->] & _). split; [done|].
      exists [Returned DistGetRank; Returned MtqPrintQuantSummary].
      split; [done|]. by rewrite <- app_assoc.
    - apply mret_ok in H15 as [_ [= -> ->]]. split; [done|].
      exists [Returned DistGetRank]. by split. }
  destruct Hsum as (-> & t2 & Hq2 & ->). clear H15.
  exists dt, recipe. split; [exact Hdt|].
  split; [apply lookup_insert_eq|]. split; [reflexivity|].
  cbn [trace]. subst tr12 tr9 tr4 tsq t2. unfold log, quantize_calls. cbn [trace].
  rewrite <- !app_assoc. reflexivity.
Qed.

(** ** [quantize] without an algorithm, and with an unknown one *)

(** X1.  With algorithm [None], [quantize] returns the model it was given,
    whatever the environment, the table and the export configuration: the
    only thing it does is log one message; the model is not set up or
    frozen, the table is not read, no toolkit call is made. *)
Theorem quantize_none_passthrough {L} env self model (fl : L) w :
  algorithm (quantization_config self) = None →
  ∃ w',
    quantize env self model fl w = (Ok model, w')
    ∧ QUANT_CFG_CHOICES w' = QUANT_CFG_CHOICES w
    ∧ trace w' =
      (trace w
       ++ [Returned
             (LoggingInfo
                [VStr "Quantization algorithm set to None, returning the non-quantized model"])])%list.
Proof.
  intros Halg. unfold quantize. rewrite Halg.
  eexists. split; [reflexivity|]. by split.
Qed.

Lemma quantize_none_passthrough_witness :
  let self := sample_quantizer (with_algorithm default_QuantizationConfig None) in
  let model := sample_model [NemotronConfig] in
  let w := initial_World sample_mtq in
  ∃ w',
    quantize sample_env self model () w = (Ok model, w')
    ∧ QUANT_CFG_CHOICES w' = QUANT_CFG_CHOICES w
    ∧ trace w' =
      (trace w
       ++ [Returned
             (LoggingInfo
                [VStr "Quantization algorithm set to None, returning the non-quantized model"])])%list.
Proof.
  intros self model w.
  apply (quantize_none_passthrough sample_env self model () w).
  reflexivity.
Defined.

Lemma bind_raise {A B} (m : M A) (f : A → M B) w e w1 :
  m w = (Raise e, w1) → (m ≫= f) w = (Raise e, w1).
Proof. unfold mbind, M_bind. by intros ->. Qed.

(** X2.  With an algorithm that is not a key of the table (a configuration
    changed after construction, or assertions switched off), [quantize]
    raises [KeyError] for that algorithm.  When the set-up calls return,
    the error comes after the model has been set up and frozen; no toolkit
    call has been made and the table is as before. *)
Theorem quantize_unknown_algorithm {L} env self model (fl : L) ec alg w :
  algorithm (quantization_config self) = Some alg →
  QUANT_CFG_CHOICES w !! alg = None →
  export_config self = Some ec →
  raises env ModelFreeze = None →
  raises env GetUnwrappedMcoreModel = None →
  ∃ w',
    quantize env self model fl w = (Raise (KeyError (KStr alg)), w')
    ∧ QUANT_CFG_CHOICES w' = QUANT_CFG_CHOICES w
    ∧ trace w' =
      (trace w
       ++ [Returned (LoggingInfo
                       [VStr "Quantizing model to "; VStr alg; VStr "..."]);
           Returned ModelFreeze;
           Returned GetUnwrappedMcoreModel]
       ++ resolver_warnings self (mcore_config (module model)))%list.
Proof.
  intros Halg Hkey Hec Hfreeze Hunwrap. destruct w as [T tr]. simpl in Hkey.
  unfold quantize. rewrite Halg.
  erewrite bind_run; [|reflexivity].
  erewrite bind_run;
    [|unfold _setup; erewrite bind_run;
      [reflexivity | unfold call; by rewrite Hfreeze]].
  erewrite bind_run;
    [|unfold get_unwrapped_mcore_model, call; by rewrite Hunwrap].
  simpl module.
  assert (Hres : ∃ dt, resolved_decoder_type self (mcore_config (module model))
                       = Some dt).
  { unfold resolved_decoder_type. rewrite Hec.
    destruct (decoder_type ec) as [[|? ?]|]; by eexists. }
  destruct Hres as [dt Hdt].
  match goal with
  | |- context [_get_decoder_type self ?c ≫= _] =>
      match goal with
      | |- context [(_ ≫= _) ?w0] =>
          destruct (_get_decoder_type_run self c ec dt w0 Hec Hdt) as [tw Hrun];
          pose proof (_get_decoder_type_ok_calls _ _ _ _ _ Hrun) as [_ Htw]
      end
  end.
  erewrite bind_run; [|exact Hrun].
  erewrite bind_raise.
  2: { unfold choices_getitem, log. cbn [QUANT_CFG_CHOICES]. by rewrite Hkey. }
  eexists. split; [reflexivity|]. split; [reflexivity|].
  cbn [trace] in Htw |- *. apply app_inv_head in Htw. subst tw.
  unfold log. cbn [trace]. by rewrite <- !app_assoc.
Qed.

Lemma quantize_unknown_algorithm_witness :
  let self := sample_quantizer (with_algorithm default_QuantizationConfig
                                  (Some "int2")) in
  let model := sample_model [LlamaConfig] in
  let w := initial_World sample_mtq in
  ∃ w',
    quantize sample_env self model () w = (Raise (KeyError (KStr "int2")), w')
    ∧ QUANT_CFG_CHOICES w' = QUANT_CFG_CHOICES w
    ∧ trace w' =
      (trace w
       ++ [Returned (LoggingInfo
                       [VStr "Quantizing model to "; VStr "int2"; VStr "..."]);
           Returned ModelFreeze;
           Returned GetUnwrappedMcoreModel]
       ++ resolver_warnings self (mcore_config (module model)))%list.
Proof.
  intros self model w.
  apply (quantize_unknown_algorithm sample_env self model ()
           (default_ExportConfig "out") "int2" w); reflexivity.
Defined.

(** ** What a completed [quantize] call writes, and what it leaves *)

Lemma awq_keeps_other_quantizers tmpl wq n r1 k :
  py_set_path tmpl (block_sizes_path wq) (KInt (-1)) (VInt n) = Ok r1 →
  k ≠ KStr "*weight_quantizer" →
  py_get_path r1 [KStr "quant_cfg"; k] = py_get_path tmpl [KStr "quant_cfg"; k].
Proof.
  unfold block_sizes_path. cbn [app]. intros H Hk.
  apply py_set_path_cons_inv in H as (c & c' & Hc & Hc' & Hr1).
  cbn [py_get_path]. rewrite (py_getitem_setitem_eq _ _ _ _ Hr1), Hc.
  by rewrite (py_set_path_other_key _ _ _ _ _ _ k Hc' Hk).
Qed.

Lemma output_quantizer_keeps_other_quantizers r1 x r2 k :
  py_set_path r1 [KStr "quant_cfg"] (KStr "*output_quantizer") x = Ok r2 →
  k ≠ KStr "*output_quantizer" →
  py_get_path r2 [KStr "quant_cfg"; k] = py_get_path r1 [KStr "quant_cfg"; k].
Proof.
  intros H Hk.
  apply py_set_path_cons_inv in H as (c & c' & Hc & Hc' & Hr2).
  cbn [py_get_path py_set_path] in *.
  rewrite (py_getitem_setitem_eq _ _ _ _ Hr2), Hc.
  by rewrite (py_getitem_setitem_str_ne _ _ _ _ k Hc' Hk).
Qed.

(** The three assignments of [quantize], from the template to the recipe. *)
Lemma recipe_top_level_frame alg n x y tmpl r1 r2 recipe j :
  (if str_contains "awq" alg then
     ∃ wq, weight_quantizer_of tmpl = Ok wq
           ∧ py_set_path tmpl (block_sizes_path wq) (KInt (-1)) (VInt n) = Ok r1
   else r1 = tmpl) →
  py_set_path r1 [KStr "quant_cfg"] (KStr "*output_quantizer") x = Ok r2 →
  (if decide (alg = "int8_sq") then
     py_set_path r2 [] (KStr "algorithm") y = Ok recipe
   else recipe = r2) →
  j ≠ KStr "quant_cfg" →
  (alg = "int8_sq" → j ≠ KStr "algorithm") →
  py_getitem recipe j = py_getitem tmpl j.
Proof.
  intros Hr1 Hr2 Hrec Hj Halgo.
  assert (py_getitem r1 j = py_getitem tmpl j) as <-.
  { destruct (str_contains "awq" alg); [|by subst].
    destruct Hr1 as (wq & _ & Hset). unfold block_sizes_path in Hset.
    cbn [app] in Hset. by eapply py_set_path_other_key. }
  assert (py_getitem r2 j = py_getitem r1 j) as <-
    by (by eapply py_set_path_other_key).
  destruct (decide (alg = "int8_sq")) as [Heq|]; [|by subst].
  cbn [py_set_path] in Hrec. eapply py_getitem_setitem_str_ne; [done|].
  by apply Halgo.
Qed.

Lemma recipe_quantizers_frame alg n x y tmpl r1 r2 recipe k :
  (if str_contains "awq" alg then
     ∃ wq, weight_quantizer_of tmpl = Ok wq
           ∧ py_set_path tmpl (block_sizes_path wq) (KInt (-1)) (VInt n) = Ok r1
   else r1 = tmpl) →
  py_set_path r1 [KStr "quant_cfg"] (KStr "*output_quantizer") x = Ok r2 →
  (if decide (alg = "int8_sq") then
     py_set_path r2 [] (KStr "algorithm") y = Ok recipe
   else recipe = r2) →
  k ≠ KStr "*output_quantizer" →
  (str_contains "awq" alg = true → k ≠ KStr "*weight_quantizer") →
  py_get_path recipe [KStr "quant_cfg"; k] = py_get_path tmpl [KStr "quant_cfg"; k].
Proof.
  intros Hr1 Hr2 Hrec Hk Hawq.
  assert (py_get_path r1 [KStr "quant_cfg"; k]
          = py_get_path tmpl [KStr "quant_cfg"; k]) as <-.
  { destruct (str_contains "awq" alg); [|by subst].
    destruct Hr1 as (wq & _ & Hset).
    eapply awq_keeps_other_quantizers; [done | by apply Hawq]. }
  rewrite <- (output_quantizer_keeps_other_quantizers _ _ _ k Hr2 Hk).
  cbn [py_get_path]. by rewrite (smoothquant_keeps_quant_cfg _ _ _ _ Hrec).
Qed.

(** X3.  In the recipe of a completed [quantize] call the output quantizer
    has bit-width 8 for "int8_sq" and the pair (4, 3) for every other
    algorithm, and no axis; for "int8_sq" the recipe's algorithm entry is
    the smoothquant method with the configured alpha, and for every other
    algorithm it is the template's. *)
Theorem recipe_bits_and_method {L} env self model (fl : L) alg w m' w' :
  algorithm (quantization_config self) = Some alg →
  quantize env self model fl w = (Ok m', w') →
  ∃ tmpl recipe,
    QUANT_CFG_CHOICES w !! alg = Some tmpl
    ∧ QUANT_CFG_CHOICES w' !! alg = Some recipe
    ∧ py_get_path recipe
        [KStr "quant_cfg"; KStr "*output_quantizer"; KStr "num_bits"]
      = Ok (if decide (alg = "int8_sq") then VInt 8
            else VTuple [VInt 4; VInt 3])
    ∧ py_get_path recipe
        [KStr "quant_cfg"; KStr "*output_quantizer"; KStr "axis"]
      = Ok VNone
    ∧ (alg = "int8_sq" →
       py_getitem recipe (KStr "algorithm")
       = Ok (VDict [ (KStr "method", VStr "smoothquant");
                     (KStr "alpha",
                      VFloat (sq_alpha (quantization_config self))) ]))
    ∧ (alg ≠ "int8_sq" →
       py_getitem recipe (KStr "algorithm") = py_getitem tmpl (KStr "algorithm")).
Proof.
  intros Halg H.
  destruct (quantize_ok _ _ _ _ _ _ _ _ Halg H)
    as (dt & tmpl & r1 & r2 & recipe & t1 & t2
        & _ & Htmpl & Hr1 & Hr2 & Hrec & HT & _).
  destruct (quantize_recipe _ _ _ _ _ _ _ _ Halg H)
    as (dt' & tmpl' & r1' & recipe' & _ & _ & _ & HT' & _ & Hout & _).
  assert (recipe' = recipe) as ->.
  { apply (f_equal (λ T, T !! alg)) in HT. rewrite HT' in HT.
    rewrite !lookup_insert_eq in HT. by injection HT. }
  exists tmpl, recipe. split; [exact Htmpl|].
  split; [by rewrite HT, lookup_insert_eq|].
  split; [|split; [|split]].
  - change [KStr "quant_cfg"; KStr "*output_quantizer"; KStr "num_bits"]
      with ([KStr "quant_cfg"; KStr "*output_quantizer"] ++ [KStr "num_bits"])%list.
    rewrite py_get_path_app, Hout. reflexivity.
  - change [KStr "quant_cfg"; KStr "*output_quantizer"; KStr "axis"]
      with ([KStr "quant_cfg"; KStr "*output_quantizer"] ++ [KStr "axis"])%list.
    rewrite py_get_path_app, Hout. reflexivity.
  - intros Hsq. rewrite decide_True in Hrec by done.
    cbn [py_set_path] in Hrec. by apply py_getitem_setitem_eq in Hrec.
  - intros Hsq.
    eapply recipe_top_level_frame; [exact Hr1 | exact Hr2 | exact Hrec | done |].
    by intros ?.
Qed.

Lemma recipe_bits_and_method_witness :
  let qc := with_algorithm default_QuantizationConfig (Some "int8_sq") in
  let w := initial_World sample_mtq in
  let r := sample_quantize qc [LlamaConfig] in
  ∃ tmpl recipe,
    QUANT_CFG_CHOICES w !! "int8_sq" = Some tmpl
    ∧ QUANT_CFG_CHOICES r.2 !! "int8_sq" = Some recipe
    ∧ py_get_path recipe
        [KStr "quant_cfg"; KStr "*output_quantizer"; KStr "num_bits"]
      = Ok (if decide ("int8_sq" = "int8_sq") then VInt 8
            else VTuple [VInt 4; VInt 3])
    ∧ py_get_path recipe
        [KStr "quant_cfg"; KStr "*output_quantizer"; KStr "axis"]
      = Ok VNone
    ∧ ("int8_sq" = "int8_sq" →
       py_getitem recipe (KStr "algorithm")
       = Ok (VDict [ (KStr "method", VStr "smoothquant");
                     (KStr "alpha",
                      VFloat (sq_alpha (quantization_config
                                          (sample_quantizer qc)))) ]))
    ∧ ("int8_sq" ≠ "int8_sq" →
       py_getitem recipe (KStr "algorithm") = py_getitem tmpl (KStr "algorithm")).
Proof.
  intros qc w r.
  apply (recipe_bits_and_method sample_env (sample_quantizer qc)
           (sample_model [LlamaConfig]) () "int8_sq" w
           (returned_or (sample_model []) r.1) r.2).
  - reflexivity.
  - vm_compute. reflexivity.
Defined.

(** X4.  A completed [quantize] call changes nothing else in the recipe:
    every top-level item of the template other than "quant_cfg" (and
    "algorithm" for "int8_sq") and every quantizer entry under "quant_cfg"
    other than the output quantizer (and the weight quantizer for an "awq"
    algorithm) is in the recipe as it was in the template; in particular
    the input quantizer is never touched. *)
Theorem recipe_frame {L} env self model (fl : L) alg w m' w' :
  algorithm (quantization_config self) = Some alg →
  quantize env self model fl w = (Ok m', w') →
  ∃ tmpl recipe,
    QUANT_CFG_CHOICES w !! alg = Some tmpl
    ∧ QUANT_CFG_CHOICES w' !! alg = Some recipe
    ∧ (∀ j, j ≠ KStr "quant_cfg" →
            (alg = "int8_sq" → j ≠ KStr "algorithm") →
            py_getitem recipe j = py_getitem tmpl j)
    ∧ (∀ k, k ≠ KStr "*output_quantizer" →
            (str_contains "awq" alg = true → k ≠ KStr "*weight_quantizer") →
            py_get_path recipe [KStr "quant_cfg"; k]
            = py_get_path tmpl [KStr "quant_cfg"; k])
    ∧ py_get_path recipe [KStr "quant_cfg"; KStr "*input_quantizer"]
      = py_get_path tmpl [KStr "quant_cfg"; KStr "*input_quantizer"].
Proof.
  intros Halg H.
  destruct (quantize_ok _ _ _ _ _ _ _ _ Halg H)
    as (dt & tmpl & r1 & r2 & recipe & t1 & t2
        & _ & Htmpl & Hr1 & Hr2 & Hrec & HT & _).
  exists tmpl, recipe. split; [exact Htmpl|].
  split; [by rewrite HT, lookup_insert_eq|].
  split; [|split].
  - intros j Hj Halgo. by eapply recipe_top_level_frame.
  - intros k Hk Hawq. by eapply recipe_quantizers_frame.
  - by eapply recipe_quantizers_frame.
Qed.

Lemma recipe_frame_witness :
  let qc := awq_64 "w4a8_awq" in
  let w := initial_World sample_mtq in
  let r := sample_quantize qc [LlamaConfig] in
  ∃ tmpl recipe,
    QUANT_CFG_CHOICES w !! "w4a8_awq" = Some tmpl
    ∧ QUANT_CFG_CHOICES r.2 !! "w4a8_awq" = Some recipe
    ∧ (∀ j, j ≠ KStr "quant_cfg" →
            ("w4a8_awq" = "int8_sq" → j ≠ KStr "algorithm") →
            py_getitem recipe j = py_getitem tmpl j)
    ∧ (∀ k, k ≠ KStr "*output_quantizer" →
            (str_contains "awq" "w4a8_awq" = true → k ≠ KStr "*weight_quantizer") →
            py_get_path recipe [KStr "quant_cfg"; k]
            = py_get_path tmpl [KStr "quant_cfg"; k])
    ∧ py_get_path recipe [KStr "quant_cfg"; KStr "*input_quantizer"]
      = py_get_path tmpl [KStr "quant_cfg"; KStr "*input_quantizer"].
Proof.
  intros qc w r.
  apply (recipe_frame sample_env (sample_quantizer qc)
           (sample_model [LlamaConfig]) () "w4a8_awq" w
           (returned_or (sample_model []) r.1) r.2).
  - reflexivity.
  - vm_compute. reflexivity.
Defined.

(** ** The model and the calls of a completed [quantize] call *)

(** X5.  A completed [quantize] call with an algorithm returns the model
    with the tokenizer's vocabulary size and the quantizer's torch dtype
    on its configuration; the classes of the configuration, its
    pipeline-parallel size, the tokenizer and the topology are as
    given. *)
Theorem quantize_returns_set_up_model {L} env self model (fl : L) alg w m' w' :
  algorithm (quantization_config self) = Some alg →
  quantize env self model fl w = (Ok m', w') →
  vocab_size (config m') = Some (tokenizer_vocab_size model)
  ∧ pipeline_dtype (config m') = Some (torch_dtype self)
  ∧ config_classes (config m') = config_classes (config model)
  ∧ pipeline_model_parallel_size (config m')
    = pipeline_model_parallel_size (config model)
  ∧ tokenizer_vocab_size m' = tokenizer_vocab_size model
  ∧ num_nodes m' = num_nodes model.
Proof.
  intros Halg H.
  destruct (quantize_ok_calls _ _ _ _ _ _ _ _ Halg H)
    as (dt & recipe & _ & _ & -> & _).
  by repeat split.
Qed.

Lemma quantize_returns_set_up_model_witness :
  let self := sample_quantizer default_QuantizationConfig in
  let model := sample_model [LlamaConfig] in
  let r := sample_quantize default_QuantizationConfig [LlamaConfig] in
  let m' := returned_or (sample_model []) r.1 in
  vocab_size (config m') = Some (tokenizer_vocab_size model)
  ∧ pipeline_dtype (config m') = Some (torch_dtype self)
  ∧ config_classes (config m') = config_classes (config model)
  ∧ pipeline_model_parallel_size (config m')
    = pipeline_model_parallel_size (config model)
  ∧ tokenizer_vocab_size m' = tokenizer_vocab_size model
  ∧ num_nodes m' = num_nodes model.
Proof.
  intros self model r m'.
  apply (quantize_returns_set_up_model sample_env self model () "fp8"
           (initial_World sample_mtq) m' r.2).
  - reflexivity.
  - vm_compute. reflexivity.
Defined.

(** X6.  A completed [quantize] call with an algorithm has made exactly
    these calls, in this order: the log message, the freeze of the model,
    the unwrapping, the resolver's warning if it had to fall back, the log
    of the KV-cache choice, for "int8_sq" the log of alpha, the toolkit's
    quantize with the recipe that is now in the table, for decoder type
    "gptnext" the amax post-processing, the rank query, and on rank 0 the
    summary.  So the model is frozen before it is quantized, and the
    summary is printed on rank 0 only. *)
Theorem quantize_call_sequence {L} env self model (fl : L) alg w m' w' :
  algorithm (quantization_config self) = Some alg →
  quantize env self model fl w = (Ok m', w') →
  ∃ dt recipe,
    resolved_decoder_type self (mcore_config (module model)) = Some dt
    ∧ QUANT_CFG_CHOICES w' !! alg = Some recipe
    ∧ trace w' = (trace w ++ quantize_calls env self model alg dt recipe)%list
    ∧ (Returned MtqPrintQuantSummary ∈ quantize_calls env self model alg dt recipe
       ↔ get_rank env = 0).
Proof.
  intros Halg H.
  destruct (quantize_ok_calls _ _ _ _ _ _ _ _ Halg H)
    as (dt & recipe & Hdt & Hrec & _ & Htr).
  exists dt, recipe. do 3 (split; [assumption|]).
  unfold quantize_calls, resolver_warnings.
  destruct (Z.eqb_spec (get_rank env) 0) as [Hr|Hr].
  - split; [done|]. intros _. set_solver.
  - split; [|done]. intros Hin.
    repeat (apply elem_of_app in Hin as [Hin|Hin]);
      repeat case_match;
      repeat (apply elem_of_cons in Hin as [Hin|Hin]; [discriminate Hin|]);
      by apply elem_of_nil in Hin.
Qed.

Lemma quantize_call_sequence_witness :
  let self := sample_quantizer default_QuantizationConfig in
  let model := sample_model [NemotronConfig] in
  let w := initial_World sample_mtq in
  let r := sample_quantize default_QuantizationConfig [NemotronConfig] in
  ∃ dt recipe,
    resolved_decoder_type self (mcore_config (module model)) = Some dt
    ∧ QUANT_CFG_CHOICES r.2 !! "fp8" = Some recipe
    ∧ trace r.2 = (trace w ++ quantize_calls sample_env self model "fp8" dt recipe)%list
    ∧ (Returned MtqPrintQuantSummary
         ∈ quantize_calls sample_env self model "fp8" dt recipe
       ↔ get_rank sample_env = 0).
Proof.
  intros self model w r.
  apply (quantize_call_sequence sample_env self model () "fp8" w
           (returned_or (sample_model []) r.1) r.2).
  - reflexivity.
  - vm_compute. reflexivity.
Defined.

(** ** [export]: what is left alone, what is passed on, what is kept *)

(** X7.  No [export] call, whatever its outcome, changes the table of
    recipes, and it only adds to the trace; without an export
    configuration it raises the [AssertionError] before any call. *)
Theorem export_keeps_table env self model p w :
  let r := export env self model p w in
  QUANT_CFG_CHOICES r.2 = QUANT_CFG_CHOICES w
  ∧ (∃ t, trace r.2 = (trace w ++ t)%list)
  ∧ (export_config self = None →
     r = (Raise (AssertionError [VStr "Export config is not set"]), w)).
Proof.
  intros r. destruct r as [o w'] eqn:H. subst r. cbn [fst snd].
  unfold export in H.
  destruct (export_config self) as [ec|] eqn:Hec.
  2: { injection H as <- <-. split; [done|]. split; [|done].
       exists []. by rewrite app_nil_r. }
  unfold get_unwrapped_mcore_model, _get_decoder_type, get_modelopt_decoder_type,
    logging_warning, logging_info, os_path_exists_call, call_total, call,
    mbind, M_bind, mret, M_ret in H.
  rewrite Hec in H. cbn [nemo_checkpoint_path with_nemo_checkpoint_path] in H.
  repeat export_step H env.
  all: injection H as <- <-; unfold log; cbn [trace QUANT_CFG_CHOICES];
    rewrite <- ?app_assoc.
  all: split; [done|]; split; [by eexists | done].
Qed.

(** X8.  A completed [export] call has unwrapped the model, resolved the
    decoder type on the configuration of the model itself, and handed the
    export toolkit that decoder type, the quantizer's torch dtype, the
    export directory and the two inference parallelism degrees of the
    export configuration, with the NFS workspace asked for exactly when
    the model runs on more than one node or with pipeline parallelism;
    then come the barrier, the log message and the rank query, and after
    them only steps of the tokenizer copy, none of them off rank 0. *)
Theorem export_call_arguments env self model p w self' w' :
  export env self model p w = (Ok self', w') →
  ∃ ec dt nfs rest,
    export_config self = Some ec
    ∧ resolved_decoder_type self (config model) = Some dt
    ∧ (nfs = true ↔
       1 < num_nodes model ∨ 1 < pipeline_model_parallel_size (config model))
    ∧ trace w'
      = (trace w
         ++ [Returned GetUnwrappedMcoreModel]
         ++ resolver_warnings self (config model)
         ++ [Returned (ExportTensorrtLlmCheckpoint dt (torch_dtype self) (path ec)
                         (inference_tensor_parallel ec)
                         (inference_pipeline_parallel ec) nfs);
             Returned DistBarrier;
             Returned (LoggingInfo
                         [VStr "Export succeeded, model has been exported to ";
                          VStr (path ec);
                          VStr ". Saving tokenizer if possible..."]);
             Returned DistGetRank]
         ++ rest)%list
    ∧ Forall (λ x, is_tokenizer_step x = true ∨ x = copy_skipped_message) rest
    ∧ (get_rank env ≠ 0 → rest = []).
Proof.
  intros H. unfold export in H.
  destruct (export_config self) as [ec|] eqn:Hec; [|discriminate H].
  exists ec.
  exists (default "llama" (resolved_decoder_type self (config model))).
  exists ((1 <? num_nodes model)
          || (1 <? pipeline_model_parallel_size (config model))).
  unfold get_unwrapped_mcore_model, _get_decoder_type, get_modelopt_decoder_type,
    logging_warning, logging_info, os_path_exists_call, call_total, call,
    mbind, M_bind, mret, M_ret in H.
  rewrite Hec in H. cbn [nemo_checkpoint_path with_nemo_checkpoint_path] in H.
  unfold resolved_decoder_type, resolver_warnings. rewrite Hec.
  assert (Hnfs : (1 <? num_nodes model)
                 || (1 <? pipeline_model_parallel_size (config model)) = true
                 ↔ 1 < num_nodes model
                   ∨ 1 < pipeline_model_parallel_size (config model)).
  { rewrite orb_true_iff, !Z.ltb_lt. done. }
  repeat export_step H env.
  all: try discriminate H.
  all: injection H as <- <-; unfold log; cbn [trace]; rewrite <- ?app_assoc.
  all: cbn [app default].
  all: eexists; split; [reflexivity|]; split; [reflexivity|];
    split; [exact Hnfs|]; split; [reflexivity|].
  all: split; [repeat constructor; by (left + right)|].
  all: try (intros Hr; by apply Z.eqb_eq in Hrank).
  all: done.
Qed.

Lemma export_call_arguments_witness :
  let self := sample_quantizer default_QuantizationConfig in
  let model := sample_model [Starcoder2Config] in
  let w := initial_World sample_mtq in
  let r := export sample_env self model (Some "ckpt") w in
  ∃ ec dt nfs rest,
    export_config self = Some ec
    ∧ resolved_decoder_type self (config model) = Some dt
    ∧ (nfs = true ↔
       1 < num_nodes model ∨ 1 < pipeline_model_parallel_size (config model))
    ∧ trace r.2
      = (trace w
         ++ [Returned GetUnwrappedMcoreModel]
         ++ resolver_warnings self (config model)
         ++ [Returned (ExportTensorrtLlmCheckpoint dt (torch_dtype self) (path ec)
                         (inference_tensor_parallel ec)
                         (inference_pipeline_parallel ec) nfs);
             Returned DistBarrier;
             Returned (LoggingInfo
                         [VStr "Export succeeded, model has been exported to ";
                          VStr (path ec);
                          VStr ". Saving tokenizer if possible..."]);
             Returned DistGetRank]
         ++ rest)%list
    ∧ Forall (λ x, is_tokenizer_step x = true ∨ x = copy_skipped_message) rest
    ∧ (get_rank sample_env ≠ 0 → rest = []).
Proof.
  intros self model w r.
  apply (export_call_arguments sample_env self model (Some "ckpt") w
           (returned_or self r.1) r.2).
  vm_compute. reflexivity.
Defined.

(** X9.  A completed [export] call leaves the quantizer's configurations
    and torch dtype as they were.  On rank 0 the quantizer now holds the
    checkpoint path the call used: the argument when it is a non-empty
    string, else the path it held before; so a later call without a path
    uses the same one.  On every other rank the quantizer is unchanged. *)
Theorem export_remembers_checkpoint_path env self model p w self' w' :
  export env self model p w = (Ok self', w') →
  quantization_config self' = quantization_config self
  ∧ export_config self' = export_config self
  ∧ torch_dtype self' = torch_dtype self
  ∧ (get_rank env = 0 →
     nemo_checkpoint_path self' = effective_checkpoint_path self p
     ∧ (str_truthy p = true → nemo_checkpoint_path self' = p)
     ∧ (∀ q, str_truthy q = false →
             effective_checkpoint_path self' q = effective_checkpoint_path self p))
  ∧ (get_rank env ≠ 0 → self' = self).
Proof.
  intros H. unfold export in H.
  destruct (export_config self) as [ec|] eqn:Hec; [|discriminate H].
  unfold get_unwrapped_mcore_model, _get_decoder_type, get_modelopt_decoder_type,
    logging_warning, logging_info, os_path_exists_call, call_total, call,
    mbind, M_bind, mret, M_ret in H.
  rewrite Hec in H. cbn [nemo_checkpoint_path with_nemo_checkpoint_path] in H.
  assert (Htruthy : str_truthy p = true → effective_checkpoint_path self p = p).
  { unfold effective_checkpoint_path. by intros ->. }
  assert (Hq : ∀ s q, str_truthy q = false →
                 effective_checkpoint_path s q = nemo_checkpoint_path s).
  { intros s q Hq. unfold effective_checkpoint_path. by rewrite Hq. }
  repeat export_step H env.
  all: try discriminate H.
  all: injection H as <- _.
  all: first [apply Z.eqb_eq in Hrank | apply Z.eqb_neq in Hrank].
  all: cbn [quantization_config export_config torch_dtype nemo_checkpoint_path
            with_nemo_checkpoint_path].
  all: do 3 (split; [done|]).
  all: split; [|by intros ?].
  all: intros Hr; try contradiction.
  all: split; [done|]; split;
    [exact Htruthy | by intros q Hq'; rewrite (Hq _ q Hq')].
Qed.

Lemma export_remembers_checkpoint_path_witness :
  let self := sample_quantizer default_QuantizationConfig in
  let model := sample_model [LlamaConfig] in
  let p := Some "ckpt" in
  let r := export sample_env self model p (initial_World sample_mtq) in
  let self' := returned_or self r.1 in
  quantization_config self' = quantization_config self
  ∧ export_config self' = export_config self
  ∧ torch_dtype self' = torch_dtype self
  ∧ (get_rank sample_env = 0 →
     nemo_checkpoint_path self' = effective_checkpoint_path self p
     ∧ (str_truthy p = true → nemo_checkpoint_path self' = p)
     ∧ (∀ q, str_truthy q = false →
             effective_checkpoint_path self' q = effective_checkpoint_path self p))
  ∧ (get_rank sample_env ≠ 0 → self' = self).
Proof.
  intros self model p r self'.
  apply (export_remembers_checkpoint_path sample_env self model p
           (initial_World sample_mtq) self' r.2).
  vm_compute. reflexivity.
Defined.

(** X10.  Where no collaborator raises, an [export] call of a quantizer
    with an export configuration returns; and on rank 0, with a known
    checkpoint path whose tokenizer directory exists and no tokenizer
    directory in the export directory yet, the last thing it does is the
    copy of that directory into the export directory. *)
Theorem export_copies_tokenizer env self model p ec w :
  (∀ c, raises env c = None) →
  export_config self = Some ec →
  ∃ self' w',
    export env self model p w = (Ok self', w')
    ∧ (∀ ckpt,
         get_rank env = 0 →
         effective_checkpoint_path self p = Some ckpt →
         os_path_exists env (tokenizer_src_of ckpt) = true →
         os_path_exists env (tokenizer_dst_of (path ec)) = false →
         last (trace w')
         = Some (Returned (ShutilCopytree (tokenizer_src_of ckpt)
                             (tokenizer_dst_of (path ec))))).
Proof.
  intros Hno Hec.
  destruct (export env self model p w) as [o w'] eqn:H.
  unfold export in H.
  unfold get_unwrapped_mcore_model, _get_decoder_type, get_modelopt_decoder_type,
    logging_warning, logging_info, os_path_exists_call, call_total, call,
    mbind, M_bind, mret, M_ret in H.
  rewrite Hec in H. cbn [nemo_checkpoint_path with_nemo_checkpoint_path] in H.
  repeat export_step H env.
  all: repeat match goal with
         | E : raises _ _ = Some _ |- _ => rewrite Hno in E; discriminate E
         end.
  all: injection H as <- <-; eexists _, _; (split; [reflexivity|]).
  all: intros ckpt' Hr Hp Hs Hd.
  all: try (apply Z.eqb_neq in Hrank; contradiction).
  all: try discriminate Hp.
  all: injection Hp as <-; try congruence.
  all: unfold log; cbn [trace]; by rewrite last_snoc.
Qed.

Lemma export_copies_tokenizer_witness :
  let self := sample_quantizer default_QuantizationConfig in
  let model := sample_model [LlamaConfig] in
  let ec := default_ExportConfig "out" in
  let w := initial_World sample_mtq in
  ∃ self' w',
    export sample_env self model (Some "ckpt") w = (Ok self', w')
    ∧ (∀ ckpt,
         get_rank sample_env = 0 →
         effective_checkpoint_path self (Some "ckpt") = Some ckpt →
         os_path_exists sample_env (tokenizer_src_of ckpt) = true →
         os_path_exists sample_env (tokenizer_dst_of (path ec)) = false →
         last (trace w')
         = Some (Returned (ShutilCopytree (tokenizer_src_of ckpt)
                             (tokenizer_dst_of (path ec))))).
Proof.
  intros self model ec w.
  apply (export_copies_tokenizer sample_env self model (Some "ckpt") ec w).
  - intros c. reflexivity.
  - reflexivity.
Defined.

(** ** The decoder type of a quantizer *)

Lemma first_match_label config l :
  first_match config mapping = Some l →
  l ∈ ["baichuan"; "chatglm"; "gemma"; "llama"; "gptnext"; "qwen"].
Proof.
  unfold mapping. cbn [first_match].
  repeat (destruct (isinstance config _);
          [intros [= <-]; apply (bool_decide_unpack _); by vm_compute|]).
  done.
Qed.

(** X11.  For a quantizer with an export configuration
    [_get_decoder_type] never raises.  A non-empty [decoder_type] of the
    export configuration is returned as it is, for every model
    configuration and with no warning; with [None] or the empty string
    there, the call is the resolver's call on the model configuration.  So
    the result is the configured decoder type or one of the six labels of
    the resolver. *)
Theorem decoder_type_override self config ec w :
  export_config self = Some ec →
  (∀ d, decoder_type ec = Some d → d ≠ "" →
        _get_decoder_type self config w = (Ok d, w))
  ∧ (decoder_type ec = None ∨ decoder_type ec = Some "" →
     _get_decoder_type self config w = get_modelopt_decoder_type config w)
  ∧ ∃ d w',
      _get_decoder_type self config w = (Ok d, w')
      ∧ resolved_decoder_type self config = Some d
      ∧ (decoder_type ec = Some d
         ∨ d ∈ ["baichuan"; "chatglm"; "gemma"; "llama"; "gptnext"; "qwen"]).
Proof.
  intros Hec. unfold _get_decoder_type, resolved_decoder_type. rewrite Hec.
  split; [|split].
  - intros d -> Hd. by destruct d.
  - by intros [->| ->].
  - assert (∃ d w', get_modelopt_decoder_type config w = (Ok d, w')
                    ∧ Some (default "llama" (first_match config mapping)) = Some d
                    ∧ d ∈ ["baichuan"; "chatglm"; "gemma"; "llama"; "gptnext"; "qwen"])
      as (d & w' & Hrun & Hd & Hin).
    { rewrite get_modelopt_decoder_type_run.
      destruct (first_match config mapping) as [l|] eqn:Hl.
      - exists l, w. split; [done|]. split; [done|]. by eapply first_match_label.
      - eexists _, _. split; [done|]. split; [done|].
        apply (bool_decide_unpack _). by vm_compute. }
    destruct (decoder_type ec) as [[|c s]|].
    + exists d, w'. by auto.
    + exists (String c s), w. by auto.
    + exists d, w'. by auto.
Qed.

Lemma decoder_type_override_witness :
  let ec := {| path := "out"; dtype := DStr "bf16";
               decoder_type := Some "gptnext";
               inference_tensor_parallel := 1;
               inference_pipeline_parallel := 1 |} in
  let self := {| quantization_config := default_QuantizationConfig;
                 export_config := Some ec;
                 nemo_checkpoint_path := None;
                 torch_dtype := bfloat16 |} in
  _get_decoder_type self (sample_config [LlamaConfig]) (initial_World sample_mtq)
  = (Ok "gptnext", initial_World sample_mtq).
Proof.
  intros ec self.
  apply (proj1 (decoder_type_override self (sample_config [LlamaConfig]) ec
                  (initial_World sample_mtq) eq_refl) "gptnext").
  - reflexivity.
  - discriminate.
Defined.

(** ** Construction, and what a constructed quantizer can do *)

(** X12.  Construction without an export configuration never returns a
    quantizer, whatever the algorithm, also [None]: without the toolkit or
    the device it raises their errors, and with both it raises the
    [AttributeError] of reading [dtype] from [None], before any check of
    the configurations.  The world is as before. *)
Theorem construction_needs_export_config env qc w :
  ∃ e,
    Quantizer_init env qc None w = (Raise e, w)
    ∧ (HAVE_MODELOPT env = false →
       e = RuntimeError "nvidia-modelopt is needed to use Quantizer")
    ∧ (HAVE_MODELOPT env = true → cuda_is_available env = false →
       e = EnvironmentError "GPU is required for the quantization.")
    ∧ (HAVE_MODELOPT env = true → cuda_is_available env = true →
       e = AttributeError "dtype").
Proof.
  unfold Quantizer_init.
  destruct (HAVE_MODELOPT env), (cuda_is_available env); cbn [negb];
    eexists; (split; [reflexivity|]); repeat split; by intros.
Qed.

(** X13.  A quantizer that construction returned was built with the
    toolkit and a device, holds the two configurations it was given and no
    checkpoint path, and the torch dtype is the conversion of the export
    dtype, which is one of the supported ones; its algorithm is [None] or
    a key of the table; and construction changed nothing. *)
Theorem constructed_quantizer env qc oec w self w' :
  Quantizer_init env qc oec w = (Ok self, w') →
  w' = w
  ∧ HAVE_MODELOPT env = true
  ∧ cuda_is_available env = true
  ∧ quantization_config self = qc
  ∧ nemo_checkpoint_path self = None
  ∧ (∀ a, algorithm qc = Some a → is_Some (QUANT_CFG_CHOICES w !! a))
  ∧ ∃ ec, oec = Some ec
          ∧ export_config self = Some ec
          ∧ dtype ec ∈ SUPPORTED_DTYPE
          ∧ torch_dtype_from_precision env (dtype ec) = Ok (torch_dtype self).
Proof.
  unfold Quantizer_init.
  destruct (HAVE_MODELOPT env); [|done].
  destruct (cuda_is_available env); [|done]. cbn [negb].
  destruct oec as [ec|]; [|done].
  unfold mbind, M_bind, raise, lift, mret, M_ret.
  destruct (negb _) eqn:Hknown; [done|].
  destruct (bool_decide (dtype ec ∈ SUPPORTED_DTYPE)) eqn:Hd; [|done].
  cbn [negb].
  destruct (torch_dtype_from_precision env (dtype ec)) as [d|] eqn:Hconv; [|done].
  intros [= <- <-]. cbn.
  do 5 (split; [done|]). split.
  - intros a Ha. rewrite Ha in Hknown.
    by apply negb_false_iff, bool_decide_eq_true in Hknown.
  - exists ec. do 2 (split; [done|]).
    split; [by apply bool_decide_eq_true in Hd | done].
Qed.

Lemma constructed_quantizer_witness :
  let qc := default_QuantizationConfig in
  let oec := Some (default_ExportConfig "out") in
  let w := initial_World sample_mtq in
  let r := Quantizer_init sample_env qc oec w in
  let self := returned_or (sample_quantizer qc) r.1 in
  r.2 = w
  ∧ HAVE_MODELOPT sample_env = true
  ∧ cuda_is_available sample_env = true
  ∧ quantization_config self = qc
  ∧ nemo_checkpoint_path self = None
  ∧ (∀ a, algorithm qc = Some a → is_Some (QUANT_CFG_CHOICES w !! a))
  ∧ ∃ ec, oec = Some ec
          ∧ export_config self = Some ec
          ∧ dtype ec ∈ SUPPORTED_DTYPE
          ∧ torch_dtype_from_precision sample_env (dtype ec) = Ok (torch_dtype self).
Proof.
  intros qc oec w r self.
  apply (constructed_quantizer sample_env qc oec w self r.2).
  vm_compute. reflexivity.
Defined.

Lemma Quantizer_init_export_config env qc oec w self w' :
  Quantizer_init env qc oec w = (Ok self, w') →
  quantization_config self = qc ∧ ∃ ec, export_config self = Some ec.
Proof.
  unfold Quantizer_init.
  destruct (HAVE_MODELOPT env); [|done].
  destruct (cuda_is_available env); [|done]. cbn [negb].
  destruct oec as [ec|]; [|done].
  unfold mbind, M_bind, raise, lift, mret, M_ret.
  destruct (negb _); [done|]. destruct (negb _); [done|].
  destruct (torch_dtype_from_precision env (dtype ec)); [|done].
  intros [= <- <-]. split; [done | by eexists].
Qed.

(** X14.  Construction and the two operations compose: where no
    collaborator raises, a quantizer that construction returned quantizes
    a model, for a table entry of the expected shape, and exports it; both
    calls return. *)
Theorem constructed_quantizer_runs {L} env qc oec w0 self w0'
    model (fl : L) p alg tmpl w :
  Quantizer_init env qc oec w0 = (Ok self, w0') →
  (∀ c, raises env c = None) →
  algorithm qc = Some alg →
  QUANT_CFG_CHOICES w !! alg = Some tmpl →
  template_ok alg tmpl = true →
  ∃ m1 w1 self2 w2,
    quantize env self model fl w = (Ok m1, w1)
    ∧ export env self m1 p w1 = (Ok self2, w2).
Proof.
  intros Hinit Henv Halg Htmpl Hok.
  destruct (Quantizer_init_export_config _ _ _ _ _ _ Hinit) as (Hqc & ec & Hec).
  rewrite <- Hqc in Halg.
  destruct (quantize_completes env self model fl ec alg w tmpl
              Henv Hec Halg Htmpl Hok) as (m1 & w1 & Hq).
  exists m1, w1.
  destruct (export env self m1 p w1) as [o w2] eqn:H.
  unfold export in H.
  unfold get_unwrapped_mcore_model, _get_decoder_type, get_modelopt_decoder_type,
    logging_warning, logging_info, os_path_exists_call, call_total, call,
    mbind, M_bind, mret, M_ret in H.
  rewrite Hec in H. cbn [nemo_checkpoint_path with_nemo_checkpoint_path] in H.
  repeat export_step H env.
  all: repeat match goal with
         | E : raises _ _ = Some _ |- _ => rewrite Henv in E; discriminate E
         end.
  all: injection H as <- <-; by eexists _, _.
Qed.

Lemma constructed_quantizer_runs_witness :
  let qc := awq_64 "w4a8_awq" in
  let w := initial_World sample_mtq in
  let self := returned_or (sample_quantizer qc)
                (Quantizer_init sample_env qc (Some (default_ExportConfig "out")) w).1 in
  ∃ m1 w1 self2 w2,
    quantize sample_env self (sample_model [MixtralConfig]) () w = (Ok m1, w1)
    ∧ export sample_env self m1 (Some "ckpt") w1 = (Ok self2, w2).
Proof.
  intros qc w self.
  apply (constructed_quantizer_runs sample_env qc
           (Some (default_ExportConfig "out")) w self w
           (sample_model [MixtralConfig]) () (Some "ckpt") "w4a8_awq"
           (W4A8_AWQ_BETA_CFG sample_mtq) w).
  - vm_compute. reflexivity.
  - intros c. reflexivity.
  - reflexivity.
  - vm_compute. reflexivity.
  - vm_compute. reflexivity.
Defined.

(** ** The calibration batches *)

Lemma slice_bound_nonneg n i :
  0 ≤ i → slice_bound n i = Nat.min (Z.to_nat i) n.
Proof.
  intros Hi. unfold slice_bound.
  destruct (i <? 0) eqn:Hneg; [lia|]. lia.
Qed.

(** Consecutive slices tile a prefix of the list. *)
Lemma py_slice_next {A} (l : list A) (a b : nat) :
  (take a l ++ py_slice l (Z.of_nat a) (Z.of_nat (a + b)))%list = take (a + b) l.
Proof.
  unfold py_slice. rewrite !slice_bound_nonneg by lia. rewrite !Nat2Z.id.
  destruct (decide (a ≤ length l)%nat) as [Ha|Ha].
  - rewrite (Nat.min_l a) by done.
    rewrite take_take_drop.
    destruct (decide (a + b ≤ length l)%nat).
    + rewrite Nat.min_l by done. f_equal. lia.
    + rewrite Nat.min_r by lia.
      replace (a + (length l - a))%nat with (length l) by lia.
      by rewrite !take_ge by lia.
  - rewrite !Nat.min_r by lia. rewrite Nat.sub_diag, take_0, app_nil_r.
    by rewrite !take_ge by lia.
Qed.

Lemma py_slice_tiles {A} (l : list A) (b k : nat) :
  concat (map (λ i, py_slice l (i * Z.of_nat b) ((i + 1) * Z.of_nat b))
              (map Z.of_nat (seq 0 k)))
  = take (k * b) l.
Proof.
  induction k as [|k IH]; [done|].
  rewrite seq_S, !map_app, concat_app, IH. cbn [map concat Nat.add].
  rewrite app_nil_r.
  replace (Z.of_nat k * Z.of_nat b) with (Z.of_nat (k * b)) by lia.
  replace ((Z.of_nat k + 1) * Z.of_nat b) with (Z.of_nat (k * b + b)) by lia.
  rewrite py_slice_next. f_equal. lia.
Qed.

Lemma concat_map_map {A B} (g : A → B) (ls : list (list A)) :
  concat (map (map g) ls) = map g (concat ls).
Proof.
  induction ls as [|l ls IH]; [done|]. simpl. by rewrite IH, map_app.
Qed.

(** X15.  For a batch size [b > 0] the batches of the iterator, laid end
    to end, are the texts of the first [k * b] rows of the corpus, in the
    order of the corpus and each cut to the maximum length, where [k] is
    the number of batches: no row is skipped or used twice, and the text
    is read from the text column of the corpus. *)
Theorem calib_iter_content load_dataset data b c m :
  0 < b →
  let ds := (load_corpus load_dataset data).1 in
  let col := (load_corpus load_dataset data).2 in
  let k := Z.max (Z.min (Z.of_nat (length ds)) c) b / b in
  ∃ batches,
    get_calib_data_iter load_dataset data b c m = Ok batches
    ∧ concat batches
      = map (λ row : Row, str_slice_to (row col) m) (take (Z.to_nat (k * b)) ds).
Proof.
  intros Hb ds col k. unfold get_calib_data_iter. subst ds col k.
  destruct (load_corpus load_dataset data) as [dataset text_column]. cbn [fst snd].
  destruct (b =? 0) eqn:Hb0; [lia|].
  eexists. split; [reflexivity|].
  set (k := Z.max (Z.min (Z.of_nat (length dataset)) c) b / b).
  assert (0 ≤ k) by (apply Z.div_pos; lia).
  rewrite <- (map_map (λ i, py_slice dataset (i * b) ((i + 1) * b))
                (λ rows, map (λ s, str_slice_to s m)
                           (map (λ row : Row, row text_column) rows))).
  rewrite <- (map_map (map (λ row : Row, row text_column))
                (map (λ s, str_slice_to s m))).
  rewrite !concat_map_map, map_map. f_equal.
  unfold py_range.
  pose proof (py_slice_tiles dataset (Z.to_nat b) (Z.to_nat k)) as Ht.
  rewrite Z2Nat.id in Ht by lia. rewrite Ht. f_equal. lia.
Qed.

Lemma calib_iter_content_witness :
  let ld := sample_load_dataset 5 in
  let ds := (load_corpus ld "cnn_dailymail").1 in
  let col := (load_corpus ld "cnn_dailymail").2 in
  let k := Z.max (Z.min (Z.of_nat (length ds)) 3) 2 / 2 in
  ∃ batches,
    get_calib_data_iter ld "cnn_dailymail" 2 3 4 = Ok batches
    ∧ concat batches
      = map (λ row : Row, str_slice_to (row col) 4) (take (Z.to_nat (k * 2)) ds).
Proof.
  apply (calib_iter_content (sample_load_dataset 5) "cnn_dailymail" 2 3 4).
  lia.
Defined.

Lemma py_slice_length {A} (l : list A) (lo hi : Z) :
  0 ≤ lo → lo ≤ hi → hi ≤ Z.of_nat (length l) →
  Z.of_nat (length (py_slice l lo hi)) = hi - lo.
Proof.
  intros Hlo Hhi Hlen. unfold py_slice.
  rewrite !slice_bound_nonneg by lia.
  rewrite length_take, length_drop. lia.
Qed.

Lemma py_slice_all {A} (l : list A) (hi : Z) :
  Z.of_nat (length l) ≤ hi → py_slice l 0 hi = l.
Proof.
  intros Hhi. unfold py_slice. rewrite !slice_bound_nonneg by lia.
  change (Z.to_nat 0) with 0%nat. rewrite Nat.min_0_l, drop_0.
  apply take_ge. lia.
Qed.

(** X16.  When the corpus holds at least one batch ([0 < b <= n]), every
    batch of the iterator has exactly [b] strings.  When the corpus is
    smaller than one batch, the iterator yields a single batch with the
    text of every row of the corpus, so with fewer than [b] strings, and
    an empty corpus gives one empty batch. *)
Theorem calib_batch_sizes load_dataset data b c m :
  0 < b →
  let ds := (load_corpus load_dataset data).1 in
  let col := (load_corpus load_dataset data).2 in
  ∃ batches,
    get_calib_data_iter load_dataset data b c m = Ok batches
    ∧ (b ≤ Z.of_nat (length ds) →
       ∀ batch, batch ∈ batches → Z.of_nat (length batch) = b)
    ∧ (Z.of_nat (length ds) < b →
       batches = [map (λ row : Row, str_slice_to (row col) m) ds]).
Proof.
  intros Hb ds col. unfold get_calib_data_iter. subst ds col.
  destruct (load_corpus load_dataset data) as [dataset text_column]. cbn [fst snd].
  destruct (b =? 0) eqn:Hb0; [lia|].
  eexists. split; [reflexivity|]. split.
  - intros Hn batch Hin.
    apply list_elem_of_fmap in Hin as (i & -> & Hi).
    unfold py_range in Hi. apply list_elem_of_fmap in Hi as (j & -> & Hj).
    apply elem_of_seq in Hj.
    rewrite !length_map.
    set (e := Z.max (Z.min (Z.of_nat (length dataset)) c) b) in *.
    assert (e ≤ Z.of_nat (length dataset)) by lia.
    assert (b * (e / b) ≤ e) by (apply Z.mul_div_le; lia).
    assert (0 ≤ e / b) by (apply Z.div_pos; lia).
    rewrite py_slice_length; nia.
  - intros Hn.
    replace (Z.max (Z.min (Z.of_nat (length dataset)) c) b) with b by lia.
    rewrite Z_div_same_full by lia.
    change (py_range 1) with [0]. cbn [map].
    rewrite py_slice_all by lia. by rewrite map_map.
Qed.

Lemma calib_batch_sizes_witness :
  let ld := sample_load_dataset 5 in
  let ds := (load_corpus ld "wikitext").1 in
  let col := (load_corpus ld "wikitext").2 in
  ∃ batches,
    get_calib_data_iter ld "wikitext" 8 64 3 = Ok batches
    ∧ (8 ≤ Z.of_nat (length ds) →
       ∀ batch, batch ∈ batches → Z.of_nat (length batch) = 8)
    ∧ (Z.of_nat (length ds) < 8 →
       batches = [map (λ row : Row, str_slice_to (row col) 3) ds]).
Proof.
  apply (calib_batch_sizes (sample_load_dataset 5) "wikitext" 8 64 3).
  lia.
Defined.

(** X17.  A batch size of zero makes the iterator raise a
    [ZeroDivisionError], for every corpus; a negative batch size with a
    requested count that is not negative gives no batch and no error. *)
Theorem calib_degenerate_batch_size load_dataset data b c m :
  (b = 0 → get_calib_data_iter load_dataset data b c m = Raise ZeroDivisionError)
  ∧ (b < 0 → 0 ≤ c → get_calib_data_iter load_dataset data b c m = Ok []).
Proof.
  unfold get_calib_data_iter.
  destruct (load_corpus load_dataset data) as [dataset text_column].
  split.
  - by intros ->.
  - intros Hb Hc. destruct (b =? 0) eqn:Hb0; [lia|].
    set (e := Z.max (Z.min (Z.of_nat (length dataset)) c) b).
    assert (0 ≤ e) by lia.
    assert (e / b ≤ 0).
    { pose proof (Z.div_mod e b ltac:(lia)).
      pose proof (Z.mod_neg_bound e b Hb). nia. }
    unfold py_range. by replace (Z.to_nat (e / b)) with 0%nat by lia.
Qed.

Lemma calib_degenerate_batch_size_witness :
  get_calib_data_iter (sample_load_dataset 3) "wikitext" 0 512 512
  = Raise ZeroDivisionError
  ∧ get_calib_data_iter (sample_load_dataset 3) "wikitext" (-2) 4 512 = Ok [].
Proof.
  split.
  - apply (proj1 (calib_degenerate_batch_size (sample_load_dataset 3)
                    "wikitext" 0 512 512)).
    reflexivity.
  - apply (proj2 (calib_degenerate_batch_size (sample_load_dataset 3)
                    "wikitext" (-2) 4 512)); lia.
Defined.

Lemma str_take_prefix n s : String.prefix (str_take n s) s = true.
Proof.
  revert s. induction n as [|n IH]; intros [|c s]; simpl; try done.
  destruct (ascii_dec c c); [apply IH | done].
Qed.

Lemma str_take_all n s : (String.length s ≤ n)%nat → str_take n s = s.
Proof.
  revert s. induction n as [|n IH]; intros [|c s]; simpl; try done; try lia.
  intros Hn. f_equal. apply IH. lia.
Qed.

Lemma str_take_exact n s :
  (n ≤ String.length s)%nat → String.length (str_take n s) = n.
Proof.
  revert s. induction n as [|n IH]; intros [|c s]; simpl; try done; try lia.
  intros Hn. f_equal. apply IH. lia.
Qed.

(** X18.  Cutting a string to a maximum length [m >= 0] gives a prefix of
    the string: the string itself when it has at most [m] characters, and
    its first [m] characters otherwise.  For a negative [m] the cut drops
    the last [-m] characters instead, so it is still a prefix. *)
Theorem truncation_is_prefix s m :
  String.prefix (str_slice_to s m) s = true
  ∧ (Z.of_nat (String.length s) ≤ m → str_slice_to s m = s)
  ∧ (0 ≤ m → m ≤ Z.of_nat (String.length s) →
     Z.of_nat (String.length (str_slice_to s m)) = m)
  ∧ (m < 0 →
     Z.of_nat (String.length (str_slice_to s m))
     = Z.max 0 (Z.of_nat (String.length s) + m)).
Proof.
  unfold str_slice_to. split; [apply str_take_prefix|].
  split; [|split].
  - intros Hm. destruct (m <? 0) eqn:Hneg; [lia|].
    apply str_take_all. lia.
  - intros H0 Hm. destruct (m <? 0) eqn:Hneg; [lia|].
    rewrite str_take_exact; lia.
  - intros Hm. destruct (m <? 0) eqn:Hneg; [|lia].
    rewrite str_take_exact; lia.
Qed.

Lemma truncation_is_prefix_witness :
  str_slice_to "abcdef" 6 = "abcdef"
  ∧ Z.of_nat (String.length (str_slice_to "abcdef" 4)) = 4.
Proof.
  split.
  - apply (proj1 (proj2 (truncation_is_prefix "abcdef" 6))). simpl. lia.
  - apply (proj1 (proj2 (proj2 (truncation_is_prefix "abcdef" 4))));
      simpl; lia.
Defined.

(** ** Calling [quantize] again *)

Lemma dict_set_same k x d : dict_get k d = Some x → dict_set k x d = d.
Proof.
  induction d as [|[k' v'] d IH]; simpl; [done|].
  destruct (decide (k' = k)) as [->|]; intros H.
  - by injection H as ->.
  - by rewrite IH.
Qed.

(** Assigning the same item twice is assigning it once. *)
Lemma py_setitem_idem v k x v' :
  py_setitem v k x = Ok v' → py_setitem v' k x = Ok v'.
Proof.
  destruct v, k; simpl; try discriminate.
  - unfold seq_set. destruct (norm_index (length xs) z) as [j|] eqn:Hj; [|done].
    intros [= <-]. simpl. unfold seq_set.
    by rewrite length_insert, Hj, list_insert_insert_eq.
  - intros [= <-]. simpl. by rewrite dict_set_same by apply dict_get_set_eq.
  - intros [= <-]. simpl. by rewrite dict_set_same by apply dict_get_set_eq.
Qed.

Lemma py_set_path_idem v p k x v' :
  py_set_path v p k x = Ok v' → py_set_path v' p k x = Ok v'.
Proof.
  revert v v'. induction p as [|j p IH]; intros v v' H.
  - by eapply py_setitem_idem.
  - apply py_set_path_cons_inv in H as (c & c' & Hg & Hs & Hv).
    cbn [py_set_path].
    rewrite (py_getitem_setitem_eq _ _ _ _ Hv), (IH _ _ Hs).
    by eapply py_setitem_idem.
Qed.

Lemma py_set_path_cons_eq v j p k x :
  py_set_path v (j :: p) k x
  = match py_getitem v j with
    | Ok c =>
        match py_set_path c p k x with
        | Ok c' => py_setitem v j c'
        | Raise e => Raise e
        end
    | Raise e => Raise e
    end.
Proof. reflexivity. Qed.

(** An assignment that changes nothing still changes nothing after an
    item under another key of the root was assigned. *)
Lemma py_set_path_fixed_other_key v a p k x b y v' :
  py_set_path v (KStr a :: p) k x = Ok v →
  py_setitem v (KStr b) y = Ok v' → a ≠ b →
  py_set_path v' (KStr a :: p) k x = Ok v'.
Proof.
  intros H Hb Hne.
  apply py_set_path_cons_inv in H as (c & c' & Hg & Hs & Hv).
  pose proof (py_getitem_setitem_eq _ _ _ _ Hv) as Hc'.
  rewrite Hg in Hc'. injection Hc' as <-.
  rewrite py_set_path_cons_eq.
  rewrite (py_getitem_setitem_str_ne _ _ _ _ (KStr a) Hb) by congruence.
  rewrite Hg, Hs.
  destruct v; try discriminate Hb. simpl in Hb. injection Hb as <-.
  simpl in Hg |- *.
  destruct (dict_get (KStr a) items) as [c0|] eqn:Ha; [|done].
  injection Hg as ->.
  rewrite dict_set_same; [done|]. rewrite dict_get_set_ne by congruence. done.
Qed.

(** The same, one level down. *)
Lemma py_set_path_fixed_other_item v a a2 p k x b y v' :
  py_set_path v (KStr a :: KStr a2 :: p) k x = Ok v →
  py_set_path v [KStr a] (KStr b) y = Ok v' → a2 ≠ b →
  py_set_path v' (KStr a :: KStr a2 :: p) k x = Ok v'.
Proof.
  intros H Hb Hne.
  apply py_set_path_cons_inv in H as (c & c' & Hg & Hs & Hv).
  pose proof (py_getitem_setitem_eq _ _ _ _ Hv) as Hc'.
  rewrite Hg in Hc'. injection Hc' as <-.
  apply py_set_path_cons_inv in Hb as (d & d' & Hd & Hd' & Hv').
  rewrite Hg in Hd. injection Hd as <-. cbn [py_set_path] in Hd'.
  pose proof (py_set_path_fixed_other_key _ _ _ _ _ _ _ _ Hs Hd' Hne) as Hfix.
  rewrite (py_set_path_cons_eq v' (KStr a) (KStr a2 :: p) k x).
  rewrite (py_getitem_setitem_eq _ _ _ _ Hv'), Hfix.
  by eapply py_setitem_idem.
Qed.

(** The recipe a completed call leaves in the table is a fixed point of
    the assignments of that call. *)
Lemma quantize_recipe_fixed {L} env self model (fl : L) alg w m' w' :
  algorithm (quantization_config self) = Some alg →
  quantize env self model fl w = (Ok m', w') →
  ∃ dt recipe,
    resolved_decoder_type self (mcore_config (module model)) = Some dt
    ∧ QUANT_CFG_CHOICES w' !! alg = Some recipe
    ∧ (if str_contains "awq" alg then
         ∃ wq, weight_quantizer_of recipe = Ok wq
               ∧ py_set_path recipe (block_sizes_path wq) (KInt (-1))
                   (VInt (awq_block_size (quantization_config self))) = Ok recipe
       else recipe = recipe)
    ∧ py_set_path recipe [KStr "quant_cfg"] (KStr "*output_quantizer")
        (output_quantizer_entry alg
           (kv_cache_flag (quantization_config self) alg dt)) = Ok recipe
    ∧ (if decide (alg = "int8_sq") then
         py_set_path recipe [] (KStr "algorithm")
           (smoothquant_entry (sq_alpha (quantization_config self))) = Ok recipe
       else recipe = recipe).
Proof.
  intros Halg H.
  destruct (quantize_ok _ _ _ _ _ _ _ _ Halg H)
    as (dt & tmpl & r1 & r2 & recipe & t1 & t2
        & Hdt & Htmpl & Hr1 & Hr2 & Hrec & HT & _).
  exists dt, recipe. split; [exact Hdt|].
  split; [by rewrite HT, lookup_insert_eq|].
  pose proof (py_set_path_idem _ _ _ _ _ Hr2) as Hfix2.
  split; [|split].
  - destruct (str_contains "awq" alg) eqn:Hawq; [|done].
    destruct Hr1 as (wq & Hwq & Hset).
    destruct (py_set_path_prefix_is_list tmpl
                [KStr "quant_cfg"; KStr "*weight_quantizer"]
                ((if is_list wq then [KInt 0] else []) ++ [KStr "block_sizes"])
                _ _ _ _ Hset Hwq) as (wq1 & Hwq1 & Hlist & _).
    exists wq1. split.
    + unfold weight_quantizer_of.
      rewrite <- Hwq1. cbn [py_get_path].
      rewrite (smoothquant_keeps_quant_cfg _ _ _ _ Hrec).
      by apply (output_quantizer_keeps_other_quantizers _ _ _
                  (KStr "*weight_quantizer") Hr2).
    + unfold block_sizes_path in *. rewrite Hlist. cbn [app] in *.
      pose proof (py_set_path_idem _ _ _ _ _ Hset) as Hfix1.
      pose proof (py_set_path_fixed_other_item _ _ _ _ _ _ _ _ _
                    Hfix1 Hr2 ltac:(done)) as Hfix12.
      destruct (decide (alg = "int8_sq")) as [->|]; [|by subst].
      by eapply py_set_path_fixed_other_key.
  - destruct (decide (alg = "int8_sq")); [|by subst].
    by eapply py_set_path_fixed_other_key.
  - destruct (decide (alg = "int8_sq")); [|done].
    by eapply py_set_path_idem.
Qed.

(** X19.  Two completed [quantize] calls of the same quantizer, the first
    on any table and the second on the table the first left, for models
    with the same resolved decoder type: the second call leaves the table
    as it found it.  The recipe is settled by the first call. *)
Theorem quantize_again_same_table {L} env self model model2 (fl fl2 : L)
    alg w m1 w1 m2 w2 :
  algorithm (quantization_config self) = Some alg →
  quantize env self model fl w = (Ok m1, w1) →
  resolved_decoder_type self (mcore_config (module model2))
  = resolved_decoder_type self (mcore_config (module model)) →
  quantize env self model2 fl2 w1 = (Ok m2, w2) →
  QUANT_CFG_CHOICES w2 = QUANT_CFG_CHOICES w1.
Proof.
  intros Halg H1 Hsame H2.
  destruct (quantize_recipe_fixed _ _ _ _ _ _ _ _ Halg H1)
    as (dt & recipe & Hdt & Hrecipe & Hf1 & Hf2 & Hf3).
  destruct (quantize_ok _ _ _ _ _ _ _ _ Halg H2)
    as (dt2 & tmpl2 & r1 & r2 & recipe2 & t1 & t2
        & Hdt2 & Htmpl2 & Hr1 & Hr2 & Hrec & HT & _).
  rewrite Hsame, Hdt in Hdt2. injection Hdt2 as <-.
  rewrite Hrecipe in Htmpl2. injection Htmpl2 as <-.
  assert (r1 = recipe) as ->.
  { destruct (str_contains "awq" alg); [|done].
    destruct Hr1 as (wq & Hwq & Hset). destruct Hf1 as (wq' & Hwq' & Hset').
    rewrite Hwq in Hwq'. injection Hwq' as <-. congruence. }
  assert (r2 = recipe) as -> by congruence.
  assert (recipe2 = recipe) as ->.
  { destruct (decide (alg = "int8_sq")); [congruence | done]. }
  rewrite HT. by apply insert_id.
Qed.

Lemma quantize_again_same_table_witness :
  let qc := awq_64 "w4a8_awq" in
  let self := sample_quantizer qc in
  let model := sample_model [LlamaConfig] in
  let r1 := sample_quantize qc [LlamaConfig] in
  let r2 := quantize sample_env self model () r1.2 in
  QUANT_CFG_CHOICES r2.2 = QUANT_CFG_CHOICES r1.2.
Proof.
  intros qc self model r1 r2.
  apply (quantize_again_same_table sample_env self model model () ()
           "w4a8_awq" (initial_World sample_mtq)
           (returned_or model r1.1) r1.2 (returned_or model r2.1) r2.2).
  - reflexivity.
  - vm_compute. reflexivity.
  - reflexivity.
  - vm_compute. reflexivity.
Defined.

(** X20.  Where no collaborator raises, a [quantize] call that completed
    can be made again on the model it returned: the second call completes
    too, and returns that model as it is. *)
Theorem quantize_repeatable {L} env self model (fl : L) alg w m1 w1 :
  (∀ c, raises env c = None) →
  algorithm (quantization_config self) = Some alg →
  quantize env self model fl w = (Ok m1, w1) →
  ∃ w2, quantize env self m1 fl w1 = (Ok m1, w2).
Proof.
  intros Henv Halg H1.
  destruct (quantize_recipe_fixed _ _ _ _ _ _ _ _ Halg H1)
    as (dt & recipe & Hdt & Hrecipe & Hf1 & Hf2 & Hf3).
  destruct (quantize_ok_calls _ _ _ _ _ _ _ _ Halg H1)
    as (_ & _ & _ & _ & Hm1 & _).
  assert (∃ ec, export_config self = Some ec) as [ec Hec].
  { unfold resolved_decoder_type in Hdt.
    destruct (export_config self); [by eexists | done]. }
  assert (Hmod : module m1 = module model) by (by subst m1).
  rewrite <- Hmod in Hdt.
  destruct (quantize_returns env self m1 fl ec alg w1 dt recipe recipe recipe
              recipe Henv Hec Halg Hdt Hrecipe Hf1 Hf2 Hf3) as (m2 & w2 & H2).
  destruct (quantize_ok_calls _ _ _ _ _ _ _ _ Halg H2)
    as (_ & _ & _ & _ & Hm2 & _).
  exists w2. rewrite H2. f_equal. f_equal. rewrite Hm2. by subst m1.
Qed.

Lemma quantize_repeatable_witness :
  let qc := with_algorithm default_QuantizationConfig (Some "int8_sq") in
  let self := sample_quantizer qc in
  let r1 := sample_quantize qc [NemotronConfig] in
  let m1 := returned_or (sample_model []) r1.1 in
  ∃ w2, quantize sample_env self m1 () r1.2 = (Ok m1, w2).
Proof.
  intros qc self r1 m1.
  apply (quantize_repeatable sample_env self (sample_model [NemotronConfig]) ()
           "int8_sq" (initial_World sample_mtq) m1 r1.2).
  - intros c. reflexivity.
  - reflexivity.
  - vm_compute. reflexivity.
Defined.

(** ** What no [quantize] call touches *)

Section Frames.

Variable env : Env.
Variable alg : string.

Lemma keeps_other_recipes_refl w : keeps_other_recipes alg w w.
Proof. by split. Qed.

Lemma keeps_other_recipes_log x w : keeps_other_recipes alg w (log x w).
Proof. by split. Qed.

Lemma frames_bind {A B} (Q : A → Prop) (R : B → Prop) (m : M A) (f : A → M B) :
  frames alg Q m → (∀ a, Q a → frames alg R (f a)) → frames alg R (m ≫= f).
Proof.
  intros Hm Hf w o w2 H.
  apply bind_inv in H as [(a & w1 & H1 & H2)|(e & H1 & ->)].
  - destruct (Hm _ _ _ H1) as [[Hd1 Hk1] HQ].
    destruct (Hf a (HQ a eq_refl) _ _ _ H2) as [[Hd2 Hk2] HR].
    split; [|exact HR]. split; [congruence|].
    intros a' Ha'. by rewrite Hk2, Hk1.
  - destruct (Hm _ _ _ H1) as [Hk _]. by split.
Qed.

Lemma frames_mret {A} (Q : A → Prop) (a : A) : Q a → frames alg Q (mret a : M A).
Proof.
  intros HQ w o w' [= <- <-]. split; [apply keeps_other_recipes_refl|].
  by intros a' [= <-].
Qed.

Lemma frames_raise {A} (Q : A → Prop) e : frames alg Q (raise e : M A).
Proof. intros w o w' [= <- <-]. split; [apply keeps_other_recipes_refl | done]. Qed.

Lemma frames_lift {A} (x : Outcome A) : frames alg (λ _, True) (lift x).
Proof. intros w o w' [= <- <-]. split; [apply keeps_other_recipes_refl | done]. Qed.

Lemma frames_call_total {A} c (a : A) : frames alg (λ _, True) (call_total c a).
Proof. intros w o w' [= <- <-]. split; [apply keeps_other_recipes_log | done]. Qed.

Lemma frames_call {A} c (a : A) : frames alg (λ _, True) (call env c a).
Proof.
  intros w o w'. unfold call.
  destruct (raises env c); intros [= <- <-];
    (split; [apply keeps_other_recipes_log | done]).
Qed.

Lemma frames_choices_getitem : frames alg (λ r, r.1 = alg) (choices_getitem alg).
Proof.
  intros w o w'. unfold choices_getitem.
  destruct (QUANT_CFG_CHOICES w !! alg); intros [= <- <-];
    (split; [apply keeps_other_recipes_refl|]); [by intros a [= <-] | done].
Qed.

Lemma frames_load r : frames alg (λ _, True) (load r).
Proof.
  intros w o w'. unfold load.
  destruct (QUANT_CFG_CHOICES w !! r.1); intros [= <- <-];
    (split; [apply keeps_other_recipes_refl | done]).
Qed.

Lemma frames_ref_getitem r k :
  r.1 = alg → frames alg (λ r', r'.1 = alg) (ref_getitem r k).
Proof.
  intros Hr. unfold ref_getitem.
  eapply frames_bind; [apply frames_load|]. intros v _.
  eapply frames_bind; [apply frames_lift|]. intros _ _.
  by apply frames_mret.
Qed.

Lemma frames_ref_is_list r : frames alg (λ _, True) (ref_is_list r).
Proof.
  unfold ref_is_list.
  eapply frames_bind; [apply frames_load|]. intros v _. by apply frames_mret.
Qed.

(** An assignment through a reference into the recipe of [alg] changes
    that entry of the table and no other. *)
Lemma frames_ref_setitem r k x :
  r.1 = alg → frames alg (λ _, True) (ref_setitem r k x).
Proof.
  intros Hr w o w'. unfold ref_setitem. rewrite Hr.
  destruct (QUANT_CFG_CHOICES w !! alg) as [v|] eqn:Hv.
  2: { intros [= <- <-]. split; [apply keeps_other_recipes_refl | done]. }
  destruct (py_set_path v r.2 k x) as [v'|];
    intros [= <- <-]; [|split; [apply keeps_other_recipes_refl | done]].
  split; [|done]. split; cbn [set_choices QUANT_CFG_CHOICES].
  - by apply dom_insert_lookup_L.
  - intros a Ha. by apply lookup_insert_ne.
Qed.

Lemma frames__get_decoder_type self config :
  frames alg (λ _, True) (_get_decoder_type self config).
Proof.
  unfold _get_decoder_type, get_modelopt_decoder_type.
  destruct (export_config self) as [ec|]; [|apply frames_raise].
  assert (frames alg (λ _ : string, True)
            match first_match config mapping with
            | Some decoder_type => mret decoder_type
            | None =>
                logging_warning
                  [VStr "Could not directly infer the decoder type"];;
                mret "llama"
            end).
  { destruct (first_match config mapping); [by apply frames_mret|].
    eapply frames_bind; [apply frames_call_total|].
    intros _ _. by apply frames_mret. }
  destruct (decoder_type ec) as [[|? ?]|]; [done | by apply frames_mret | done].
Qed.

Lemma frames__setup self model : frames alg (λ _, True) (_setup env self model).
Proof.
  unfold _setup. eapply frames_bind; [apply frames_call|].
  intros _ _. by apply frames_mret.
Qed.

Lemma quantize_frames {L} self model (fl : L) :
  algorithm (quantization_config self) = Some alg →
  frames alg (λ _, True) (quantize env self model fl).
Proof.
  intros Halg. unfold quantize. rewrite Halg.
  eapply frames_bind; [apply frames_call_total|]. intros _ _.
  eapply frames_bind; [apply frames__setup|]. intros model' _.
  eapply frames_bind; [apply frames_call|]. intros um _.
  eapply frames_bind; [apply frames__get_decoder_type|]. intros dt _.
  eapply frames_bind; [apply frames_choices_getitem|]. intros quant_cfg Hq.
  eapply (frames_bind (λ _, True)).
  { destruct (str_contains "awq" alg); [|by apply frames_mret].
    eapply frames_bind; [by apply frames_ref_getitem|]. intros qc Hqc.
    eapply frames_bind; [by apply frames_ref_getitem|]. intros wq Hwq.
    eapply frames_bind; [apply frames_ref_is_list|]. intros l _.
    eapply (frames_bind (λ r, r.1 = alg)).
    { destruct l; [by apply frames_ref_getitem | by apply frames_mret]. }
    intros wq' Hwq'.
    eapply frames_bind; [by apply frames_ref_getitem|]. intros bs Hbs.
    by apply frames_ref_setitem. }
  intros _ _.
  eapply frames_bind; [apply frames_call_total|]. intros _ _.
  eapply frames_bind; [by apply frames_ref_getitem|]. intros qc Hqc.
  eapply frames_bind; [by apply frames_ref_setitem|]. intros _ _.
  eapply (frames_bind (λ _, True)).
  { destruct (decide (alg = "int8_sq")); [|by apply frames_mret].
    eapply frames_bind; [apply frames_call_total|]. intros _ _.
    by apply frames_ref_setitem. }
  intros _ _.
  eapply frames_bind; [apply frames_load|]. intros recipe _.
  eapply frames_bind; [apply frames_call|]. intros um' _.
  eapply (frames_bind (λ _, True)).
  { destruct (decide (dt = "gptnext")); [apply frames_call | by apply frames_mret]. }
  intros um'' _.
  eapply frames_bind; [apply frames_call|]. intros rank _.
  eapply (frames_bind (λ _, True)).
  { destruct (rank =? 0); [apply frames_call | by apply frames_mret]. }
  intros _ _. by apply frames_mret.
Qed.

End Frames.

(** X21.  No [quantize] call, whether it returns or raises, adds a key to
    the table or removes one, and the recipe of every algorithm other than
    the quantizer's is after the call what it was before; with algorithm
    [None] the whole table is as before. *)
Theorem quantize_keeps_other_recipes {L} env self model (fl : L) w :
  let r := quantize env self model fl w in
  dom (QUANT_CFG_CHOICES r.2) = dom (QUANT_CFG_CHOICES w)
  ∧ (∀ a, algorithm (quantization_config self) ≠ Some a →
          QUANT_CFG_CHOICES r.2 !! a = QUANT_CFG_CHOICES w !! a)
  ∧ (algorithm (quantization_config self) = None →
     QUANT_CFG_CHOICES r.2 = QUANT_CFG_CHOICES w).
Proof.
  intros r. subst r.
  destruct (algorithm (quantization_config self)) as [alg|] eqn:Halg.
  - destruct (quantize env self model fl w) as [o w'] eqn:H.
    destruct (quantize_frames env alg self model fl Halg _ _ _ H) as [[Hd Hk] _].
    cbn [snd]. split; [exact Hd|]. split; [|done].
    intros a Ha. apply Hk. congruence.
  - unfold quantize. rewrite Halg. by cbn.
Qed.

(** ** A failing toolkit call *)

(** X22.  When the toolkit's quantize call raises, [quantize] raises the
    same exception and nothing happens after it; and the table entry of
    the algorithm is by then the recipe that was handed to the toolkit,
    with the output quantizer of this call written into it: the
    assignments are not undone. *)
Theorem quantize_toolkit_failure {L} env self model (fl : L) ec alg e w tmpl :
  raises env ModelFreeze = None →
  raises env GetUnwrappedMcoreModel = None →
  (∀ r, raises env (MtqQuantize r) = Some e) →
  export_config self = Some ec →
  algorithm (quantization_config self) = Some alg →
  QUANT_CFG_CHOICES w !! alg = Some tmpl →
  template_ok alg tmpl = true →
  ∃ dt recipe w',
    quantize env self model fl w = (Raise e, w')
    ∧ resolved_decoder_type self (mcore_config (module model)) = Some dt
    ∧ QUANT_CFG_CHOICES w' = <[alg := recipe]> (QUANT_CFG_CHOICES w)
    ∧ py_get_path recipe [KStr "quant_cfg"; KStr "*output_quantizer"]
      = Ok (output_quantizer_entry alg
              (kv_cache_flag (quantization_config self) alg dt))
    ∧ last (trace w') = Some (Raised (MtqQuantize recipe) e).
Proof.
  intros Hfreeze Hunwrap Hfail Hec Halg Htmpl Hok.
  assert (∃ dt, resolved_decoder_type self (mcore_config (module model)) = Some dt)
    as [dt Hdt].
  { unfold resolved_decoder_type. rewrite Hec.
    destruct (decoder_type ec) as [[|? ?]|]; by eexists. }
  destruct (template_ok_assignable alg tmpl
              (awq_block_size (quantization_config self))
              (output_quantizer_entry alg
                 (kv_cache_flag (quantization_config self) alg dt))
              (smoothquant_entry (sq_alpha (quantization_config self))) Hok)
    as (r1 & r2 & recipe & Hr1 & Hr2 & Hrec).
  exists dt, recipe.
  assert (Hout : py_get_path recipe [KStr "quant_cfg"; KStr "*output_quantizer"]
                 = Ok (output_quantizer_entry alg
                         (kv_cache_flag (quantization_config self) alg dt))).
  { cbn [py_get_path]. rewrite (smoothquant_keeps_quant_cfg _ _ _ _ Hrec).
    exact (py_get_set_path_eq _ _ _ _ _ Hr2). }
  
  destruct w as [T tr]. simpl in Htmpl.
  unfold quantize. rewrite Halg.
  erewrite bind_run; [|reflexivity].
  erewrite bind_run;
    [|unfold _setup; erewrite bind_run;
      [reflexivity | unfold call; by rewrite Hfreeze]].
  erewrite bind_run;
    [|unfold get_unwrapped_mcore_model, call; by rewrite Hunwrap].
  simpl module.
  match goal with
  | |- context [_get_decoder_type self ?c ≫= _] =>
      destruct (_get_decoder_type_run self c ec dt
                  (log (Returned GetUnwrappedMcoreModel)
                     (log (Returned ModelFreeze)
                        (log (Returned (LoggingInfo
                           [VStr "Quantizing model to "; VStr alg; VStr "..."]))
                           {| QUANT_CFG_CHOICES := T; trace := tr |})))
                  Hec Hdt) as [tw Hrun]
  end.
  erewrite bind_run; [|exact Hrun]. clear Hrun.
  unfold log. cbn [QUANT_CFG_CHOICES trace].
  match goal with
  | |- context [{| QUANT_CFG_CHOICES := T; trace := ?t |}] =>
      generalize t; intros tr4
  end.
  erewrite bind_run; [|unfold choices_getitem; simpl; by rewrite Htmpl].
  erewrite (bind_run _ _ _ ()
              {| QUANT_CFG_CHOICES := <[alg := r1]> T; trace := tr4 |}).
  2: { destruct (str_contains "awq" alg).
       - destruct Hr1 as (wq & Hwq & Hset).
         destruct (py_set_path_readable _ _ _ _ _ Hset) as [bs Hbs].
         unfold block_sizes_path in Hbs, Hset. unfold weight_quantizer_of in Hwq.
         destruct (py_get_path_prefix tmpl [KStr "quant_cfg"]
                     [KStr "*weight_quantizer"] wq Hwq) as [c Hqc].
         erewrite bind_run; [|by eapply ref_getitem_run].
         erewrite bind_run; [|by eapply ref_getitem_run].
         erewrite bind_run; [|by eapply ref_is_list_run].
         destruct (is_list wq) eqn:Hl.
         + destruct (py_get_path_prefix tmpl
                       ([KStr "quant_cfg"; KStr "*weight_quantizer"] ++ [KInt 0])
                       [KStr "block_sizes"] bs Hbs) as [c0 Hc0].
           erewrite bind_run; [|by eapply ref_getitem_run].
           erewrite bind_run; [|eapply ref_getitem_run; [done | exact Hbs]].
           erewrite ref_setitem_run; [reflexivity | done | exact Hset].
         + erewrite bind_run; [|reflexivity].
           erewrite bind_run; [|eapply ref_getitem_run; [done | exact Hbs]].
           erewrite ref_setitem_run; [reflexivity | done | exact Hset].
       - subst r1. rewrite insert_id; done. }
  erewrite bind_run; [|reflexivity].
  unfold log. cbn [QUANT_CFG_CHOICES trace].
  match goal with
  | |- context [{| QUANT_CFG_CHOICES := _; trace := ?t |}] =>
      generalize t; intros tr7
  end.
  apply py_set_path_cons_inv in Hr2 as Hqc. destruct Hqc as (c & c' & Hc & _).
  erewrite bind_run;
    [|eapply ref_getitem_run; [apply lookup_insert_eq | simpl; by rewrite Hc]].
  erewrite bind_run;
    [|eapply ref_setitem_run; [apply lookup_insert_eq | exact Hr2]].
  unfold set_choices. cbn [QUANT_CFG_CHOICES trace]. rewrite insert_insert_eq.
  erewrite (bind_run _ _ _ ()
              {| QUANT_CFG_CHOICES := <[alg := recipe]> T;
                 trace :=
                   (tr7 ++
                    if decide (alg = "int8_sq") then
                      [Returned (LoggingInfo
                         [VStr "Using int8_sq alpha = ";
                          VFloat (sq_alpha (quantization_config self))])]
                    else [])%list |}).
  2: { destruct (decide (alg = "int8_sq")).
       - erewrite bind_run; [|reflexivity].
         erewrite ref_setitem_run; [|apply lookup_insert_eq | exact Hrec].
         unfold set_choices, log. cbn [QUANT_CFG_CHOICES trace].
         rewrite insert_insert_eq. reflexivity.
       - subst recipe. unfold mret, M_ret. by rewrite app_nil_r. }
  match goal with
  | |- context [{| QUANT_CFG_CHOICES := _; trace := ?t |}] =>
      generalize t; intros tr10
  end.
  erewrite bind_run;
    [|unfold load; simpl; rewrite lookup_insert_eq; reflexivity].
  erewrite bind_raise; [|unfold call; rewrite Hfail; reflexivity].
  eexists. split; [reflexivity|]. split; [exact Hdt|].
  unfold log. cbn [QUANT_CFG_CHOICES trace].
  split; [reflexivity|]. split; [exact Hout|]. by rewrite last_snoc.
Qed.

Lemma quantize_toolkit_failure_witness :
  let e := RuntimeError "calibration failed" in
  let env := {| HAVE_MODELOPT := true;
                cuda_is_available := true;
                torch_dtype_from_precision := λ _, Ok bfloat16;
                get_rank := 0;
                os_path_exists := λ _, false;
                raises := λ c, match c with
                               | MtqQuantize _ => Some e
                               | _ => None
                               end |} in
  let self := sample_quantizer default_QuantizationConfig in
  let model := sample_model [LlamaConfig] in
  let w := initial_World sample_mtq in
  ∃ dt recipe w',
    quantize env self model () w = (Raise e, w')
    ∧ resolved_decoder_type self (mcore_config (module model)) = Some dt
    ∧ QUANT_CFG_CHOICES w' = <["fp8" := recipe]> (QUANT_CFG_CHOICES w)
    ∧ py_get_path recipe [KStr "quant_cfg"; KStr "*output_quantizer"]
      = Ok (output_quantizer_entry "fp8"
              (kv_cache_flag (quantization_config self) "fp8" dt))
    ∧ last (trace w') = Some (Raised (MtqQuantize recipe) e).
Proof.
  intros e env self model w.
  apply (quantize_toolkit_failure env self model () (default_ExportConfig "out")
           "fp8" e w (FP8_DEFAULT_CFG sample_mtq)).
  - reflexivity.
  - reflexivity.
  - intros r. reflexivity.
  - reflexivity.
  - reflexivity.
  - vm_compute. reflexivity.
  - vm_compute. reflexivity.
Defined.

(** ** From [quantize] to [export] *)

Lemma first_match_classes c1 c2 m :
  config_classes c1 = config_classes c2 → first_match c1 m = first_match c2 m.
Proof.
  intros Hc. induction m as [|[cls l] m IH]; [done|].
  cbn [first_match]. unfold isinstance. by rewrite Hc, IH.
Qed.

(** X23.  [quantize] resolves the decoder type on the configuration of the
    unwrapped module, [export] on the configuration of the model.  When
    the two configurations are of the same classes, an export of the model
    a completed [quantize] call returned hands the export toolkit the
    decoder type that call used, and the torch dtype that call put on the
    model's configuration; the table still holds the recipe the model was
    quantized with. *)
Theorem quantize_then_export {L} env self model (fl : L) p alg w m1 w1 self2 w2 :
  algorithm (quantization_config self) = Some alg →
  config_classes (config model) = config_classes (mcore_config (module model)) →
  quantize env self model fl w = (Ok m1, w1) →
  export env self m1 p w1 = (Ok self2, w2) →
  ∃ dt recipe ec nfs,
    resolved_decoder_type self (mcore_config (module model)) = Some dt
    ∧ export_config self = Some ec
    ∧ QUANT_CFG_CHOICES w2 !! alg = Some recipe
    ∧ Returned (MtqQuantize recipe) ∈ trace w2
    ∧ Returned (ExportTensorrtLlmCheckpoint dt (torch_dtype self) (path ec)
                  (inference_tensor_parallel ec)
                  (inference_pipeline_parallel ec) nfs) ∈ trace w2
    ∧ pipeline_dtype (config m1) = Some (torch_dtype self).
Proof.
  intros Halg Hcls Hq H.
  destruct (quantize_ok_calls _ _ _ _ _ _ _ _ Halg Hq)
    as (dt & recipe & Hdt & Hrecipe & Hm1 & Htr).
  assert (Hin : Returned (MtqQuantize recipe) ∈ trace w1).
  { rewrite Htr. unfold quantize_calls. set_solver. }
  assert (Hfm : first_match (config m1) mapping
                = first_match (mcore_config (module model)) mapping).
  { apply first_match_classes. by subst m1. }
  assert (Hpd : pipeline_dtype (config m1) = Some (torch_dtype self))
    by (by subst m1).
  clear Hm1 Htr Hq.
  exists dt, recipe.
  unfold export in H.
  destruct (export_config self) as [ec|] eqn:Hec; [|discriminate H].
  exists ec.
  exists ((1 <? num_nodes m1)
          || (1 <? pipeline_model_parallel_size (config m1))).
  unfold get_unwrapped_mcore_model, _get_decoder_type, get_modelopt_decoder_type,
    logging_warning, logging_info, os_path_exists_call, call_total, call,
    mbind, M_bind, mret, M_ret in H.
  rewrite Hec, Hfm in H.
  cbn [nemo_checkpoint_path with_nemo_checkpoint_path] in H.
  pose proof Hdt as Hres.
  unfold resolved_decoder_type in Hdt. rewrite Hec in Hdt.
  repeat export_step H env.
  all: try discriminate H.
  all: injection H as <- <-; unfold log; cbn [trace QUANT_CFG_CHOICES].
  all: repeat match goal with
         | E : decoder_type _ = _ |- _ => rewrite E in Hdt; clear E
         | E : first_match _ _ = _ |- _ => rewrite E in Hdt; clear E
         end.
  all: cbn [default] in Hdt; injection Hdt as <-.
  all: split; [exact Hres|]; split; [reflexivity|]; split; [exact Hrecipe|].
  all: split; [|split; [|exact Hpd]].
  all: rewrite ?elem_of_app; rewrite ?elem_of_cons; tauto.
Qed.

Lemma quantize_then_export_witness :
  let qc := default_QuantizationConfig in
  let self := sample_quantizer qc in
  let model := sample_model [NemotronConfig] in
  let r1 := sample_quantize qc [NemotronConfig] in
  let m1 := returned_or model r1.1 in
  let r2 := export sample_env self m1 (Some "ckpt") r1.2 in
  ∃ dt recipe ec nfs,
    resolved_decoder_type self (mcore_config (module model)) = Some dt
    ∧ export_config self = Some ec
    ∧ QUANT_CFG_CHOICES r2.2 !! "fp8" = Some recipe
    ∧ Returned (MtqQuantize recipe) ∈ trace r2.2
    ∧ Returned (ExportTensorrtLlmCheckpoint dt (torch_dtype self) (path ec)
                  (inference_tensor_parallel ec)
                  (inference_pipeline_parallel ec) nfs) ∈ trace r2.2
    ∧ pipeline_dtype (config m1) = Some (torch_dtype self).
Proof.
  intros qc self model r1 m1 r2.
  apply (quantize_then_export sample_env self model () (Some "ckpt") "fp8"
           (initial_World sample_mtq) m1 r1.2 (returned_or self r2.1) r2.2).
  - reflexivity.
  - reflexivity.
  - vm_compute. reflexivity.
  - vm_compute. reflexivity.
Defined.
